(** * JT/T 808 frame parser: a shallow embedding of parser.cc

    The development follows the C++ source function by function.
    Integers of fixed width are values of [Z] with the truncation
    written where the source assigns to a narrower type, byte buffers
    are lists of [byte], [std::map] is [gmap], a pointer argument is an
    [option] (with [None] the null pointer) and the pointee is threaded
    through the call.  A computation that reads past the end of a buffer
    has no defined result in C++; such a run is [None] here. *)

From Stdlib Require Import ZArith List Lia.
From Stdlib Require Import Strings.Byte Strings.String.
From Stdlib Require Import Floats.
From stdpp Require Import base option list gmap strings.
Local Open Scope Z_scope.

(** ** Fixed-width integers *)

Definition u8 (z : Z) : Z := z mod 256.
Definition u16 (z : Z) : Z := z mod 65536.
Definition u32 (z : Z) : Z := z mod 4294967296.
Definition size_t (z : Z) : Z := z mod 18446744073709551616.

(** ** Input buffers *)

Abbreviation InputBuffer := (list byte).

Definition byteZ (b : byte) : Z := Z.of_N (Byte.to_N b).

(** [in.size()] *)
Definition in_size (inb : InputBuffer) : Z := Z.of_nat (length inb).

(** [in[i]]: defined only inside the buffer. *)
Definition rd (inb : InputBuffer) (i : Z) : option Z :=
  if decide (0 ≤ i) then byteZ <$> inb !! Z.to_nat i else None.

(** The iterator range [in.begin() + a, in.begin() + b), as used by
    [assign] and [memcpy]: defined only when [a <= b <= in.size()]. *)
Definition slice (inb : InputBuffer) (a b : Z) : option (list byte) :=
  if decide (0 ≤ a ∧ a ≤ b ∧ b ≤ in_size inb)
  then Some (take (Z.to_nat (b - a)) (drop (Z.to_nat a) inb))
  else None.

(** ** util.h: byte-order helpers *)

(** Modelled from the spec: util.h is not among the sources.  The unions
    [U16ToU8Array] and [U32ToU8Array] overlay an integer ([u16val],
    [u32val]) with its bytes [u8array], least significant byte first as
    on the hosts the library is built for; this is the integer of a
    byte array. *)
Fixpoint u8array_val (u8array : list byte) : Z :=
  match u8array with
  | [] => 0
  | b :: rest => byteZ b + 256 * u8array_val rest
  end.

(** Modelled from the spec: util.h is not among the sources.
    [EndianSwap16] reverses the two bytes of its argument, so that
    [memcpy] into the union followed by the swap reads a big-endian
    integer, which is what sections 4.1 and 6 of the spec prescribe. *)
Definition EndianSwap16 (u16val : Z) : Z :=
  u16 (Z.shiftl (Z.land u16val 0x00FF) 8 + Z.shiftr (Z.land u16val 0xFF00) 8).

(** Modelled from the spec: util.h is not among the sources.
    [EndianSwap32] reverses the four bytes of its argument. *)
Definition EndianSwap32 (u32val : Z) : Z :=
  u32 (Z.shiftl (Z.land u32val 0x000000FF) 24 + Z.shiftl (Z.land u32val 0x0000FF00) 8
       + Z.shiftr (Z.land u32val 0x00FF0000) 8 + Z.shiftr (Z.land u32val 0xFF000000) 24).

(** ** Helpers of util.cc, bcd.cc and area_route.h

    These functions are called by parser.cc but their bodies are not
    among the sources, so the embedding takes them as parameters; every
    theorem below holds for any implementation of them.  An instance
    following the spec is given further down and used for the concrete
    frames. *)

Class Util : Type := {
  (** [ReverseEscape(in, out)]: [None] when the result is negative,
      otherwise the unescaped bytes left in [out]. *)
  ReverseEscape : InputBuffer → option (list byte);
  (** [BccCheckSum(src, len)] over the [len] bytes at [src]. *)
  BccCheckSum : list byte → Z;
  (** [BcdToString(bcd, &str)]: the return code and the new contents of
      [str], given its old contents. *)
  BcdToString : list byte → string → Z * string;
  (** [BcdToStringFillZero(bcd, &str)], likewise. *)
  BcdToStringFillZero : list byte → string → Z * string;
  (** The bit-fields [bit.by_time] and [bit.speed_limit] of the union
      [AreaAttribute], as functions of its [value]. *)
  bit_by_time : Z → bool;
  bit_speed_limit : Z → bool
}.

(** ** protocol_parameter.h *)

(** [union MsgBodyAttribute]: the header keeps [u16val]; the bit-fields
    are read from it, first declared field in the low bits. *)
Definition bit_msglen (u16val : Z) : Z := Z.land u16val 0x3FF.
Definition bit_encrypt (u16val : Z) : Z := Z.land (Z.shiftr u16val 10) 0x7.
Definition bit_packet (u16val : Z) : Z := Z.land (Z.shiftr u16val 13) 0x1.
Definition bit_retain (u16val : Z) : Z := Z.land (Z.shiftr u16val 14) 0x3.

Definition MSGBODY_NOPACKET_POS : Z := 13.
Definition MSGBODY_PACKET_POS : Z := 17.

Definition PROTOCOL_SIGN : Z := 0x7E.
Definition PROTOCOL_ESCAPE : Z := 0x7D.
Definition PROTOCOL_ESCAPE_SIGN : Z := 0x02.
Definition PROTOCOL_ESCAPE_ESCAPE : Z := 0x01.

Definition kTerminalGeneralResponse : Z := 0x0001.
Definition kPlatformGeneralResponse : Z := 0x8001.
Definition kTerminalHeartBeat : Z := 0x0002.
Definition kFillPacketRequest : Z := 0x8003.
Definition kTerminalRegister : Z := 0x0100.
Definition kTerminalRegisterResponse : Z := 0x8100.
Definition kTerminalLogOut : Z := 0x0003.
Definition kTerminalAuthentication : Z := 0x0102.
Definition kSetTerminalParameters : Z := 0x8103.
Definition kGetTerminalParameters : Z := 0x8104.
Definition kGetSpecificTerminalParameters : Z := 0x8106.
Definition kGetTerminalParametersResponse : Z := 0x0104.
Definition kTerminalUpgrade : Z := 0x8108.
Definition kTerminalUpgradeResultReport : Z := 0x0108.
Definition kLocationReport : Z := 0x0200.
Definition kGetLocationInformation : Z := 0x8201.
Definition kGetLocationInformationResponse : Z := 0x0201.
Definition kLocationTrackingControl : Z := 0x8202.
Definition kSetPolygonArea : Z := 0x8604.
Definition kDeletePolygonArea : Z := 0x8605.
Definition kMultimediaDataUpload : Z := 0x0801.
Definition kMultimediaDataUploadResponse : Z := 0x8800.

(** [enum VehiclePlateColor] *)
Definition kVin : Z := 0x0.

(** The structures of protocol_parameter.h, location_report.h,
    area_route.h and multimedia_upload.h.  A union of bit-fields with an
    integer ([AlarmBit], [StatusBit], [AreaAttribute],
    [MsgBodyAttribute]) is kept as the integer.  Each record comes with
    the field updates the parser performs. *)

Record MsgHead : Type := Build_MsgHead {
  msg_id : Z;
  msgbody_attr : Z;
  phone_num : string;
  msg_flow_num : Z;
  total_packet : Z;
  packet_seq : Z
}.

Definition set_msg_id (v : Z) (r : MsgHead) : MsgHead :=
  {| msg_id := v; msgbody_attr := msgbody_attr r; phone_num := phone_num r;
     msg_flow_num := msg_flow_num r; total_packet := total_packet r;
     packet_seq := packet_seq r |}.
Definition set_msgbody_attr (v : Z) (r : MsgHead) : MsgHead :=
  {| msg_id := msg_id r; msgbody_attr := v; phone_num := phone_num r;
     msg_flow_num := msg_flow_num r; total_packet := total_packet r;
     packet_seq := packet_seq r |}.
Definition set_phone_num (v : string) (r : MsgHead) : MsgHead :=
  {| msg_id := msg_id r; msgbody_attr := msgbody_attr r; phone_num := v;
     msg_flow_num := msg_flow_num r; total_packet := total_packet r;
     packet_seq := packet_seq r |}.
Definition set_msg_flow_num (v : Z) (r : MsgHead) : MsgHead :=
  {| msg_id := msg_id r; msgbody_attr := msgbody_attr r; phone_num := phone_num r;
     msg_flow_num := v; total_packet := total_packet r; packet_seq := packet_seq r |}.
Definition set_total_packet (v : Z) (r : MsgHead) : MsgHead :=
  {| msg_id := msg_id r; msgbody_attr := msgbody_attr r; phone_num := phone_num r;
     msg_flow_num := msg_flow_num r; total_packet := v; packet_seq := packet_seq r |}.
Definition set_packet_seq (v : Z) (r : MsgHead) : MsgHead :=
  {| msg_id := msg_id r; msgbody_attr := msgbody_attr r; phone_num := phone_num r;
     msg_flow_num := msg_flow_num r; total_packet := total_packet r; packet_seq := v |}.

Module RegisterInfo.
Record t : Type := mk {
  province_id : Z;
  city_id : Z;
  manufacturer_id : list byte;
  terminal_model : list byte;
  terminal_id : list byte;
  car_plate_color : Z;
  car_plate_num : string
}.

Definition set_province_id (v : Z) (r : t) : t :=
  {| province_id := v; city_id := city_id r; manufacturer_id := manufacturer_id r;
     terminal_model := terminal_model r; terminal_id := terminal_id r;
     car_plate_color := car_plate_color r; car_plate_num := car_plate_num r |}.
Definition set_city_id (v : Z) (r : t) : t :=
  {| province_id := province_id r; city_id := v; manufacturer_id := manufacturer_id r;
     terminal_model := terminal_model r; terminal_id := terminal_id r;
     car_plate_color := car_plate_color r; car_plate_num := car_plate_num r |}.
Definition set_manufacturer_id (v : list byte) (r : t) : t :=
  {| province_id := province_id r; city_id := city_id r; manufacturer_id := v;
     terminal_model := terminal_model r; terminal_id := terminal_id r;
     car_plate_color := car_plate_color r; car_plate_num := car_plate_num r |}.
Definition set_terminal_model (v : list byte) (r : t) : t :=
  {| province_id := province_id r; city_id := city_id r; manufacturer_id := manufacturer_id r;
     terminal_model := v; terminal_id := terminal_id r; car_plate_color := car_plate_color r;
     car_plate_num := car_plate_num r |}.
Definition set_terminal_id (v : list byte) (r : t) : t :=
  {| province_id := province_id r; city_id := city_id r; manufacturer_id := manufacturer_id r;
     terminal_model := terminal_model r; terminal_id := v;
     car_plate_color := car_plate_color r; car_plate_num := car_plate_num r |}.
Definition set_car_plate_color (v : Z) (r : t) : t :=
  {| province_id := province_id r; city_id := city_id r; manufacturer_id := manufacturer_id r;
     terminal_model := terminal_model r; terminal_id := terminal_id r; car_plate_color := v;
     car_plate_num := car_plate_num r |}.
Definition set_car_plate_num (v : string) (r : t) : t :=
  {| province_id := province_id r; city_id := city_id r; manufacturer_id := manufacturer_id r;
     terminal_model := terminal_model r; terminal_id := terminal_id r;
     car_plate_color := car_plate_color r; car_plate_num := v |}.
End RegisterInfo.

Module UpgradeInfo.
Record t : Type := mk {
  upgrade_type : Z;
  upgrade_result : Z;
  manufacturer_id : list byte;
  version_id : string;
  upgrade_data_total_len : Z;
  upgrade_data : list byte
}.

Definition set_upgrade_type (v : Z) (r : t) : t :=
  {| upgrade_type := v; upgrade_result := upgrade_result r;
     manufacturer_id := manufacturer_id r; version_id := version_id r;
     upgrade_data_total_len := upgrade_data_total_len r; upgrade_data := upgrade_data r |}.
Definition set_upgrade_result (v : Z) (r : t) : t :=
  {| upgrade_type := upgrade_type r; upgrade_result := v; manufacturer_id := manufacturer_id r;
     version_id := version_id r; upgrade_data_total_len := upgrade_data_total_len r;
     upgrade_data := upgrade_data r |}.
Definition set_manufacturer_id (v : list byte) (r : t) : t :=
  {| upgrade_type := upgrade_type r; upgrade_result := upgrade_result r; manufacturer_id := v;
     version_id := version_id r; upgrade_data_total_len := upgrade_data_total_len r;
     upgrade_data := upgrade_data r |}.
Definition set_version_id (v : string) (r : t) : t :=
  {| upgrade_type := upgrade_type r; upgrade_result := upgrade_result r;
     manufacturer_id := manufacturer_id r; version_id := v;
     upgrade_data_total_len := upgrade_data_total_len r; upgrade_data := upgrade_data r |}.
Definition set_upgrade_data_total_len (v : Z) (r : t) : t :=
  {| upgrade_type := upgrade_type r; upgrade_result := upgrade_result r;
     manufacturer_id := manufacturer_id r; version_id := version_id r;
     upgrade_data_total_len := v; upgrade_data := upgrade_data r |}.
Definition set_upgrade_data (v : list byte) (r : t) : t :=
  {| upgrade_type := upgrade_type r; upgrade_result := upgrade_result r;
     manufacturer_id := manufacturer_id r; version_id := version_id r;
     upgrade_data_total_len := upgrade_data_total_len r; upgrade_data := v |}.
End UpgradeInfo.

Record FillPacket : Type := Build_FillPacket {
  first_packet_msg_flow_num : Z;
  packet_id : list Z
}.

Definition set_first_packet_msg_flow_num (v : Z) (r : FillPacket) : FillPacket :=
  {| first_packet_msg_flow_num := v; packet_id := packet_id r |}.
Definition set_packet_id (v : list Z) (r : FillPacket) : FillPacket :=
  {| first_packet_msg_flow_num := first_packet_msg_flow_num r; packet_id := v |}.

Module LocationBasicInformation.
Record t : Type := mk {
  alarm : Z;
  status : Z;
  latitude : Z;
  longitude : Z;
  altitude : Z;
  speed : Z;
  bearing : Z;
  time : string
}.

Definition set_alarm (v : Z) (r : t) : t :=
  {| alarm := v; status := status r; latitude := latitude r; longitude := longitude r;
     altitude := altitude r; speed := speed r; bearing := bearing r; time := time r |}.
Definition set_status (v : Z) (r : t) : t :=
  {| alarm := alarm r; status := v; latitude := latitude r; longitude := longitude r;
     altitude := altitude r; speed := speed r; bearing := bearing r; time := time r |}.
Definition set_latitude (v : Z) (r : t) : t :=
  {| alarm := alarm r; status := status r; latitude := v; longitude := longitude r;
     altitude := altitude r; speed := speed r; bearing := bearing r; time := time r |}.
Definition set_longitude (v : Z) (r : t) : t :=
  {| alarm := alarm r; status := status r; latitude := latitude r; longitude := v;
     altitude := altitude r; speed := speed r; bearing := bearing r; time := time r |}.
Definition set_altitude (v : Z) (r : t) : t :=
  {| alarm := alarm r; status := status r; latitude := latitude r; longitude := longitude r;
     altitude := v; speed := speed r; bearing := bearing r; time := time r |}.
Definition set_speed (v : Z) (r : t) : t :=
  {| alarm := alarm r; status := status r; latitude := latitude r; longitude := longitude r;
     altitude := altitude r; speed := v; bearing := bearing r; time := time r |}.
Definition set_bearing (v : Z) (r : t) : t :=
  {| alarm := alarm r; status := status r; latitude := latitude r; longitude := longitude r;
     altitude := altitude r; speed := speed r; bearing := v; time := time r |}.
Definition set_time (v : string) (r : t) : t :=
  {| alarm := alarm r; status := status r; latitude := latitude r; longitude := longitude r;
     altitude := altitude r; speed := speed r; bearing := bearing r; time := v |}.
End LocationBasicInformation.

Record LocationTrackingControl : Type := Build_LocationTrackingControl {
  interval : Z;
  tracking_time : Z
}.

Definition set_interval (v : Z) (r : LocationTrackingControl) : LocationTrackingControl :=
  {| interval := v; tracking_time := tracking_time r |}.
Definition set_tracking_time (v : Z) (r : LocationTrackingControl) : LocationTrackingControl :=
  {| interval := interval r; tracking_time := v |}.

(** Modelled from the spec: area_route.h is not among the sources.  A
    vertex, in degrees. *)
Module LocationPoint.
Record t : Type := mk {
  latitude : float;  (* NOSET *)
  longitude : float  (* NOSET *)
}.

End LocationPoint.

(** Modelled from the spec: area_route.h is not among the sources.  The
    polygon area of section 3, with the member names parser.cc uses. *)
Record PolygonArea : Type := Build_PolygonArea {
  area_id : Z;
  area_attribute : Z;
  start_time : string;
  stop_time : string;
  max_speed : Z;
  overspeed_time : Z;
  vertices : list LocationPoint.t
}.

Definition set_area_id (v : Z) (r : PolygonArea) : PolygonArea :=
  {| area_id := v; area_attribute := area_attribute r; start_time := start_time r;
     stop_time := stop_time r; max_speed := max_speed r; overspeed_time := overspeed_time r;
     vertices := vertices r |}.
Definition set_area_attribute (v : Z) (r : PolygonArea) : PolygonArea :=
  {| area_id := area_id r; area_attribute := v; start_time := start_time r;
     stop_time := stop_time r; max_speed := max_speed r; overspeed_time := overspeed_time r;
     vertices := vertices r |}.
Definition set_start_time (v : string) (r : PolygonArea) : PolygonArea :=
  {| area_id := area_id r; area_attribute := area_attribute r; start_time := v;
     stop_time := stop_time r; max_speed := max_speed r; overspeed_time := overspeed_time r;
     vertices := vertices r |}.
Definition set_stop_time (v : string) (r : PolygonArea) : PolygonArea :=
  {| area_id := area_id r; area_attribute := area_attribute r; start_time := start_time r;
     stop_time := v; max_speed := max_speed r; overspeed_time := overspeed_time r;
     vertices := vertices r |}.
Definition set_max_speed (v : Z) (r : PolygonArea) : PolygonArea :=
  {| area_id := area_id r; area_attribute := area_attribute r; start_time := start_time r;
     stop_time := stop_time r; max_speed := v; overspeed_time := overspeed_time r;
     vertices := vertices r |}.
Definition set_overspeed_time (v : Z) (r : PolygonArea) : PolygonArea :=
  {| area_id := area_id r; area_attribute := area_attribute r; start_time := start_time r;
     stop_time := stop_time r; max_speed := max_speed r; overspeed_time := v;
     vertices := vertices r |}.
Definition set_vertices (v : list LocationPoint.t) (r : PolygonArea) : PolygonArea :=
  {| area_id := area_id r; area_attribute := area_attribute r; start_time := start_time r;
     stop_time := stop_time r; max_speed := max_speed r; overspeed_time := overspeed_time r;
     vertices := v |}.

(** Modelled from the spec: multimedia_upload.h is not among the sources.
    The multimedia upload of section 3, with the member names parser.cc
    uses. *)
Module MultiMediaDataUpload.
Record t : Type := mk {
  media_id : Z;
  media_type : Z;
  media_format : Z;
  media_event : Z;
  channel_id : Z;
  loaction_report_body : list byte;
  media_data : list byte
}.

Definition set_media_id (v : Z) (r : t) : t :=
  {| media_id := v; media_type := media_type r; media_format := media_format r;
     media_event := media_event r; channel_id := channel_id r;
     loaction_report_body := loaction_report_body r; media_data := media_data r |}.
Definition set_media_type (v : Z) (r : t) : t :=
  {| media_id := media_id r; media_type := v; media_format := media_format r;
     media_event := media_event r; channel_id := channel_id r;
     loaction_report_body := loaction_report_body r; media_data := media_data r |}.
Definition set_media_format (v : Z) (r : t) : t :=
  {| media_id := media_id r; media_type := media_type r; media_format := v;
     media_event := media_event r; channel_id := channel_id r;
     loaction_report_body := loaction_report_body r; media_data := media_data r |}.
Definition set_media_event (v : Z) (r : t) : t :=
  {| media_id := media_id r; media_type := media_type r; media_format := media_format r;
     media_event := v; channel_id := channel_id r;
     loaction_report_body := loaction_report_body r; media_data := media_data r |}.
Definition set_channel_id (v : Z) (r : t) : t :=
  {| media_id := media_id r; media_type := media_type r; media_format := media_format r;
     media_event := media_event r; channel_id := v;
     loaction_report_body := loaction_report_body r; media_data := media_data r |}.
Definition set_loaction_report_body (v : list byte) (r : t) : t :=
  {| media_id := media_id r; media_type := media_type r; media_format := media_format r;
     media_event := media_event r; channel_id := channel_id r; loaction_report_body := v;
     media_data := media_data r |}.
Definition set_media_data (v : list byte) (r : t) : t :=
  {| media_id := media_id r; media_type := media_type r; media_format := media_format r;
     media_event := media_event r; channel_id := channel_id r;
     loaction_report_body := loaction_report_body r; media_data := v |}.
End MultiMediaDataUpload.

(** Modelled from the spec: multimedia_upload.h is not among the sources.
    The multimedia upload response of section 3. *)
Module MultiMediaDataUploadResponse.
Record t : Type := mk {
  media_id : Z;
  reload_packet_ids : list Z
}.

Definition set_media_id (v : Z) (r : t) : t :=
  {| media_id := v; reload_packet_ids := reload_packet_ids r |}.
Definition set_reload_packet_ids (v : list Z) (r : t) : t :=
  {| media_id := media_id r; reload_packet_ids := v |}.
End MultiMediaDataUploadResponse.

Record VersionInformation : Type := Build_VersionInformation {
  version : string;  (* NOSET *)
  rel_date : string;  (* NOSET *)
  cpu_id : list byte;  (* NOSET *)
  model : string;  (* NOSET *)
  imei : string;  (* NOSET *)
  imsi : string;  (* NOSET *)
  iccid : string;  (* NOSET *)
  car_model : Z;  (* NOSET *)
  vin : string;  (* NOSET *)
  tot_mileage : Z;  (* NOSET *)
  tot_fuel : Z  (* NOSET *)
}.


Record CardInfo : Type := Build_CardInfo {
  name : string;  (* NOSET *)
  country : string;  (* NOSET *)
  citizen_id : string;  (* NOSET *)
  expire_date : string;  (* NOSET *)
  dob : string;  (* NOSET *)
  license_type : string;  (* NOSET *)
  gender : string;  (* NOSET *)
  license_id : string;  (* NOSET *)
  issuing_branch : string;  (* NOSET *)
  track : string  (* NOSET *)
}.


Record DrivingLicenseData : Type := Build_DrivingLicenseData {
  card_info : CardInfo;  (* NOSET *)
  login_sts : Z;  (* NOSET *)
  dlt_allow_flg : Z  (* NOSET *)
}.


Module CANInfo.
Record t : Type := mk {
  id : Z;  (* NOSET *)
  data : list byte  (* NOSET *)
}.

End CANInfo.

Record CANBroadcastData : Type := Build_CANBroadcastData {
  nbr_of_data : Z;  (* NOSET *)
  recv_time : string;  (* NOSET *)
  can_info : CANInfo.t  (* NOSET *)
}.


Record Fields : Type := Build_Fields {
  respone_result : Z;
  respone_msg_id : Z;
  respone_flow_num : Z;
  msg_head : MsgHead;
  register_info : RegisterInfo.t;
  authentication_code : list byte;
  terminal_parameters : gmap Z (list byte);  (* TerminalParameters, a std::map *)
  terminal_parameter_ids : list Z;
  location_info : LocationBasicInformation.t;
  location_extension : gmap Z (list byte);  (* LocationExtensions, a std::map *)
  location_tracking_control : LocationTrackingControl;
  polygon_area : PolygonArea;
  polygon_area_id : list Z;
  upgrade_info : UpgradeInfo.t;
  fill_packet : FillPacket;
  multimedia_upload : MultiMediaDataUpload.t;
  multimedia_upload_response : MultiMediaDataUploadResponse.t;
  retain : list byte;  (* NOSET *)
  version_info : VersionInformation;  (* NOSET *)
  license_data : DrivingLicenseData;  (* NOSET *)
  can_data : CANBroadcastData  (* NOSET *)
}.

Definition set_respone_result (v : Z) (r : Fields) : Fields :=
  {| respone_result := v; respone_msg_id := respone_msg_id r;
     respone_flow_num := respone_flow_num r; msg_head := msg_head r;
     register_info := register_info r; authentication_code := authentication_code r;
     terminal_parameters := terminal_parameters r;
     terminal_parameter_ids := terminal_parameter_ids r; location_info := location_info r;
     location_extension := location_extension r;
     location_tracking_control := location_tracking_control r; polygon_area := polygon_area r;
     polygon_area_id := polygon_area_id r; upgrade_info := upgrade_info r;
     fill_packet := fill_packet r; multimedia_upload := multimedia_upload r;
     multimedia_upload_response := multimedia_upload_response r; retain := retain r;
     version_info := version_info r; license_data := license_data r; can_data := can_data r |}.
Definition set_respone_msg_id (v : Z) (r : Fields) : Fields :=
  {| respone_result := respone_result r; respone_msg_id := v;
     respone_flow_num := respone_flow_num r; msg_head := msg_head r;
     register_info := register_info r; authentication_code := authentication_code r;
     terminal_parameters := terminal_parameters r;
     terminal_parameter_ids := terminal_parameter_ids r; location_info := location_info r;
     location_extension := location_extension r;
     location_tracking_control := location_tracking_control r; polygon_area := polygon_area r;
     polygon_area_id := polygon_area_id r; upgrade_info := upgrade_info r;
     fill_packet := fill_packet r; multimedia_upload := multimedia_upload r;
     multimedia_upload_response := multimedia_upload_response r; retain := retain r;
     version_info := version_info r; license_data := license_data r; can_data := can_data r |}.
Definition set_respone_flow_num (v : Z) (r : Fields) : Fields :=
  {| respone_result := respone_result r; respone_msg_id := respone_msg_id r;
     respone_flow_num := v; msg_head := msg_head r; register_info := register_info r;
     authentication_code := authentication_code r;
     terminal_parameters := terminal_parameters r;
     terminal_parameter_ids := terminal_parameter_ids r; location_info := location_info r;
     location_extension := location_extension r;
     location_tracking_control := location_tracking_control r; polygon_area := polygon_area r;
     polygon_area_id := polygon_area_id r; upgrade_info := upgrade_info r;
     fill_packet := fill_packet r; multimedia_upload := multimedia_upload r;
     multimedia_upload_response := multimedia_upload_response r; retain := retain r;
     version_info := version_info r; license_data := license_data r; can_data := can_data r |}.
Definition set_msg_head (v : MsgHead) (r : Fields) : Fields :=
  {| respone_result := respone_result r; respone_msg_id := respone_msg_id r;
     respone_flow_num := respone_flow_num r; msg_head := v; register_info := register_info r;
     authentication_code := authentication_code r;
     terminal_parameters := terminal_parameters r;
     terminal_parameter_ids := terminal_parameter_ids r; location_info := location_info r;
     location_extension := location_extension r;
     location_tracking_control := location_tracking_control r; polygon_area := polygon_area r;
     polygon_area_id := polygon_area_id r; upgrade_info := upgrade_info r;
     fill_packet := fill_packet r; multimedia_upload := multimedia_upload r;
     multimedia_upload_response := multimedia_upload_response r; retain := retain r;
     version_info := version_info r; license_data := license_data r; can_data := can_data r |}.
Definition set_register_info (v : RegisterInfo.t) (r : Fields) : Fields :=
  {| respone_result := respone_result r; respone_msg_id := respone_msg_id r;
     respone_flow_num := respone_flow_num r; msg_head := msg_head r; register_info := v;
     authentication_code := authentication_code r;
     terminal_parameters := terminal_parameters r;
     terminal_parameter_ids := terminal_parameter_ids r; location_info := location_info r;
     location_extension := location_extension r;
     location_tracking_control := location_tracking_control r; polygon_area := polygon_area r;
     polygon_area_id := polygon_area_id r; upgrade_info := upgrade_info r;
     fill_packet := fill_packet r; multimedia_upload := multimedia_upload r;
     multimedia_upload_response := multimedia_upload_response r; retain := retain r;
     version_info := version_info r; license_data := license_data r; can_data := can_data r |}.
Definition set_authentication_code (v : list byte) (r : Fields) : Fields :=
  {| respone_result := respone_result r; respone_msg_id := respone_msg_id r;
     respone_flow_num := respone_flow_num r; msg_head := msg_head r;
     register_info := register_info r; authentication_code := v;
     terminal_parameters := terminal_parameters r;
     terminal_parameter_ids := terminal_parameter_ids r; location_info := location_info r;
     location_extension := location_extension r;
     location_tracking_control := location_tracking_control r; polygon_area := polygon_area r;
     polygon_area_id := polygon_area_id r; upgrade_info := upgrade_info r;
     fill_packet := fill_packet r; multimedia_upload := multimedia_upload r;
     multimedia_upload_response := multimedia_upload_response r; retain := retain r;
     version_info := version_info r; license_data := license_data r; can_data := can_data r |}.
Definition set_terminal_parameters (v : gmap Z (list byte)) (r : Fields) : Fields :=
  {| respone_result := respone_result r; respone_msg_id := respone_msg_id r;
     respone_flow_num := respone_flow_num r; msg_head := msg_head r;
     register_info := register_info r; authentication_code := authentication_code r;
     terminal_parameters := v; terminal_parameter_ids := terminal_parameter_ids r;
     location_info := location_info r; location_extension := location_extension r;
     location_tracking_control := location_tracking_control r; polygon_area := polygon_area r;
     polygon_area_id := polygon_area_id r; upgrade_info := upgrade_info r;
     fill_packet := fill_packet r; multimedia_upload := multimedia_upload r;
     multimedia_upload_response := multimedia_upload_response r; retain := retain r;
     version_info := version_info r; license_data := license_data r; can_data := can_data r |}.
Definition set_terminal_parameter_ids (v : list Z) (r : Fields) : Fields :=
  {| respone_result := respone_result r; respone_msg_id := respone_msg_id r;
     respone_flow_num := respone_flow_num r; msg_head := msg_head r;
     register_info := register_info r; authentication_code := authentication_code r;
     terminal_parameters := terminal_parameters r; terminal_parameter_ids := v;
     location_info := location_info r; location_extension := location_extension r;
     location_tracking_control := location_tracking_control r; polygon_area := polygon_area r;
     polygon_area_id := polygon_area_id r; upgrade_info := upgrade_info r;
     fill_packet := fill_packet r; multimedia_upload := multimedia_upload r;
     multimedia_upload_response := multimedia_upload_response r; retain := retain r;
     version_info := version_info r; license_data := license_data r; can_data := can_data r |}.
Definition set_location_info (v : LocationBasicInformation.t) (r : Fields) : Fields :=
  {| respone_result := respone_result r; respone_msg_id := respone_msg_id r;
     respone_flow_num := respone_flow_num r; msg_head := msg_head r;
     register_info := register_info r; authentication_code := authentication_code r;
     terminal_parameters := terminal_parameters r;
     terminal_parameter_ids := terminal_parameter_ids r; location_info := v;
     location_extension := location_extension r;
     location_tracking_control := location_tracking_control r; polygon_area := polygon_area r;
     polygon_area_id := polygon_area_id r; upgrade_info := upgrade_info r;
     fill_packet := fill_packet r; multimedia_upload := multimedia_upload r;
     multimedia_upload_response := multimedia_upload_response r; retain := retain r;
     version_info := version_info r; license_data := license_data r; can_data := can_data r |}.
Definition set_location_extension (v : gmap Z (list byte)) (r : Fields) : Fields :=
  {| respone_result := respone_result r; respone_msg_id := respone_msg_id r;
     respone_flow_num := respone_flow_num r; msg_head := msg_head r;
     register_info := register_info r; authentication_code := authentication_code r;
     terminal_parameters := terminal_parameters r;
     terminal_parameter_ids := terminal_parameter_ids r; location_info := location_info r;
     location_extension := v; location_tracking_control := location_tracking_control r;
     polygon_area := polygon_area r; polygon_area_id := polygon_area_id r;
     upgrade_info := upgrade_info r; fill_packet := fill_packet r;
     multimedia_upload := multimedia_upload r;
     multimedia_upload_response := multimedia_upload_response r; retain := retain r;
     version_info := version_info r; license_data := license_data r; can_data := can_data r |}.
Definition set_location_tracking_control (v : LocationTrackingControl) (r : Fields) : Fields :=
  {| respone_result := respone_result r; respone_msg_id := respone_msg_id r;
     respone_flow_num := respone_flow_num r; msg_head := msg_head r;
     register_info := register_info r; authentication_code := authentication_code r;
     terminal_parameters := terminal_parameters r;
     terminal_parameter_ids := terminal_parameter_ids r; location_info := location_info r;
     location_extension := location_extension r; location_tracking_control := v;
     polygon_area := polygon_area r; polygon_area_id := polygon_area_id r;
     upgrade_info := upgrade_info r; fill_packet := fill_packet r;
     multimedia_upload := multimedia_upload r;
     multimedia_upload_response := multimedia_upload_response r; retain := retain r;
     version_info := version_info r; license_data := license_data r; can_data := can_data r |}.
Definition set_polygon_area (v : PolygonArea) (r : Fields) : Fields :=
  {| respone_result := respone_result r; respone_msg_id := respone_msg_id r;
     respone_flow_num := respone_flow_num r; msg_head := msg_head r;
     register_info := register_info r; authentication_code := authentication_code r;
     terminal_parameters := terminal_parameters r;
     terminal_parameter_ids := terminal_parameter_ids r; location_info := location_info r;
     location_extension := location_extension r;
     location_tracking_control := location_tracking_control r; polygon_area := v;
     polygon_area_id := polygon_area_id r; upgrade_info := upgrade_info r;
     fill_packet := fill_packet r; multimedia_upload := multimedia_upload r;
     multimedia_upload_response := multimedia_upload_response r; retain := retain r;
     version_info := version_info r; license_data := license_data r; can_data := can_data r |}.
Definition set_polygon_area_id (v : list Z) (r : Fields) : Fields :=
  {| respone_result := respone_result r; respone_msg_id := respone_msg_id r;
     respone_flow_num := respone_flow_num r; msg_head := msg_head r;
     register_info := register_info r; authentication_code := authentication_code r;
     terminal_parameters := terminal_parameters r;
     terminal_parameter_ids := terminal_parameter_ids r; location_info := location_info r;
     location_extension := location_extension r;
     location_tracking_control := location_tracking_control r; polygon_area := polygon_area r;
     polygon_area_id := v; upgrade_info := upgrade_info r; fill_packet := fill_packet r;
     multimedia_upload := multimedia_upload r;
     multimedia_upload_response := multimedia_upload_response r; retain := retain r;
     version_info := version_info r; license_data := license_data r; can_data := can_data r |}.
Definition set_upgrade_info (v : UpgradeInfo.t) (r : Fields) : Fields :=
  {| respone_result := respone_result r; respone_msg_id := respone_msg_id r;
     respone_flow_num := respone_flow_num r; msg_head := msg_head r;
     register_info := register_info r; authentication_code := authentication_code r;
     terminal_parameters := terminal_parameters r;
     terminal_parameter_ids := terminal_parameter_ids r; location_info := location_info r;
     location_extension := location_extension r;
     location_tracking_control := location_tracking_control r; polygon_area := polygon_area r;
     polygon_area_id := polygon_area_id r; upgrade_info := v; fill_packet := fill_packet r;
     multimedia_upload := multimedia_upload r;
     multimedia_upload_response := multimedia_upload_response r; retain := retain r;
     version_info := version_info r; license_data := license_data r; can_data := can_data r |}.
Definition set_fill_packet (v : FillPacket) (r : Fields) : Fields :=
  {| respone_result := respone_result r; respone_msg_id := respone_msg_id r;
     respone_flow_num := respone_flow_num r; msg_head := msg_head r;
     register_info := register_info r; authentication_code := authentication_code r;
     terminal_parameters := terminal_parameters r;
     terminal_parameter_ids := terminal_parameter_ids r; location_info := location_info r;
     location_extension := location_extension r;
     location_tracking_control := location_tracking_control r; polygon_area := polygon_area r;
     polygon_area_id := polygon_area_id r; upgrade_info := upgrade_info r; fill_packet := v;
     multimedia_upload := multimedia_upload r;
     multimedia_upload_response := multimedia_upload_response r; retain := retain r;
     version_info := version_info r; license_data := license_data r; can_data := can_data r |}.
Definition set_multimedia_upload (v : MultiMediaDataUpload.t) (r : Fields) : Fields :=
  {| respone_result := respone_result r; respone_msg_id := respone_msg_id r;
     respone_flow_num := respone_flow_num r; msg_head := msg_head r;
     register_info := register_info r; authentication_code := authentication_code r;
     terminal_parameters := terminal_parameters r;
     terminal_parameter_ids := terminal_parameter_ids r; location_info := location_info r;
     location_extension := location_extension r;
     location_tracking_control := location_tracking_control r; polygon_area := polygon_area r;
     polygon_area_id := polygon_area_id r; upgrade_info := upgrade_info r;
     fill_packet := fill_packet r; multimedia_upload := v;
     multimedia_upload_response := multimedia_upload_response r; retain := retain r;
     version_info := version_info r; license_data := license_data r; can_data := can_data r |}.
Definition set_multimedia_upload_response (v : MultiMediaDataUploadResponse.t) (r : Fields) : Fields :=
  {| respone_result := respone_result r; respone_msg_id := respone_msg_id r;
     respone_flow_num := respone_flow_num r; msg_head := msg_head r;
     register_info := register_info r; authentication_code := authentication_code r;
     terminal_parameters := terminal_parameters r;
     terminal_parameter_ids := terminal_parameter_ids r; location_info := location_info r;
     location_extension := location_extension r;
     location_tracking_control := location_tracking_control r; polygon_area := polygon_area r;
     polygon_area_id := polygon_area_id r; upgrade_info := upgrade_info r;
     fill_packet := fill_packet r; multimedia_upload := multimedia_upload r;
     multimedia_upload_response := v; retain := retain r; version_info := version_info r;
     license_data := license_data r; can_data := can_data r |}.

(** [struct ProtocolParameter]: the fields filled in by the caller for
    sending, and the nested structure [parse] with the same fields, filled
    in by the parser. *)
Record ProtocolParameter : Type := Build_ProtocolParameter {
  send : Fields;   (* the members of ProtocolParameter itself *)
  parse : Fields   (* the member [parse] *)
}.

Definition set_send (v : Fields) (p : ProtocolParameter) : ProtocolParameter :=
  {| send := v; parse := parse p |}.
Definition set_parse (v : Fields) (p : ProtocolParameter) : ProtocolParameter :=
  {| send := send p; parse := v |}.

(** ** parser.h *)

(** [ParseHandler], a [std::function] from the buffer and a pointer to the
    protocol parameters to [int]: the return code and the pointee after
    the call. *)
Abbreviation ParseHandler :=
  (InputBuffer → option ProtocolParameter → option (Z * option ProtocolParameter)).

(** [using Parser = std::map<uint16_t, ParseHandler>] *)
Abbreviation Parser := (gmap Z ParseHandler).

(** [enum class ParserError] *)
Module ParserError.
Definition Ok : Z := 0.
Definition MiscError : Z := -1.
Definition ParametersNull : Z := -2.
Definition UnesapingError : Z := -3.
Definition ChecksumError : Z := -4.
Definition HeaderParseError : Z := -5.
Definition UnregisteredMessageParser : Z := -6.
End ParserError.

(** [std::map::insert]: the entry is added only if the key is free; the
    boolean is the [second] component of the C++ result. *)
Definition std_map_insert {V : Type} (k : Z) (v : V) (m : gmap Z V) : bool * gmap Z V :=
  match m !! k with
  | Some _ => (false, m)
  | None => (true, <[k := v]> m)
  end.

(** ** parser.cc *)

Definition rdb (inb : InputBuffer) (i : Z) : option byte :=
  if decide (0 ≤ i) then inb !! Z.to_nat i else None.

(** [in[pos] * 256 + in[pos + 1]] *)
Definition rd16 (inb : InputBuffer) (pos : Z) : option Z :=
  hi ← rd inb pos; lo ← rd inb (pos + 1); Some (hi * 256 + lo).

(** [memcpy(u16converter.u8array, &(in[pos]), 2)] followed by
    [EndianSwap16(u16converter.u16val)] *)
Definition swap16 (inb : InputBuffer) (pos : Z) : option Z :=
  u8array ← slice inb pos (pos + 2); Some (EndianSwap16 (u8array_val u8array)).

(** [memcpy(u32converter.u8array, &(in[pos]), 4)] followed by
    [EndianSwap32(u32converter.u32val)] *)
Definition swap32 (inb : InputBuffer) (pos : Z) : option Z :=
  u8array ← slice inb pos (pos + 4); Some (EndianSwap32 (u8array_val u8array)).

Section parser_cc.
Context `{Util}.

(** Parse message header. *)
Definition JT808FrameHeadParse (inb : InputBuffer) (msg_head : option MsgHead)
  : option (Z * option MsgHead) :=
  match msg_head with
  | None => Some (-1, None)
  | Some h =>
    if decide (in_size inb < 15) then Some (-1, Some h) else
    (* Message ID. *)
    id ← rd16 inb 1;
    let h := set_msg_id (u16 id) h in
    (* Message body attributes. *)
    attr ← rd16 inb 3;
    let h := set_msgbody_attr (u16 attr) h in
    (* Terminal phone number. *)
    phone_num_bcd ← slice inb 5 11;
    let '(rc, str) := BcdToString phone_num_bcd (phone_num h) in
    let h := set_phone_num str h in
    if decide (rc ≠ 0) then Some (-1, Some h) else
    (* Message flow number. *)
    flow ← rd16 inb 11;
    let h := set_msg_flow_num (u16 flow) h in
    (* Packet occurrence. *)
    if decide (bit_packet (msgbody_attr h) = 1
               ∧ size_t (in_size inb - 15 - bit_msglen (msgbody_attr h)) = 4)
    then
      total ← rd16 inb 13;
      seq ← rd16 inb 15;
      Some (0, Some (set_packet_seq (u16 seq) (set_total_packet (u16 total) h)))
    else
      Some (0, Some (set_packet_seq 0 (set_total_packet 0 h)))
  end.

(** Every built-in handler starts with [if (para == nullptr) return -1;]
    and from then on names [para->parse] only: its body is a function of
    the buffer and of that member. *)
Definition handler (body : InputBuffer → Fields → option (Z * Fields)) : ParseHandler :=
  λ inb para,
    match para with
    | None => Some (-1, None)
    | Some p => '(rc, v) ← body inb (parse p); Some (rc, Some (set_parse v p))
    end.

(** [para->parse.msg_head.msgbody_attr.bit.msglen] *)
Definition msg_len (v : Fields) : Z := bit_msglen (msgbody_attr (msg_head v)).

(** [pos = MSGBODY_NOPACKET_POS; if (... bit.packet == 1) pos = MSGBODY_PACKET_POS;] *)
Definition body_pos (v : Fields) : Z :=
  if decide (bit_packet (msgbody_attr (msg_head v)) = 1)
  then MSGBODY_PACKET_POS else MSGBODY_NOPACKET_POS.

(** 0x0001, Terminal general response; 0x8001, Platform general response
    (the two lambdas have the same text). *)
Definition GeneralResponse_body (inb : InputBuffer) (v : Fields) : option (Z * Fields) :=
  let pos := MSGBODY_NOPACKET_POS in
  (* Response flow number. *)
  flow ← rd16 inb pos;
  let v := set_respone_flow_num (u16 flow) v in
  (* Response message ID. *)
  id ← rd16 inb (pos + 2);
  let v := set_respone_msg_id (u16 id) v in
  (* Response result. *)
  res ← rd inb (pos + 4);
  let v := set_respone_result (u8 res) v in
  Some (0, v).

(** 0x0002, Terminal heartbeat; 0x0003, Terminal logout; 0x8201, Location
    information query: empty message body. *)
Definition EmptyBody_body (inb : InputBuffer) (v : Fields) : option (Z * Fields) :=
  Some (0, v).

(** 0x8003, Fill packet request: the loop
    [for (uint8_t i = 0; i < cnt; ++i)] with [n] iterations left. *)
Fixpoint FillPacketRequest_ids (inb : InputBuffer) (pos : Z) (n : nat) (i : Z)
    (packet_id : list Z) : option (list Z) :=
  match n with
  | O => Some packet_id
  | S n' =>
    a ← rd inb (pos + i * 2);
    b ← rd inb (pos + 1 + i * 2);
    let id := u16 (a + b) in
    FillPacketRequest_ids inb pos n' (u8 (i + 1)) (packet_id ++ [id])
  end.

Definition FillPacketRequest_body (inb : InputBuffer) (v : Fields) : option (Z * Fields) :=
  let pos := body_pos v in
  (* First packet flow number. *)
  first ← rd16 inb pos;
  let v := set_fill_packet (set_first_packet_msg_flow_num (u16 first) (fill_packet v)) v in
  let pos := u16 (pos + 2) in
  (* Total number of retransmission packets. *)
  cnt ← rd inb pos;
  let pos := u16 (pos + 1) in
  (* Retransmission packet IDs. *)
  if decide (msg_len v - 3 ≠ cnt * 2) then Some (-1, v) else
  ids ← FillPacketRequest_ids inb pos (Z.to_nat cnt) 0 [];
  Some (0, set_fill_packet (set_packet_id ids (fill_packet v)) v).

(** The loops of the 0x0100 handler that copy a zero-padded field:
    [for (i = 0; i < n; ++i) { if (in[pos + i] == 0x0) break; push_back(in[pos + i]); }] *)
Fixpoint push_until_zero (inb : InputBuffer) (pos : Z) (n : nat) (i : Z)
    (vec : list byte) : option (list byte) :=
  match n with
  | O => Some vec
  | S n' =>
    b ← rdb inb (pos + i);
    if decide (byteZ b = 0x0) then Some vec
    else push_until_zero inb pos n' (i + 1) (vec ++ [b])
  end.

(** 0x0100, Terminal registration. *)
Definition TerminalRegister_body (inb : InputBuffer) (v : Fields) : option (Z * Fields) :=
  let pos := MSGBODY_NOPACKET_POS in
  let register_info := register_info v in
  (* Province ID. *)
  province ← swap16 inb pos;
  let pos := u16 (pos + 2) in
  let register_info := RegisterInfo.set_province_id province register_info in
  (* City/County ID. *)
  city ← swap16 inb pos;
  let pos := u16 (pos + 2) in
  let register_info := RegisterInfo.set_city_id city register_info in
  (* Manufacturer ID. *)
  manufacturer ← slice inb pos (pos + 5);
  let register_info := RegisterInfo.set_manufacturer_id manufacturer register_info in
  let pos := u16 (pos + 5) in
  (* Terminal model. *)
  model ← push_until_zero inb pos 20 0 (RegisterInfo.terminal_model register_info);
  let register_info := RegisterInfo.set_terminal_model model register_info in
  let pos := u16 (pos + 20) in
  (* Terminal ID. *)
  tid ← push_until_zero inb pos 7 0 (RegisterInfo.terminal_id register_info);
  let register_info := RegisterInfo.set_terminal_id tid register_info in
  let pos := u16 (pos + 7) in
  (* Vehicle plate color and identifier. *)
  color ← rd inb pos;
  let pos := u16 (pos + 1) in
  let register_info := RegisterInfo.set_car_plate_color (u8 color) register_info in
  if decide (RegisterInfo.car_plate_color register_info ≠ kVin) then
    let len := size_t (msg_len v - 37) in
    plate ← slice inb pos (pos + len);
    let register_info :=
      RegisterInfo.set_car_plate_num (string_of_list_byte plate) register_info in
    Some (0, set_register_info register_info v)
  else
    Some (0, set_register_info register_info v).

(** 0x8100, Terminal registration response. *)
Definition TerminalRegisterResponse_body (inb : InputBuffer) (v : Fields)
  : option (Z * Fields) :=
  let pos := MSGBODY_NOPACKET_POS in
  (* Response flow number. *)
  flow ← rd16 inb pos;
  let v := set_respone_flow_num (u16 flow) v in
  (* Response result. *)
  res ← rd inb (pos + 2);
  let v := set_respone_result (u8 res) v in
  (* Parse the additional authentication code if the response result is 0 (success). *)
  if decide (respone_result v = 0) then
    let begin := pos + 3 in
    let end_ := begin + msg_len v - 3 in
    code ← slice inb begin end_;
    Some (0, set_authentication_code code v)
  else
    Some (0, v).

(** 0x0102, Terminal authentication. *)
Definition TerminalAuthentication_body (inb : InputBuffer) (v : Fields)
  : option (Z * Fields) :=
  let pos := body_pos v in
  (* Extract authentication code. *)
  let begin := pos in
  let end_ := begin + msg_len v in
  code ← slice inb begin end_;
  Some (0, set_authentication_code code v).

(** The parameter items of 0x8103 and 0x0104: the loop
    [for (int i = 0; i < cnt; ++i)] with [n] iterations left. *)
Fixpoint TerminalParameters_items (inb : InputBuffer) (n : nat) (pos : Z)
    (paras : gmap Z (list byte)) : option (gmap Z (list byte)) :=
  match n with
  | O => Some paras
  | S n' =>
    (* Parameter ID. *)
    id ← swap32 inb pos;
    let pos := u16 (pos + 4) in
    (* Parameter value. *)
    len ← rd inb pos;
    value ← slice inb (pos + 1) (pos + 1 + len);
    let paras := (std_map_insert id value paras).2 in
    let pos := u16 (pos + (1 + len)) in
    TerminalParameters_items inb n' pos paras
  end.

(** 0x8103, Set terminal parameters. *)
Definition SetTerminalParameters_body (inb : InputBuffer) (v : Fields)
  : option (Z * Fields) :=
  let pos := body_pos v in
  if decide (msg_len v < 1) then Some (-1, v) else
  (* Total number of parameters set. *)
  cnt ← rd inb pos;
  let pos := u16 (pos + 1) in
  (* Parameter items set. *)
  let v := set_terminal_parameters ∅ v in
  paras ← TerminalParameters_items inb (Z.to_nat cnt) pos (terminal_parameters v);
  Some (0, set_terminal_parameters paras v).

(** 0x8104, Query terminal parameters. *)
Definition GetTerminalParameters_body (inb : InputBuffer) (v : Fields)
  : option (Z * Fields) :=
  (* Used to distinguish whether it is a query for special terminal parameters. *)
  Some (0, set_terminal_parameter_ids [] v).

(** The loop of 0x8106: [for (uint8_t i = 0; i < cnt; ++i)]. *)
Fixpoint TerminalParameterIds_items (inb : InputBuffer) (n : nat) (pos : Z)
    (ids : list Z) : option (list Z) :=
  match n with
  | O => Some ids
  | S n' =>
    id ← swap32 inb pos;
    TerminalParameterIds_items inb n' (u16 (pos + 4)) (ids ++ [id])
  end.

(** 0x8106, Query specific terminal parameters. *)
Definition GetSpecificTerminalParameters_body (inb : InputBuffer) (v : Fields)
  : option (Z * Fields) :=
  let pos := body_pos v in
  if decide (msg_len v < 1) then Some (-1, v) else
  (* Total number of parameter IDs. *)
  cnt ← rd inb pos;
  let pos := u16 (pos + 1) in
  if decide (msg_len v ≠ cnt * 4 + 1) then Some (-1, v) else
  (* Parameter ID parsing. *)
  ids ← TerminalParameterIds_items inb (Z.to_nat cnt) pos [];
  Some (0, set_terminal_parameter_ids ids v).

(** 0x0104, Query terminal parameters response. *)
Definition GetTerminalParametersResponse_body (inb : InputBuffer) (v : Fields)
  : option (Z * Fields) :=
  let pos := body_pos v in
  if decide (msg_len v < 3) then Some (-1, v) else
  (* Response flow number. *)
  flow ← swap16 inb pos;
  let v := set_respone_flow_num flow v in
  let pos := u16 (pos + 2) in
  (* Total number of parameters set. *)
  cnt ← rd inb pos;
  let pos := u16 (pos + 1) in
  (* Parameter items set. *)
  let v := set_terminal_parameters ∅ v in
  paras ← TerminalParameters_items inb (Z.to_nat cnt) pos (terminal_parameters v);
  Some (0, set_terminal_parameters paras v).

(** 0x8108, Issue terminal upgrade package.  The sum that gives
    [upgrade_data_total_len] is computed in [int] and stored in a
    [uint32_t]; it is taken modulo 2^32. *)
Definition TerminalUpgrade_body (inb : InputBuffer) (v : Fields) : option (Z * Fields) :=
  let pos := body_pos v in
  let beg := pos in
  let upgrade_info := upgrade_info v in
  (* Upgrade type. *)
  ty ← rd inb pos;
  let pos := u16 (pos + 1) in
  let upgrade_info := UpgradeInfo.set_upgrade_type (u8 ty) upgrade_info in
  (* Manufacturer ID. *)
  manufacturer ← slice inb pos (pos + 5);
  let pos := u16 (pos + 5) in
  let upgrade_info := UpgradeInfo.set_manufacturer_id manufacturer upgrade_info in
  (* Upgrade version number. *)
  vlen ← rd inb pos;
  version ← slice inb (pos + 1) (pos + 1 + vlen);
  let upgrade_info := UpgradeInfo.set_version_id (string_of_list_byte version) upgrade_info in
  let pos := u16 (pos + (vlen + 1)) in
  (* Total length of the upgrade package. *)
  b0 ← rd inb pos; b1 ← rd inb (pos + 1); b2 ← rd inb (pos + 2); b3 ← rd inb (pos + 3);
  let upgrade_info :=
    UpgradeInfo.set_upgrade_data_total_len
      (u32 (b0 * 65536 * 256 + b1 * 65536 + b2 * 256 + b3)) upgrade_info in
  (* Upgrade data package content. *)
  let pos := u16 (pos + 4) in
  let content_len := u16 (msg_len v - (pos - beg)) in
  if decide (content_len + 9 + Z.of_nat (length version) > msg_len v)
  then Some (-1, set_upgrade_info upgrade_info v) else
  content ← slice inb pos (pos + content_len);
  let upgrade_info := UpgradeInfo.set_upgrade_data content upgrade_info in
  Some (0, set_upgrade_info upgrade_info v).

(** 0x0108, Terminal upgrade result notification. *)
Definition TerminalUpgradeResultReport_body (inb : InputBuffer) (v : Fields)
  : option (Z * Fields) :=
  let pos := body_pos v in
  let upgrade_info := upgrade_info v in
  (* Upgrade type. *)
  ty ← rd inb pos;
  let pos := u16 (pos + 1) in
  let upgrade_info := UpgradeInfo.set_upgrade_type (u8 ty) upgrade_info in
  (* Upgrade result. *)
  res ← rd inb pos;
  let upgrade_info := UpgradeInfo.set_upgrade_result (u8 res) upgrade_info in
  Some (0, set_upgrade_info upgrade_info v).

(** The loop over the location additional information items,
    [while (pos <= end - 2)], where [end] is a [uint8_t].  Each turn
    moves [pos] forward by at least two, so [fuel] turns are enough as
    soon as [fuel] is at least [end - pos]
    (see [location_extension_items_fuel]). *)
Fixpoint location_extension_items (fuel : nat) (inb : InputBuffer) (end_ pos : Z)
    (extension_info : gmap Z (list byte)) : option (Z * gmap Z (list byte)) :=
  if decide (pos ≤ end_ - 2) then
    match fuel with
    | O => None
    | S fuel' =>
      len ← rd inb (pos + 1);
      (* Additional information length exceeds the range. *)
      if decide (pos + 1 + len > end_) then Some (-1, extension_info) else
      item_content ← slice inb (pos + 2) (pos + 2 + len);
      id ← rd inb pos;
      let extension_info := <[id := item_content]> extension_info in
      location_extension_items fuel' inb end_ (u16 (pos + (2 + len))) extension_info
    end
  else Some (0, extension_info).

(** The location information report content, from [pos] on; the text
    is the same in the handlers 0x0200 and 0x0201. *)
Definition location_report_content (inb : InputBuffer) (pos : Z) (v : Fields)
  : option (Z * Fields) :=
  let basic_info := location_info v in
  (* Alarm flag. *)
  alarm ← swap32 inb pos;
  let basic_info := LocationBasicInformation.set_alarm alarm basic_info in
  (* Status. *)
  status ← swap32 inb (pos + 4);
  let basic_info := LocationBasicInformation.set_status status basic_info in
  (* Latitude. *)
  latitude ← swap32 inb (pos + 8);
  let basic_info := LocationBasicInformation.set_latitude latitude basic_info in
  (* Longitude. *)
  longitude ← swap32 inb (pos + 12);
  let basic_info := LocationBasicInformation.set_longitude longitude basic_info in
  (* Altitude. *)
  altitude ← swap16 inb (pos + 16);
  let basic_info := LocationBasicInformation.set_altitude altitude basic_info in
  (* Speed. *)
  speed ← swap16 inb (pos + 18);
  let basic_info := LocationBasicInformation.set_speed speed basic_info in
  (* Bearing. *)
  bearing ← swap16 inb (pos + 20);
  let basic_info := LocationBasicInformation.set_bearing bearing basic_info in
  (* UTC time (BCD-8421 code). *)
  bcd ← slice inb (pos + 22) (pos + 28);
  let basic_info :=
    LocationBasicInformation.set_time
      (BcdToStringFillZero bcd (LocationBasicInformation.time basic_info)).2 basic_info in
  let v := set_location_info basic_info v in
  if decide (msg_len v > 28) then
    (* Location additional information items. *)
    let end_ := u8 (msg_len v + pos) in
    let pos := u16 (pos + 28) in
    '(rc, extension_info) ←
      location_extension_items (Z.to_nat end_) inb end_ pos (location_extension v);
    Some (rc, set_location_extension extension_info v)
  else Some (0, v).

(** 0x0200, Location information report. *)
Definition LocationReport_body (inb : InputBuffer) (v : Fields) : option (Z * Fields) :=
  if decide (msg_len v < 28) then Some (-1, v) else
  let pos := body_pos v in
  location_report_content inb pos v.

(** 0x0201, Location information query response. *)
Definition GetLocationInformationResponse_body (inb : InputBuffer) (v : Fields)
  : option (Z * Fields) :=
  if decide (msg_len v < 30) then Some (-1, v) else
  let pos := body_pos v in
  (* Response flow number. *)
  hi ← rd inb pos;
  lo ← rd inb pos;
  let v := set_respone_flow_num (u16 (hi * 256 + lo)) v in
  let pos := u16 (pos + 2) in
  (* The following is the location information report content. *)
  location_report_content inb pos v.

(** 0x8202, Temporary location tracking control. *)
Definition LocationTrackingControl_body (inb : InputBuffer) (v : Fields)
  : option (Z * Fields) :=
  if decide (msg_len v ≠ 6) then Some (-1, v) else
  let pos := body_pos v in
  let ctrl := location_tracking_control v in
  (* Location information reporting interval during tracking. *)
  interval ← rd16 inb pos;
  let ctrl := set_interval (u16 interval) ctrl in
  let pos := u16 (pos + 2) in
  (* Tracking valid time. *)
  tracking ← swap32 inb pos;
  let ctrl := set_tracking_time tracking ctrl in
  Some (0, set_location_tracking_control ctrl v).

(** [EndianSwap32(u32converter.u32val) * 1e-6], a product of doubles. *)
Definition micro_degrees (u32val : Z) : float :=
  (PrimFloat.of_uint63 (Uint63.of_Z u32val) * 0x1.0c6f7a0b5ed8dp-20)%float.

(** The loop over the vertices of 0x8604, [while (pos < end)]; [fuel]
    turns are enough as soon as [fuel] is at least [end - pos]. *)
Fixpoint PolygonArea_vertices (fuel : nat) (inb : InputBuffer) (end_ pos : Z)
    (vertices : list LocationPoint.t) : option (list LocationPoint.t) :=
  if decide (pos < end_) then
    match fuel with
    | O => None
    | S fuel' =>
      lat ← swap32 inb pos;
      let pos := u16 (pos + 4) in
      lon ← swap32 inb pos;
      let pos := u16 (pos + 4) in
      let location_point :=
        {| LocationPoint.latitude := micro_degrees lat;
           LocationPoint.longitude := micro_degrees lon |} in
      PolygonArea_vertices fuel' inb end_ pos (vertices ++ [location_point])
    end
  else Some vertices.

(** 0x8604, Set polygon area. *)
Definition SetPolygonArea_body (inb : InputBuffer) (v : Fields) : option (Z * Fields) :=
  if decide (msg_len v < 28) then Some (-1, v) else
  let pos := body_pos v in
  let end_ := u16 (pos + msg_len v) in
  let polygon_area := polygon_area v in
  (* Area ID. *)
  area ← swap32 inb pos;
  let polygon_area := set_area_id area polygon_area in
  let pos := u16 (pos + 4) in
  (* Area attributes. *)
  attribute ← swap16 inb pos;
  let polygon_area := set_area_attribute attribute polygon_area in
  let pos := u16 (pos + 2) in
  (* Start time, enabled only if the relevant flag in area attributes is set to 1. *)
  '(pos, polygon_area) ←
    (if bit_by_time (area_attribute polygon_area) then
       bcd ← slice inb pos pos;
       let polygon_area :=
         set_start_time (BcdToStringFillZero bcd (start_time polygon_area)).2 polygon_area in
       let pos := u16 (pos + 6) in
       bcd ← slice inb pos pos;
       let polygon_area :=
         set_stop_time (BcdToStringFillZero bcd (stop_time polygon_area)).2 polygon_area in
       let pos := u16 (pos + 6) in
       Some (pos, polygon_area)
     else Some (pos, polygon_area));
  (* Speed limit, enabled only if the relevant flag in area attributes is set to 1. *)
  '(pos, polygon_area) ←
    (if bit_speed_limit (area_attribute polygon_area) then
       speed ← swap16 inb pos;
       let polygon_area := set_max_speed speed polygon_area in
       let pos := u16 (pos + 2) in
       time ← rd inb pos;
       let polygon_area := set_overspeed_time (u8 time) polygon_area in
       let pos := u16 (pos + 1) in
       Some (pos, polygon_area)
     else Some (pos, polygon_area));
  (* Number of vertices. *)
  cnt ← swap16 inb pos;
  let pos := u16 (pos + 2) in
  (* Check the length of the subsequent content. *)
  if decide (end_ - pos ≠ cnt * 8) then Some (-1, set_polygon_area polygon_area v) else
  (* All vertex latitudes and longitudes. *)
  vertices ← PolygonArea_vertices (Z.to_nat (end_ - pos)) inb end_ pos [];
  Some (0, set_polygon_area (set_vertices vertices polygon_area) v).

(** The loop of 0x8605: [for (uint8_t i = 0; i < cnt; ++i)]. *)
Fixpoint DeletePolygonArea_ids (inb : InputBuffer) (pos : Z) (n : nat) (i : Z)
    (ids : list Z) : option (list Z) :=
  match n with
  | O => Some ids
  | S n' =>
    id ← swap32 inb (pos + 1 + i * 4);
    DeletePolygonArea_ids inb pos n' (u8 (i + 1)) (ids ++ [id])
  end.

(** 0x8605, Delete polygon area. *)
Definition DeletePolygonArea_body (inb : InputBuffer) (v : Fields) : option (Z * Fields) :=
  let pos := body_pos v in
  (* Number of areas to delete. *)
  cnt ← rd inb pos;
  if decide (cnt * 4 + 1 ≠ msg_len v) then Some (-1, v) else
  (* All area IDs to delete. *)
  ids ← DeletePolygonArea_ids inb pos (Z.to_nat cnt) 0 [];
  Some (0, set_polygon_area_id ids v).

(** 0x0801, Multimedia data upload. *)
Definition MultimediaDataUpload_body (inb : InputBuffer) (v : Fields)
  : option (Z * Fields) :=
  let pos := body_pos v in
  let upload := multimedia_upload v in
  (* Multimedia ID. *)
  id ← swap32 inb pos;
  let upload := MultiMediaDataUpload.set_media_id id upload in
  (* Multimedia type. *)
  ty ← rd inb (pos + 4);
  let upload := MultiMediaDataUpload.set_media_type (u8 ty) upload in
  (* Multimedia format. *)
  fmt ← rd inb (pos + 5);
  let upload := MultiMediaDataUpload.set_media_format (u8 fmt) upload in
  (* Event item. *)
  ev ← rd inb (pos + 6);
  let upload := MultiMediaDataUpload.set_media_event (u8 ev) upload in
  (* Channel ID. *)
  ch ← rd inb (pos + 7);
  let upload := MultiMediaDataUpload.set_channel_id (u8 ch) upload in
  body ← slice inb (pos + 8) (pos + 36);
  let upload := MultiMediaDataUpload.set_loaction_report_body body upload in
  data ← slice inb (pos + 36) (pos + msg_len v);
  let upload := MultiMediaDataUpload.set_media_data data upload in
  Some (0, set_multimedia_upload upload v).

(** The loop of 0x8800: [for (int i = 0; i < cnt; ++i)]. *)
Fixpoint reload_packet_ids_items (inb : InputBuffer) (pos : Z) (n : nat) (i : Z)
    (ids : list Z) : option (list Z) :=
  match n with
  | O => Some ids
  | S n' =>
    id ← swap16 inb (pos + 5 + 2 * i);
    reload_packet_ids_items inb pos n' (i + 1) (ids ++ [id])
  end.

(** 0x8800, Multimedia data upload response. *)
Definition MultimediaDataUploadResponse_body (inb : InputBuffer) (v : Fields)
  : option (Z * Fields) :=
  let pos := body_pos v in
  let response := multimedia_upload_response v in
  (* Multimedia ID. *)
  id ← swap32 inb pos;
  let response := MultiMediaDataUploadResponse.set_media_id id response in
  (* Check if retransmission is needed. *)
  if decide (msg_len v > 4) then
    cnt ← rd inb (pos + 4);
    ids ← reload_packet_ids_items inb pos (Z.to_nat cnt) 0 [];
    let response := MultiMediaDataUploadResponse.set_reload_packet_ids ids response in
    Some (0, set_multimedia_upload_response response v)
  else Some (0, set_multimedia_upload_response response v).

(** The registrations of [JT808FrameParserInit], in the order of the source. *)
Definition builtin_handlers : list (Z * ParseHandler) :=
  [ (kTerminalGeneralResponse, handler GeneralResponse_body);
    (kPlatformGeneralResponse, handler GeneralResponse_body);
    (kTerminalHeartBeat, handler EmptyBody_body);
    (kFillPacketRequest, handler FillPacketRequest_body);
    (kTerminalRegister, handler TerminalRegister_body);
    (kTerminalRegisterResponse, handler TerminalRegisterResponse_body);
    (kTerminalLogOut, handler EmptyBody_body);
    (kTerminalAuthentication, handler TerminalAuthentication_body);
    (kSetTerminalParameters, handler SetTerminalParameters_body);
    (kGetTerminalParameters, handler GetTerminalParameters_body);
    (kGetSpecificTerminalParameters, handler GetSpecificTerminalParameters_body);
    (kGetTerminalParametersResponse, handler GetTerminalParametersResponse_body);
    (kTerminalUpgrade, handler TerminalUpgrade_body);
    (kTerminalUpgradeResultReport, handler TerminalUpgradeResultReport_body);
    (kLocationReport, handler LocationReport_body);
    (kGetLocationInformation, handler EmptyBody_body);
    (kGetLocationInformationResponse, handler GetLocationInformationResponse_body);
    (kLocationTrackingControl, handler LocationTrackingControl_body);
    (kSetPolygonArea, handler SetPolygonArea_body);
    (kDeletePolygonArea, handler DeletePolygonArea_body);
    (kMultimediaDataUpload, handler MultimediaDataUpload_body);
    (kMultimediaDataUploadResponse, handler MultimediaDataUploadResponse_body) ].

(** Command parser initialization: one [parser->insert] per entry. *)
Definition JT808FrameParserInit (parser : Parser) : Z * Parser :=
  (0, foldl (λ m kv, (std_map_insert kv.1 kv.2 m).2) parser builtin_handlers).

(** Additional parser support commands. *)
Definition JT808FrameParserAppend (parser : option Parser) (pair : Z * ParseHandler)
  : bool * option Parser :=
  match parser with
  | None => (false, None)
  | Some m => let '(inserted, m') := std_map_insert pair.1 pair.2 m in (inserted, Some m')
  end.

(** Override parser support commands. *)
Definition JT808FrameParserOverride (parser : option Parser) (pair : Z * ParseHandler)
  : bool * option Parser :=
  match parser with
  | None => (false, None)
  | Some m =>
    let m := match m !! pair.1 with Some _ => delete pair.1 m | None => m end in
    let '(inserted, m') := std_map_insert pair.1 pair.2 m in (inserted, Some m')
  end.

(** Parses a JT808 frame. *)
Definition JT808FrameParse (parser : Parser) (inb : InputBuffer)
    (para : option ProtocolParameter) : option (Z * option ProtocolParameter) :=
  match para with
  | None => Some (ParserError.ParametersNull, None)
  | Some p =>
    (* Reverse escape. *)
    match ReverseEscape inb with
    | None => Some (ParserError.UnesapingError, Some p)
    | Some out =>
      (* XOR checksum check. *)
      src ← slice out 1 (1 + size_t (in_size out - 3));
      sum ← rd out (in_size out - 2);
      if decide (BccCheckSum src ≠ sum) then Some (ParserError.ChecksumError, Some p) else
      (* Parse message header. *)
      '(rc, msg_head') ← JT808FrameHeadParse out (Some (msg_head (parse p)));
      head ← msg_head';
      let p := set_parse (set_msg_head head (parse p)) p in
      if decide (rc ≠ 0) then Some (ParserError.HeaderParseError, Some p) else
      let p := set_send (set_msg_head (set_phone_num (phone_num (msg_head (parse p)))
                                         (msg_head (send p))) (send p)) p in
      (* Parse message content. *)
      match parser !! msg_id (msg_head (parse p)) with
      | None => Some (ParserError.UnregisteredMessageParser, Some p)
      | Some it => it out (Some p)
      end
    end
  end.

End parser_cc.

(** ** The helpers as the spec describes them *)

(** Modelled from the spec: util.cc is not among the sources.  Section
    4.1: on receive 0x7D 0x02 stands for 0x7E and 0x7D 0x01 for 0x7D; any
    other byte after 0x7D, or 0x7D at the end, is an error.  The frame
    parser reads the header from index 1 of the result, so the flag bytes
    stay in place. *)
Fixpoint ReverseEscape_spec (inb : list byte) : option (list byte) :=
  match inb with
  | [] => Some []
  | b :: rest =>
    if decide (byteZ b = PROTOCOL_ESCAPE) then
      match rest with
      | [] => None
      | c :: rest' =>
        if decide (byteZ c = PROTOCOL_ESCAPE_SIGN)
        then (x7e ::.) <$> ReverseEscape_spec rest'
        else if decide (byteZ c = PROTOCOL_ESCAPE_ESCAPE)
        then (x7d ::.) <$> ReverseEscape_spec rest'
        else None
      end
    else (b ::.) <$> ReverseEscape_spec rest
  end.

(** Modelled from the spec: util.cc is not among the sources.  Section
    4.1: the checksum is the XOR of the bytes. *)
Definition BccCheckSum_spec (src : list byte) : Z :=
  foldl (λ checksum b, Z.lxor checksum (byteZ b)) 0 src.

(** Modelled from the spec: bcd.cc is not among the sources.  Section
    4.1: an N-byte BCD field gives exactly 2N decimal digits, leading
    zeros kept; section 7 calls a field with a non-decimal nibble
    malformed. *)
Definition bcd_digit (nibble : Z) : Ascii.ascii :=
  Ascii.ascii_of_N (Z.to_N (48 + nibble)).

Fixpoint bcd_digits (bcd : list byte) : option string :=
  match bcd with
  | [] => Some EmptyString
  | b :: rest =>
    let hi := Z.shiftr (byteZ b) 4 in
    let lo := Z.land (byteZ b) 0x0F in
    if decide (hi ≤ 9 ∧ lo ≤ 9)
    then (λ s, String (bcd_digit hi) (String (bcd_digit lo) s)) <$> bcd_digits rest
    else None
  end.

(** Modelled from the spec: bcd.cc is not among the sources.  The digits
    of the field, with return code 0; a malformed field leaves the string
    alone and returns -1. *)
Definition BcdToString_spec (bcd : list byte) (str : string) : Z * string :=
  match bcd_digits bcd with
  | Some digits => (0, digits)
  | None => (-1, str)
  end.

(** Modelled from the spec: util.cc, bcd.cc and area_route.h are not among
    the sources.  The helpers above; the zero-fill variant of the BCD
    decoding keeps leading zeros as well; the polygon attribute flags
    [by_time] and [speed_limit], which the spec names without a position,
    are bits 0 and 1 of the attribute word. *)
#[export] Instance spec_util : Util := {|
  ReverseEscape := ReverseEscape_spec;
  BccCheckSum := BccCheckSum_spec;
  BcdToString := BcdToString_spec;
  BcdToStringFillZero := BcdToString_spec;
  bit_by_time := λ value, Z.testbit value 0;
  bit_speed_limit := λ value, Z.testbit value 1
|}.

(** ** Initial values

    A value-initialised [ProtocolParameter], as in
    [ProtocolParameter para {}]: numbers are zero, containers and
    strings are empty. *)

Definition MsgHead_zero : MsgHead :=
  {| msg_id := 0; msgbody_attr := 0; phone_num := ""; msg_flow_num := 0;
     total_packet := 0; packet_seq := 0 |}.

Definition Fields_zero : Fields :=
  {| respone_result := 0; respone_msg_id := 0; respone_flow_num := 0;
     msg_head := MsgHead_zero;
     register_info :=
       {| RegisterInfo.province_id := 0; RegisterInfo.city_id := 0;
          RegisterInfo.manufacturer_id := []; RegisterInfo.terminal_model := [];
          RegisterInfo.terminal_id := []; RegisterInfo.car_plate_color := 0;
          RegisterInfo.car_plate_num := "" |};
     authentication_code := [];
     terminal_parameters := ∅;
     terminal_parameter_ids := [];
     location_info :=
       {| LocationBasicInformation.alarm := 0; LocationBasicInformation.status := 0;
          LocationBasicInformation.latitude := 0; LocationBasicInformation.longitude := 0;
          LocationBasicInformation.altitude := 0; LocationBasicInformation.speed := 0;
          LocationBasicInformation.bearing := 0; LocationBasicInformation.time := "" |};
     location_extension := ∅;
     location_tracking_control := {| interval := 0; tracking_time := 0 |};
     polygon_area :=
       {| area_id := 0; area_attribute := 0; start_time := ""; stop_time := "";
          max_speed := 0; overspeed_time := 0; vertices := [] |};
     polygon_area_id := [];
     upgrade_info :=
       {| UpgradeInfo.upgrade_type := 0; UpgradeInfo.upgrade_result := 0;
          UpgradeInfo.manufacturer_id := []; UpgradeInfo.version_id := "";
          UpgradeInfo.upgrade_data_total_len := 0; UpgradeInfo.upgrade_data := [] |};
     fill_packet := {| first_packet_msg_flow_num := 0; packet_id := [] |};
     multimedia_upload :=
       {| MultiMediaDataUpload.media_id := 0; MultiMediaDataUpload.media_type := 0;
          MultiMediaDataUpload.media_format := 0; MultiMediaDataUpload.media_event := 0;
          MultiMediaDataUpload.channel_id := 0;
          MultiMediaDataUpload.loaction_report_body := [];
          MultiMediaDataUpload.media_data := [] |};
     multimedia_upload_response :=
       {| MultiMediaDataUploadResponse.media_id := 0;
          MultiMediaDataUploadResponse.reload_packet_ids := [] |};
     retain := [];
     version_info :=
       {| version := ""; rel_date := ""; cpu_id := []; model := ""; imei := "";
          imsi := ""; iccid := ""; car_model := 0; vin := ""; tot_mileage := 0;
          tot_fuel := 0 |};
     license_data :=
       {| card_info :=
            {| name := ""; country := ""; citizen_id := ""; expire_date := ""; dob := "";
               license_type := ""; gender := ""; license_id := ""; issuing_branch := "";
               track := "" |};
          login_sts := 0; dlt_allow_flg := 0 |};
     can_data :=
       {| nbr_of_data := 0; recv_time := "";
          can_info := {| CANInfo.id := 0; CANInfo.data := [] |} |} |}.

Definition ProtocolParameter_zero : ProtocolParameter :=
  {| send := Fields_zero; parse := Fields_zero |}.

(** ** The frame as the spec addresses it *)

(** Byte [i] of a frame, and the big-endian 16-bit value of bytes [i]
    and [i + 1]. *)
Definition byte_at (inb : InputBuffer) (i : Z) : Z := byteZ (nth (Z.to_nat i) inb x00).
Definition be16_at (inb : InputBuffer) (i : Z) : Z := byte_at inb i * 256 + byte_at inb (i + 1).

(** The built-in registry: [JT808FrameParserInit] on an empty parser. *)
Definition builtin_parser `{Util} : Parser := (JT808FrameParserInit ∅).2.

(** [p] with the body attribute word of the parsed header set to [attr],
    as the header decoder leaves it before a handler runs. *)
Definition with_parsed_attr (attr : Z) (p : ProtocolParameter) : ProtocolParameter :=
  set_parse (set_msg_head (set_msgbody_attr attr (msg_head (parse p))) (parse p)) p.

(** ** Properties of handlers and intermediate states *)

(** The contract of a handler stated in parser.h: it returns 0 on success
    and -1 on failure. *)
Definition body_returns_0_or_minus1
    (body : InputBuffer → Fields → option (Z * Fields)) : Prop :=
  ∀ inb v rc v', body inb v = Some (rc, v') → rc = 0 ∨ rc = -1.
Definition handler_returns_0_or_minus1 (h : ParseHandler) : Prop :=
  ∀ inb para rc para', h inb para = Some (rc, para') → rc = 0 ∨ rc = -1.
Definition parser_returns_0_or_minus1 (parser : Parser) : Prop :=
  ∀ id h, parser !! id = Some h → handler_returns_0_or_minus1 h.

(** A handler that writes nothing outside [para->parse]. *)
Definition handler_keeps_send (h : ParseHandler) : Prop :=
  ∀ inb p rc para', h inb (Some p) = Some (rc, para') → ∃ p', para' = Some p' ∧ send p' = send p.
Definition parser_keeps_send (parser : Parser) : Prop :=
  ∀ id h, parser !! id = Some h → handler_keeps_send h.

(** The protocol parameters as [JT808FrameParse] hands them to a body
    handler once the header [head] is decoded: [parse.msg_head] is [head]
    and [msg_head.phone_num] is the phone number of [head]. *)
Definition with_decoded_head (head : MsgHead) (p : ProtocolParameter) : ProtocolParameter :=
  set_send (set_msg_head (set_phone_num (phone_num head) (msg_head (send p))) (send p))
    (set_parse (set_msg_head head (parse p)) p).

(** The checksum of [BccCheckSum] over bytes [1 .. size - 3] of the
    unescaped frame agrees with the byte before the closing flag. *)
Definition checksum_ok `{Util} (out : list byte) : Prop :=
  BccCheckSum (take (Z.to_nat (size_t (in_size out - 3))) (drop 1 out))
  = byte_at out (in_size out - 2).

#[export] Instance checksum_ok_dec `{Util} (out : list byte) : Decision (checksum_ok out) :=
  Z.eq_dec _ _.

(** ** Concrete frames *)

(** A 19-byte frame whose attribute word 0x2001 has the packet bit set
    and a body length of one. *)
Definition frame_C7 : InputBuffer :=
  [x7e; x00; x02; x20; x01; x01; x35; x23; x33; x95; x27; x00; x01;
   x00; x03; x00; x01; xb7; x7e].


(** Complete frames (flag, header, body, checksum, flag) from terminal
    13523339527 with flow number 1; none needs escaping. *)

(** 0x8003 with body [00 01 | 01 | 01 02]: one retransmission id, 0x0102. *)
Definition frame_fill_packet : InputBuffer :=
  [x7e; x80; x03; x00; x05; x01; x35; x23; x33; x95; x27; x00; x01;
   x00; x01; x01; x01; x02; x12; x7e].

(** 0x0201 with response flow number [01 02] and the 28-byte location
    block of scenario 4 of the spec. *)
Definition frame_location_response : InputBuffer :=
  [x7e; x02; x01; x00; x1e; x01; x35; x23; x33; x95; x27; x00; x01;
   x01; x02;
   x00; x00; x00; x02; x00; x00; x00; x03; x01; xe5; x9b; xcd; x06; xfd; x08; x32;
   x00; x32; x02; x58; x00; x5a; x20; x07; x18; x12; x00; x00; xe4; x7e].

(** 0x8604 with area 1, attribute 0x0001 (by time), start 200718120000,
    stop 200719120000 and one vertex. *)
Definition frame_polygon : InputBuffer :=
  [x7e; x86; x04; x00; x1c; x01; x35; x23; x33; x95; x27; x00; x01;
   x00; x00; x00; x01; x00; x01;
   x20; x07; x18; x12; x00; x00; x20; x07; x19; x12; x00; x00;
   x00; x01; x01; xe5; x9b; xcd; x06; xfd; x08; x32; x7a; x7e].

(** 0x8100 with response flow number 7, result 0 and the code "ABC". *)
Definition header_register_response : InputBuffer :=
  [x7e; x81; x00; x00; x06; x01; x35; x23; x33; x95; x27; x00; x01].

(** 0x8103 with the body of scenario 3 of the spec. *)
Definition header_set_parameters : InputBuffer :=
  [x7e; x81; x03; x00; x13; x01; x35; x23; x33; x95; x27; x00; x01].
Definition body_set_parameters : InputBuffer :=
  [x01; x00; x00; xf0; x20; x0d;
   x31; x39; x32; x2e; x31; x36; x38; x2e; x33; x2e; x31; x31; x31].
Definition frame_set_parameters : InputBuffer :=
  header_set_parameters ++ body_set_parameters ++ [xf3; x7e].

(** 0x0002, terminal heartbeat. *)
Definition frame_heartbeat : InputBuffer :=
  [x7e; x00; x02; x00; x00; x01; x35; x23; x33; x95; x27; x00; x01; x95; x7e].

(** A frame with the message ID 0x0F0F, which has no handler. *)
Definition frame_unregistered : InputBuffer :=
  [x7e; x0f; x0f; x00; x00; x01; x35; x23; x33; x95; x27; x00; x01; x97; x7e].

(** The heartbeat frame with both flag bytes replaced by 0x00. *)
Definition frame_no_flags : InputBuffer :=
  [x00; x00; x02; x00; x00; x01; x35; x23; x33; x95; x27; x00; x01; x95; x00].

(** ** Message bodies as the spec lays them out *)

(** The byte with value [z mod 256]. *)
Definition byte_of_Z (z : Z) : byte := default x00 (Byte.of_N (Z.to_N (z mod 256))).

(** A 32-bit integer in big-endian order. *)
Definition be32_bytes (z : Z) : list byte :=
  [byte_of_Z (z / 16777216); byte_of_Z (z / 65536); byte_of_Z (z / 256); byte_of_Z z].

(** One item of Set Terminal Parameters (section 4.6 of the spec):
    [param_id: u32, value_len: u8, value: value_len bytes]. *)
Definition wire_parameter (item : Z * list byte) : list byte :=
  be32_bytes item.1 ++ [byte_of_Z (in_size item.2)] ++ item.2.

(** The body of Set Terminal Parameters: [count: u8] and the items. *)
Definition wire_parameters (items : list (Z * list byte)) : list byte :=
  byte_of_Z (Z.of_nat (length items)) :: concat (wire_parameter <$> items).

(** An item that fits its fields: a 32-bit ID and at most 255 value bytes. *)
Definition parameter_ok (item : Z * list byte) : Prop :=
  0 ≤ item.1 < 4294967296 ∧ in_size item.2 ≤ 255.

(** The body of Fill-Packet Request (section 4.6 of the spec):
    [first_packet_flow_num: u16, count: u8, packet_ids: count × u16], with
    each 16-bit field given by its two bytes. *)
Definition wire_packet_ids (ids : list (byte * byte)) : list byte :=
  concat ((λ id, [id.1; id.2]) <$> ids).
Definition wire_fill_packet (first : byte * byte) (ids : list (byte * byte)) : list byte :=
  [first.1; first.2; byte_of_Z (Z.of_nat (length ids))] ++ wire_packet_ids ids.

(** The headers these frames decode to. *)
Definition head_heartbeat : MsgHead :=
  {| msg_id := 0x0002; msgbody_attr := 0; phone_num := "013523339527"; msg_flow_num := 1;
     total_packet := 0; packet_seq := 0 |}.
Definition head_unregistered : MsgHead :=
  {| msg_id := 0x0F0F; msgbody_attr := 0; phone_num := "013523339527"; msg_flow_num := 1;
     total_packet := 0; packet_seq := 0 |}.

(** The 13 bytes of "192.168.3.111". *)
Definition value_ip : list byte :=
  [x31; x39; x32; x2e; x31; x36; x38; x2e; x33; x2e; x31; x31; x31].

(** ** protocol_parameter.h: assignment of [RegisterInfo] *)

(** The argument [RegisterInfo const& info] of the assignment operator:
    a reference to the object assigned to itself (as in [x = x]) or to
    another object. *)
Inductive RegisterInfoRef : Type :=
  | ref_this
  | ref_other (info : RegisterInfo.t).

(** What the reference reads while the object assigned to is in the
    state [r]. *)
Definition deref (info : RegisterInfoRef) (r : RegisterInfo.t) : RegisterInfo.t :=
  match info with
  | ref_this => r
  | ref_other other => other
  end.

(** [void operator=(RegisterInfo const& info)] on the object [r], one
    statement after the other: every member is cleared before it is
    assigned from [info], so that a member of the object itself is read
    after it was emptied. *)
Definition RegisterInfo_operator_assign (info : RegisterInfoRef) (r : RegisterInfo.t)
  : RegisterInfo.t :=
  let r := RegisterInfo.set_province_id (RegisterInfo.province_id (deref info r)) r in
  let r := RegisterInfo.set_city_id (RegisterInfo.city_id (deref info r)) r in
  let r := RegisterInfo.set_manufacturer_id [] r in
  let r := RegisterInfo.set_manufacturer_id (RegisterInfo.manufacturer_id (deref info r)) r in
  let r := RegisterInfo.set_terminal_model [] r in
  let r := RegisterInfo.set_terminal_model (RegisterInfo.terminal_model (deref info r)) r in
  let r := RegisterInfo.set_terminal_id [] r in
  let r := RegisterInfo.set_terminal_id (RegisterInfo.terminal_id (deref info r)) r in
  let r := RegisterInfo.set_car_plate_num "" r in
  let r := RegisterInfo.set_car_plate_color (RegisterInfo.car_plate_color (deref info r)) r in
  if decide (RegisterInfo.car_plate_color r ≠ kVin)
  then RegisterInfo.set_car_plate_num (RegisterInfo.car_plate_num (deref info r)) r
  else r.

(** ** client.h: the data members of [JT808Client] its inline methods use *)

(** [enum ReportImmediatelyFlag] *)
Definition kAlarmOccurred : Z := 0x1.

(** Modelled from the spec: area_route.h is not among the sources.
    [PolygonAreaSet] is the container of the polygon areas of section 3,
    keyed by area ID; client.h uses it as a [std::map] with unique keys
    ([find], [insert] with its [second] flag, [operator[]], [erase],
    [clear], [empty] and iteration over [first] and [second]). *)
Abbreviation PolygonAreaSet := (gmap Z PolygonArea).

(** The members [location_report_immediately_flag_], [polygon_areas_]
    and [parameter_] of the class; the sockets, threads and callbacks
    are not touched by the methods below. *)
Record JT808Client : Type := Build_JT808Client {
  location_report_immediately_flag_ : Z;
  polygon_areas_ : PolygonAreaSet;
  parameter_ : ProtocolParameter
}.

Definition set_location_report_immediately_flag_ (v : Z) (c : JT808Client) : JT808Client :=
  {| location_report_immediately_flag_ := v; polygon_areas_ := polygon_areas_ c;
     parameter_ := parameter_ c |}.
Definition set_polygon_areas_ (v : PolygonAreaSet) (c : JT808Client) : JT808Client :=
  {| location_report_immediately_flag_ := location_report_immediately_flag_ c;
     polygon_areas_ := v; parameter_ := parameter_ c |}.
Definition set_parameter_ (v : ProtocolParameter) (c : JT808Client) : JT808Client :=
  {| location_report_immediately_flag_ := location_report_immediately_flag_ c;
     polygon_areas_ := polygon_areas_ c; parameter_ := v |}.

(** Set terminal registration information (the overload taking a
    [RegisterInfo]): [parameter_.register_info = info].  The member
    [parameter_] is private and the class hands out no reference to it,
    so [info] is another object. *)
Definition SetTerminalRegisterInfo (info : RegisterInfo.t) (c : JT808Client) : JT808Client :=
  set_parameter_
    (set_send (set_register_info
                 (RegisterInfo_operator_assign (ref_other info)
                    (register_info (send (parameter_ c))))
                 (send (parameter_ c))) (parameter_ c)) c.

(** Set terminal registration information (the overload taking the seven
    fields). *)
Definition SetTerminalRegisterInfo7 (p_id c_id : Z) (m_id t_model t_id : list byte)
    (c_color : Z) (c_num : string) (c : JT808Client) : JT808Client :=
  let r := register_info (send (parameter_ c)) in
  let r := RegisterInfo.set_province_id p_id r in
  let r := RegisterInfo.set_city_id c_id r in
  let r := RegisterInfo.set_manufacturer_id m_id r in
  let r := RegisterInfo.set_terminal_model t_model r in
  let r := RegisterInfo.set_terminal_id t_id r in
  let r := RegisterInfo.set_car_plate_color c_color r in
  let r := if decide (c_color ≠ kVin) then RegisterInfo.set_car_plate_num c_num r else r in
  set_parameter_ (set_send (set_register_info r (send (parameter_ c))) (parameter_ c)) c.

(** Set the in/out area alarm flag: the one-bit field [in_out_area] is
    bit 20 of the alarm word (thirteen one-bit fields, five reserved bits
    and two more one-bit fields come before it); it receives the low bit
    of [in]. *)
Definition SetInOutAreaAlarmBit (in_ : Z) (c : JT808Client) : JT808Client :=
  let info := location_info (send (parameter_ c)) in
  let value := LocationBasicInformation.alarm info in
  let value := Z.lor (Z.ldiff value (Z.shiftl 1 20)) (Z.shiftl (Z.land in_ 1) 20) in
  let info := LocationBasicInformation.set_alarm value info in
  let c := set_parameter_ (set_send (set_location_info info (send (parameter_ c)))
                             (parameter_ c)) c in
  set_location_report_immediately_flag_
    (u16 (Z.lor (location_report_immediately_flag_ c) kAlarmOccurred)) c.

(** Get all polygon areas: [areas] is the pointee, [None] a null pointer.
    The range [insert] goes through the entries of [polygon_areas_] one
    by one; their keys are distinct, so the order in which [map_fold]
    takes them does not show in the result
    (see [map_fold_std_map_insert]). *)
Definition GetAllPolygonArea (c : JT808Client) (areas : option PolygonAreaSet)
  : Z * option PolygonAreaSet :=
  match areas with
  | None => (-1, None)
  | Some old =>
    if decide (polygon_areas_ c = ∅) then (-1, Some old)
    else (0, Some (map_fold (λ id area m, (std_map_insert id area m).2) ∅ (polygon_areas_ c)))
  end.

(** Get the polygon area by ID.  When the ID is not in the set the
    method dereferences the end iterator: no defined result. *)
Definition GetPolygonAreaByID (c : JT808Client) (id : Z) (area : option PolygonArea)
  : option (Z * option PolygonArea) :=
  match area with
  | None => Some (-1, None)
  | Some old =>
    if decide (polygon_areas_ c = ∅) then Some (-1, Some old)
    else match polygon_areas_ c !! id with
         | Some _ => Some (-1, Some old)
         | None => None
         end
  end.

(** Add a polygon area: [insert(...).second - 1]. *)
Definition AddPolygonArea (area : PolygonArea) (c : JT808Client) : Z * JT808Client :=
  let id := area_id area in
  let '(inserted, areas) := std_map_insert id area (polygon_areas_ c) in
  ((if inserted then 1 else 0) - 1, set_polygon_areas_ areas c).

(** Update the specified polygon areas: one assignment per entry of
    [areas], whose keys are distinct (see [map_fold_insert_union]). *)
Definition UpdatePolygonAreaByAreas (areas : PolygonAreaSet) (c : JT808Client)
  : JT808Client :=
  set_polygon_areas_ (map_fold (λ id area m, <[id := area]> m) (polygon_areas_ c) areas) c.

(** Delete the specified polygon area by ID. *)
Definition DeletePolygonAreaByID (id : Z) (c : JT808Client) : JT808Client :=
  match polygon_areas_ c !! id with
  | Some _ => set_polygon_areas_ (delete id (polygon_areas_ c)) c
  | None => c
  end.

(** Delete all polygon areas. *)
Definition DeleteAllPolygonArea (c : JT808Client) : JT808Client :=
  set_polygon_areas_ ∅ c.

(** Delete the specified polygon areas by ID; an empty list deletes all. *)
Definition DeletePolygonAreaByIDs (ids : list Z) (c : JT808Client) : JT808Client :=
  match ids with
  | [] => DeleteAllPolygonArea c
  | _ => foldl (λ c id, DeletePolygonAreaByID id c) c ids
  end.

(** ** Further byte layouts *)

(** The big-endian 32-bit value of bytes [i .. i + 3] of a frame. *)
Definition be32_at (inb : InputBuffer) (i : Z) : Z :=
  byte_at inb i * 16777216 + byte_at inb (i + 1) * 65536
  + byte_at inb (i + 2) * 256 + byte_at inb (i + 3).

(** The bytes [a .. b - 1] of a frame. *)
Definition bytes_at (inb : InputBuffer) (a b : Z) : list byte :=
  take (Z.to_nat (b - a)) (drop (Z.to_nat a) inb).

(** A list of 32-bit integers, each in big-endian order. *)
Definition wire_ids32 (ids : list Z) : list byte := concat (be32_bytes <$> ids).

(** A 16-bit integer in big-endian order, and a list of them. *)
Definition be16_bytes (z : Z) : list byte := [byte_of_Z (z / 256); byte_of_Z z].
Definition wire_ids16 (ids : list Z) : list byte := concat (be16_bytes <$> ids).

(** One location additional information item:
    [ext_id: u8, ext_len: u8, value: ext_len bytes]. *)
Definition wire_extension (item : Z * list byte) : list byte :=
  [byte_of_Z item.1; byte_of_Z (in_size item.2)] ++ item.2.
Definition extension_ok (item : Z * list byte) : Prop :=
  0 ≤ item.1 < 256 ∧ in_size item.2 ≤ 255.

(** The bytes of a zero-padded field up to its first zero byte. *)
Fixpoint until_zero (field : list byte) : list byte :=
  match field with
  | [] => []
  | b :: rest => if decide (byteZ b = 0) then [] else b :: until_zero rest
  end.

(** The 28-byte location basic information block read at [pos]: four
    32-bit and three 16-bit big-endian integers and six BCD bytes of
    time, which [BcdToStringFillZero] decodes into the old string. *)
Definition location_basic_at `{Util} (inb : InputBuffer) (pos : Z)
    (old : LocationBasicInformation.t) : LocationBasicInformation.t :=
  {| LocationBasicInformation.alarm := be32_at inb pos;
     LocationBasicInformation.status := be32_at inb (pos + 4);
     LocationBasicInformation.latitude := be32_at inb (pos + 8);
     LocationBasicInformation.longitude := be32_at inb (pos + 12);
     LocationBasicInformation.altitude := be16_at inb (pos + 16);
     LocationBasicInformation.speed := be16_at inb (pos + 18);
     LocationBasicInformation.bearing := be16_at inb (pos + 20);
     LocationBasicInformation.time :=
       (BcdToStringFillZero (bytes_at inb (pos + 22) (pos + 28))
          (LocationBasicInformation.time old)).2 |}.

(** Storing a list of additional information items one after the other
    with [extension_info[id] = content]. *)
Definition store_extensions (items : list (Z * list byte)) (ext : gmap Z (list byte))
  : gmap Z (list byte) :=
  foldl (λ m item, <[item.1 := item.2]> m) ext items.

(** IDs that fit 32 and 16 bits. *)
Definition id32_ok (id : Z) : Prop := 0 ≤ id < 4294967296.
Definition id16_ok (id : Z) : Prop := 0 ≤ id < 65536.

(** ** Further concrete frames *)

(** Four bytes between which the checksum agrees: too short for a header. *)
Definition frame_short : InputBuffer := [x7e; x00; x00; x7e].

(** Two flag bytes with nothing between them. *)
Definition frame_empty : InputBuffer := [x7e; x7e].

(** The flag and the header of an unsegmented frame from terminal
    13523339527 with flow number 1, for a message ID and an attribute
    word given by their bytes. *)
Definition frame_header (id_hi id_lo attr_hi attr_lo : byte) : InputBuffer :=
  [x7e; id_hi; id_lo; attr_hi; attr_lo; x01; x35; x23; x33; x95; x27; x00; x01].

(** A handler that rejects every frame. *)
Definition reject_handler : ParseHandler := λ _ para, Some (-1, para).

(** 0x8001 with response flow number 7, response ID 0x0102, result 0. *)
Definition frame_general_response : InputBuffer :=
  frame_header x80 x01 x00 x05 ++ [x00; x07; x01; x02; x00] ++ [x17; x7e].

(** 0x8202 with interval 10 and tracking time 60. *)
Definition frame_tracking_control : InputBuffer :=
  frame_header x82 x02 x00 x06 ++ [x00; x0a; x00; x00; x00; x3c] ++ [x27; x7e].

(** The 28-byte location block of scenario 4 of the spec. *)
Definition location_block : list byte :=
  [x00; x00; x00; x02; x00; x00; x00; x03; x01; xe5; x9b; xcd; x06; xfd; x08; x32;
   x00; x32; x02; x58; x00; x5a; x20; x07; x18; x12; x00; x00].

(** 0x0200 with the location block alone. *)
Definition frame_location_report : InputBuffer :=
  frame_header x02 x00 x00 x1c ++ location_block ++ [xe4; x7e].

(** Two additional information items: mileage (ID 1) and fuel (ID 2). *)
Definition extension_items : list (Z * list byte) :=
  [(0x01, [x00; x00; x27; x10]); (0x02, [x00; x64])].

(** 0x0200 with the location block and one item of 220 bytes: the body
    has 250 bytes and ends at frame offset 263. *)
Definition frame_location_long : InputBuffer :=
  frame_header x02 x00 x00 xfa ++ location_block
    ++ wire_extension (0x01, replicate 220 x00) ++ [xdf; x7e].

(** 0x0801 with multimedia ID 9, the location block and two data bytes. *)
Definition frame_multimedia_upload : InputBuffer :=
  frame_header x08 x01 x00 x26 ++ [x00; x00; x00; x09; x00; x00; x01; x02]
    ++ location_block ++ [xaa; xbb] ++ [xce; x7e].

(** 0x8108 with upgrade type 0, manufacturer "ABCDE", version "1.0",
    total length 4 and four data bytes. *)
Definition frame_upgrade : InputBuffer :=
  frame_header x81 x08 x00 x12
    ++ [x00; x41; x42; x43; x44; x45; x03; x31; x2e; x30; x00; x00; x00; x04;
        xde; xad; xbe; xef] ++ [x47; x7e].

(** 0x0100 with province 44, city 303, manufacturer "ABCDE", model "M1",
    terminal ID "T12", plate colour 1 and plate "A123". *)
Definition frame_register : InputBuffer :=
  frame_header x01 x00 x00 x29
    ++ [x00; x2c; x01; x2f; x41; x42; x43; x44; x45; x4d; x31] ++ replicate 18 x00
    ++ [x54; x31; x32] ++ replicate 4 x00 ++ [x01; x41; x31; x32; x33] ++ [xa7; x7e].

(** A handler that returns -6, which the contract of parser.h (0 on
    success, -1 on failure) does not allow. *)
Definition handler_returning_minus6 : ParseHandler :=
  λ _ para, Some (ParserError.UnregisteredMessageParser, para).

(** A parser with this handler registered for the heartbeat. *)
Definition parser_minus6 : Parser := {[ kTerminalHeartBeat := handler_returning_minus6 ]}.

(** A segmented 0x8100 frame: attribute word 0x2006 (packet bit, body
    length 6), packet fields 00 02 | 00 01, then the body with response
    flow number 7, result 0 and the code "ABC". *)
Definition frame_register_response_segmented : InputBuffer :=
  frame_header x81 x00 x20 x06 ++ [x00; x02; x00; x01]
    ++ [x00; x07; x00; x41; x42; x43] ++ [x74; x7e].

(** * Properties *)
(** ** Basic facts: bytes, buffers, byte order *)

Lemma byteZ_range (b : byte) : 0 ≤ byteZ b < 256.
Proof. unfold byteZ. pose proof (Byte.to_N_bounded b). lia. Qed.

Lemma u16_small (z : Z) : 0 ≤ z < 65536 → u16 z = z.
Proof. intros Hz. unfold u16. by rewrite Z.mod_small. Qed.

Lemma u8_small (z : Z) : 0 ≤ z < 256 → u8 z = z.
Proof. intros Hz. unfold u8. by rewrite Z.mod_small. Qed.

Lemma u8_byteZ (b : byte) : u8 (byteZ b) = byteZ b.
Proof. apply u8_small, byteZ_range. Qed.

Lemma u16_be16 (hi lo : byte) : u16 (byteZ hi * 256 + byteZ lo) = byteZ hi * 256 + byteZ lo.
Proof.
  apply u16_small. pose proof (byteZ_range hi). pose proof (byteZ_range lo). lia.
Qed.

Lemma in_size_app (l1 l2 : list byte) : in_size (l1 ++ l2) = in_size l1 + in_size l2.
Proof. unfold in_size. rewrite length_app. lia. Qed.

Lemma in_size_cons (b : byte) (l : list byte) : in_size (b :: l) = 1 + in_size l.
Proof. unfold in_size. simpl. lia. Qed.

Lemma in_size_nonneg (l : list byte) : 0 ≤ in_size l.
Proof. unfold in_size. lia. Qed.

(** Reading behind a prefix is reading in the rest. *)
Lemma rdb_app_r (pre l : list byte) (i : Z) :
  in_size pre ≤ i → rdb (pre ++ l) i = rdb l (i - in_size pre).
Proof.
  unfold rdb, in_size. intros Hi.
  rewrite !decide_True by lia.
  rewrite lookup_app_r by lia. f_equal. lia.
Qed.

Lemma rd_rdb (inb : list byte) (i : Z) : rd inb i = byteZ <$> rdb inb i.
Proof. unfold rd, rdb. by case_decide. Qed.

Lemma rd_app_r (pre l : list byte) (i : Z) :
  in_size pre ≤ i → rd (pre ++ l) i = rd l (i - in_size pre).
Proof. intros Hi. by rewrite !rd_rdb, rdb_app_r. Qed.

Lemma rd_0 (b : byte) (l : list byte) : rd (b :: l) 0 = Some (byteZ b).
Proof. reflexivity. Qed.

Lemma rd_cons (b : byte) (l : list byte) (i : Z) : 0 < i → rd (b :: l) i = rd l (i - 1).
Proof.
  intros Hi. unfold rd. rewrite !decide_True by lia.
  replace (Z.to_nat i) with (S (Z.to_nat (i - 1))) by lia. reflexivity.
Qed.

Lemma slice_app_r (pre l : list byte) (a b : Z) :
  in_size pre ≤ a → slice (pre ++ l) a b = slice l (a - in_size pre) (b - in_size pre).
Proof.
  intros Ha. unfold slice. rewrite in_size_app.
  pose proof (in_size_nonneg pre) as Hpre.
  destruct (decide (0 ≤ a ∧ a ≤ b ∧ b ≤ in_size pre + in_size l)) as [Hd|Hd].
  - rewrite decide_True by lia. f_equal.
    rewrite drop_app_ge by (unfold in_size in *; lia).
    f_equal; [lia|]. f_equal. unfold in_size in *. lia.
  - by rewrite decide_False by lia.
Qed.

Lemma slice_cons (x : byte) (l : list byte) (a b : Z) :
  0 < a → slice (x :: l) a b = slice l (a - 1) (b - 1).
Proof.
  intros Ha. change (x :: l) with ([x] ++ l).
  rewrite slice_app_r; [done|]. unfold in_size. simpl. lia.
Qed.

Lemma slice_prefix (mid post : list byte) (b : Z) :
  b = in_size mid → slice (mid ++ post) 0 b = Some mid.
Proof.
  intros ->. unfold slice. rewrite in_size_app.
  pose proof (in_size_nonneg mid). pose proof (in_size_nonneg post).
  rewrite decide_True by lia. f_equal.
  rewrite Z.sub_0_r. unfold in_size. rewrite Nat2Z.id.
  change (Z.to_nat 0) with O. rewrite drop_0.
  by rewrite take_app_length.
Qed.

Lemma slice_empty (inb : list byte) (a : Z) :
  0 ≤ a ≤ in_size inb → slice inb a a = Some [].
Proof.
  intros Ha. unfold slice. rewrite decide_True by lia.
  by rewrite Z.sub_diag.
Qed.

(** A mask of eight bits at position [k] selects byte [k / 8]. *)
Lemma land_byte_mask (x k : Z) :
  0 ≤ k → Z.land x (Z.shiftl 255 k) = ((x / 2 ^ k) mod 256) * 2 ^ k.
Proof.
  intros Hk.
  rewrite <- Z.shiftl_mul_pow2, <- Z.shiftr_div_pow2 by done.
  change 256 with (2 ^ 8). rewrite <- Z.land_ones by done.
  change (Z.ones 8) with 255.
  apply Z.bits_inj'. intros n Hn.
  rewrite Z.land_spec.
  destruct (decide (n < k)) as [Hlt|Hge].
  - rewrite !Z.shiftl_spec_low by done. apply andb_false_r.
  - rewrite !Z.shiftl_spec by done.
    rewrite Z.land_spec, Z.shiftr_spec by lia.
    f_equal. f_equal. lia.
Qed.

Lemma EndianSwap16_be (b0 b1 : byte) :
  EndianSwap16 (u8array_val [b0; b1]) = byteZ b0 * 256 + byteZ b1.
Proof.
  unfold EndianSwap16, u8array_val.
  pose proof (byteZ_range b0). pose proof (byteZ_range b1).
  change 0x00FF with (Z.shiftl 255 0). change 0xFF00 with (Z.shiftl 255 8).
  rewrite !land_byte_mask by done.
  rewrite Z.shiftl_mul_pow2, Z.shiftr_div_pow2 by done.
  unfold u16. change (2 ^ 0) with 1. change (2 ^ 8) with 256.
  Z.div_mod_to_equations. lia.
Qed.

Lemma EndianSwap32_be (b0 b1 b2 b3 : byte) :
  EndianSwap32 (u8array_val [b0; b1; b2; b3])
  = byteZ b0 * 16777216 + byteZ b1 * 65536 + byteZ b2 * 256 + byteZ b3.
Proof.
  unfold EndianSwap32, u8array_val.
  pose proof (byteZ_range b0). pose proof (byteZ_range b1).
  pose proof (byteZ_range b2). pose proof (byteZ_range b3).
  change 0x000000FF with (Z.shiftl 255 0). change 0x0000FF00 with (Z.shiftl 255 8).
  change 0x00FF0000 with (Z.shiftl 255 16). change 0xFF000000 with (Z.shiftl 255 24).
  rewrite !land_byte_mask by done.
  rewrite !Z.shiftl_mul_pow2, !Z.shiftr_div_pow2 by done.
  unfold u32.
  change (2 ^ 0) with 1. change (2 ^ 8) with 256.
  change (2 ^ 16) with 65536. change (2 ^ 24) with 16777216.
  Z.div_mod_to_equations. lia.
Qed.

(** ** Bytes of a frame *)

Lemma byte_at_range (inb : InputBuffer) (i : Z) : 0 ≤ byte_at inb i < 256.
Proof. apply byteZ_range. Qed.

Lemma be16_at_range (inb : InputBuffer) (i : Z) : 0 ≤ be16_at inb i < 65536.
Proof.
  unfold be16_at. pose proof (byte_at_range inb i). pose proof (byte_at_range inb (i + 1)). lia.
Qed.

Lemma rd_byte_at (inb : InputBuffer) (i : Z) :
  0 ≤ i < in_size inb → rd inb i = Some (byte_at inb i).
Proof.
  intros Hi. unfold rd, byte_at, in_size in *. rewrite decide_True by lia.
  destruct (lookup_lt_is_Some_2 inb (Z.to_nat i)) as [b Hb]; [lia|].
  rewrite Hb. simpl. f_equal. f_equal. symmetry. by apply nth_lookup_Some with (d := x00).
Qed.

Lemma rd16_be16_at (inb : InputBuffer) (i : Z) :
  0 ≤ i → i + 1 < in_size inb → rd16 inb i = Some (be16_at inb i).
Proof.
  intros H0 Hi. unfold rd16. rewrite !rd_byte_at by lia. reflexivity.
Qed.

Lemma slice_take_drop (inb : InputBuffer) (a b : Z) :
  0 ≤ a → a ≤ b → b ≤ in_size inb →
  slice inb a b = Some (take (Z.to_nat (b - a)) (drop (Z.to_nat a) inb)).
Proof. intros. unfold slice. by rewrite decide_True by lia. Qed.

Lemma bit_msglen_range (u16val : Z) : 0 ≤ bit_msglen u16val ≤ 1023.
Proof.
  unfold bit_msglen. change (Z.land u16val 0x3FF) with (Z.land u16val (Z.ones 10)). rewrite Z.land_ones by done.
  change (2 ^ 10) with 1024. pose proof (Z.mod_pos_bound u16val 1024). lia.
Qed.

Lemma bit_packet_range (u16val : Z) : 0 ≤ bit_packet u16val ≤ 1.
Proof.
  unfold bit_packet.
  change (Z.land (Z.shiftr u16val 13) 0x1) with (Z.land (Z.shiftr u16val 13) (Z.ones 1)).
  rewrite Z.land_ones by done.
  change (2 ^ 1) with 2. pose proof (Z.mod_pos_bound (Z.shiftr u16val 13) 2). lia.
Qed.

(** Unfolding steps that leave the arithmetic alone. *)
Ltac head_simpl :=
  cbn [mbind option_bind mret option_ret fmap option_fmap option_map fst snd
       msg_id msgbody_attr phone_num msg_flow_num total_packet packet_seq
       set_msg_id set_msgbody_attr set_phone_num set_msg_flow_num
       set_total_packet set_packet_seq] in *.

(** *** The message header *)

(** C7 (amended).  On a frame of at least 15 bytes whose phone number
    decodes, [JT808FrameHeadParse] succeeds; it takes [total_packet] from
    bytes 13-14 and [packet_seq] from bytes 15-16 when the packet bit of
    the attribute word is 1 and the frame is exactly 19 bytes longer than
    the body length of the attribute word, and it sets both to zero in
    every other case. *)
Theorem JT808FrameHeadParse_packet_fields `{Util} (inb : InputBuffer) (h : MsgHead)
    (str : string) :
  15 ≤ in_size inb < 2 ^ 64 →
  BcdToString (take 6 (drop 5 inb)) (phone_num h) = (0, str) →
  ∃ h', JT808FrameHeadParse inb (Some h) = Some (0, Some h')
      ∧ msgbody_attr h' = be16_at inb 3
      ∧ (bit_packet (be16_at inb 3) = 1 ∧ in_size inb = 19 + bit_msglen (be16_at inb 3)
         → total_packet h' = be16_at inb 13 ∧ packet_seq h' = be16_at inb 15)
      ∧ (¬ (bit_packet (be16_at inb 3) = 1 ∧ in_size inb = 19 + bit_msglen (be16_at inb 3))
         → total_packet h' = 0 ∧ packet_seq h' = 0).
Proof.
  intros Hsz Hbcd.
  unfold JT808FrameHeadParse.
  rewrite decide_False by lia.
  rewrite (rd16_be16_at inb 1), (rd16_be16_at inb 3), (rd16_be16_at inb 11) by lia.
  rewrite (slice_take_drop inb 5 11) by lia.
  change (Z.to_nat (11 - 5)) with 6%nat. change (Z.to_nat 5) with 5%nat.
  head_simpl. rewrite Hbcd. head_simpl.
  rewrite decide_False by (intros Hne; by apply Hne).
  rewrite !u16_small by apply be16_at_range.
  pose proof (bit_msglen_range (be16_at inb 3)) as Hlen.
  assert (size_t (in_size inb - 15 - bit_msglen (be16_at inb 3)) = 4
          ↔ in_size inb = 19 + bit_msglen (be16_at inb 3)) as Hiff.
  { unfold size_t. change 18446744073709551616 with (2 ^ 64).
    split; intros Heq.
    - destruct (decide (0 ≤ in_size inb - 15 - bit_msglen (be16_at inb 3))) as [Hp|Hn].
      + rewrite Z.mod_small in Heq by lia. lia.
      + rewrite <- (Z.mod_add _ 1) in Heq by lia.
        rewrite Z.mod_small in Heq by lia. lia.
    - rewrite Heq. replace (19 + _ - 15 - _) with 4 by lia. reflexivity. }
  case_decide as Hc.
  - destruct Hc as [Hp Hs]. apply Hiff in Hs.
    rewrite (rd16_be16_at inb 13), (rd16_be16_at inb 15) by lia. head_simpl.
    rewrite !u16_small by apply be16_at_range.
    eexists. split; [reflexivity|]. head_simpl. split; [done|]. split; [done|].
    intros Hneg. exfalso. apply Hneg. done.
  - eexists. split; [reflexivity|]. head_simpl. split; [done|]. split; [|done].
    intros [Hp Hs]. exfalso. apply Hc. split; [done|]. by apply Hiff.
Qed.

Lemma JT808FrameHeadParse_packet_fields_witness :
  ∃ h', JT808FrameHeadParse frame_C7 (Some MsgHead_zero) = Some (0, Some h')
      ∧ msgbody_attr h' = be16_at frame_C7 3
      ∧ (bit_packet (be16_at frame_C7 3) = 1
         ∧ in_size frame_C7 = 19 + bit_msglen (be16_at frame_C7 3)
         → total_packet h' = be16_at frame_C7 13 ∧ packet_seq h' = be16_at frame_C7 15)
      ∧ (¬ (bit_packet (be16_at frame_C7 3) = 1
            ∧ in_size frame_C7 = 19 + bit_msglen (be16_at frame_C7 3))
         → total_packet h' = 0 ∧ packet_seq h' = 0).
Proof.
  apply (JT808FrameHeadParse_packet_fields frame_C7 MsgHead_zero "013523339527").
  - vm_compute. split; [discriminate | reflexivity].
  - vm_compute. reflexivity.
Defined.

(** C7 (as stated) fails: on a 19-byte frame whose attribute word has the
    packet bit set and announces a one-byte body, the header decoder
    succeeds and leaves [total_packet] and [packet_seq] at zero, although
    bytes 13-14 hold 3 and bytes 15-16 hold 1. *)
Lemma JT808FrameHeadParse_packet_bit_counterexample :
  ∃ h', JT808FrameHeadParse frame_C7 (Some MsgHead_zero) = Some (0, Some h')
      ∧ bit_packet (msgbody_attr h') = 1
      ∧ be16_at frame_C7 13 = 3 ∧ be16_at frame_C7 15 = 1
      ∧ total_packet h' = 0 ∧ packet_seq h' = 0.
Proof. eexists. vm_compute. repeat split; reflexivity. Qed.

(** *** Reading a body behind the header *)

Lemma rd_at (pre l : list byte) (i k : Z) :
  in_size pre + k = i → 0 ≤ k → rd (pre ++ l) i = rd l k.
Proof.
  intros Hi Hk. rewrite rd_app_r by lia. f_equal. lia.
Qed.

Lemma slice_mid (pre mid post : list byte) (a b : Z) :
  a = in_size pre → b = a + in_size mid → slice (pre ++ mid ++ post) a b = Some mid.
Proof.
  intros -> ->. rewrite slice_app_r by lia.
  rewrite Z.sub_diag. apply slice_prefix. lia.
Qed.

Lemma rd16_at (pre l : list byte) (hi lo : byte) (i : Z) :
  in_size pre = i → rd16 (pre ++ hi :: lo :: l) i = Some (byteZ hi * 256 + byteZ lo).
Proof.
  intros Hi. unfold rd16.
  rewrite (rd_at pre _ i 0), (rd_at pre _ (i + 1) 1) by lia. reflexivity.
Qed.

(** *** The registry *)

(** Inserting a list of entries with [std::map::insert] keeps, for each
    key, the entry that came first. *)
Lemma foldl_std_map_insert_lookup {V : Type} (l : list (Z * V)) (m : gmap Z V) (k : Z) :
  foldl (λ m kv, (std_map_insert kv.1 kv.2 m).2) m l !! k
  = match m !! k with
    | Some v => Some v
    | None => (list_to_map l : gmap Z V) !! k
    end.
Proof.
  revert m. induction l as [|[k0 v0] l IH]; intros m.
  - cbn [foldl]. rewrite list_to_map_nil, lookup_empty. by destruct (m !! k).
  - cbn [foldl]. rewrite IH. rewrite list_to_map_cons.
    unfold std_map_insert. cbn [fst snd].
    destruct (m !! k0) as [w|] eqn:Hk0; cbn [snd].
    + destruct (m !! k) as [v|] eqn:Hk; [done|].
      rewrite lookup_insert_ne; [done|]. intros ->. congruence.
    + destruct (decide (k0 = k)) as [->|Hne].
      * rewrite Hk0. by rewrite !lookup_insert_eq.
      * by rewrite !lookup_insert_ne by done.
Qed.

Lemma builtin_handlers_keys `{Util} :
  builtin_handlers.*1
  = [0x0001; 0x8001; 0x0002; 0x8003; 0x0100; 0x8100; 0x0003; 0x0102; 0x8103; 0x8104;
     0x8106; 0x0104; 0x8108; 0x0108; 0x0200; 0x8201; 0x0201; 0x8202; 0x8604; 0x8605;
     0x0801; 0x8800].
Proof. reflexivity. Qed.

Lemma builtin_handlers_NoDup `{Util} : NoDup (builtin_handlers.*1).
Proof.
  rewrite builtin_handlers_keys.
  apply (bool_decide_unpack (NoDup _)). vm_compute. exact I.
Qed.

Lemma builtin_parser_lookup `{Util} (id : Z) (h : ParseHandler) :
  (id, h) ∈ builtin_handlers → builtin_parser !! id = Some h.
Proof.
  intros Hin. unfold builtin_parser, JT808FrameParserInit. cbn [snd].
  rewrite foldl_std_map_insert_lookup, lookup_empty.
  apply elem_of_list_to_map_1; [apply builtin_handlers_NoDup | done].
Qed.

Ltac fields_simpl :=
  cbn [mbind option_bind mret option_ret fmap option_fmap option_map fst snd
       send parse set_send set_parse
       respone_result respone_msg_id respone_flow_num msg_head register_info
       authentication_code terminal_parameters terminal_parameter_ids location_info
       location_extension location_tracking_control polygon_area polygon_area_id
       upgrade_info fill_packet multimedia_upload multimedia_upload_response
       retain version_info license_data can_data
       set_respone_result set_respone_msg_id set_respone_flow_num set_msg_head
       set_register_info set_authentication_code set_terminal_parameters
       set_terminal_parameter_ids set_location_info set_location_extension
       set_location_tracking_control set_polygon_area set_polygon_area_id
       set_upgrade_info set_fill_packet set_multimedia_upload
       set_multimedia_upload_response
       first_packet_msg_flow_num packet_id set_first_packet_msg_flow_num set_packet_id
       area_id area_attribute start_time stop_time max_speed overspeed_time vertices
       set_area_id set_area_attribute set_start_time set_stop_time set_max_speed
       set_overspeed_time set_vertices] in *.

(** *** 0x8100, Terminal registration response *)

(** On a frame that carries a registration response body at the body
    position of an unsegmented frame (offset 13, the position the
    handler always uses), with the header announcing the body length, the
    registered 0x8100 handler succeeds; it sets [parse.respone_flow_num] to
    the big-endian value of the first two body bytes and
    [parse.respone_result] to the third; it assigns
    [parse.authentication_code] from the remaining [msglen - 3] body bytes
    when the result byte is 0 and leaves it alone otherwise. *)
Theorem TerminalRegisterResponse_fields `{Util} (hdr code rest : list byte)
    (b0 b1 b2 : byte) (p : ProtocolParameter) :
  in_size hdr = MSGBODY_NOPACKET_POS →
  msg_len (parse p) = in_size (b0 :: b1 :: b2 :: code) →
  ∃ h p',
    builtin_parser !! kTerminalRegisterResponse = Some h
    ∧ h (hdr ++ (b0 :: b1 :: b2 :: code) ++ rest) (Some p) = Some (0, Some p')
    ∧ respone_flow_num (parse p') = byteZ b0 * 256 + byteZ b1
    ∧ respone_result (parse p') = byteZ b2
    ∧ (byteZ b2 = 0 → authentication_code (parse p') = code)
    ∧ (byteZ b2 ≠ 0 → authentication_code (parse p') = authentication_code (parse p)).
Proof.
  intros Hhdr Hlen. unfold MSGBODY_NOPACKET_POS in Hhdr.
  assert (builtin_parser !! kTerminalRegisterResponse
          = Some (handler TerminalRegisterResponse_body)) as Hreg.
  { apply builtin_parser_lookup. unfold builtin_handlers. set_solver. }
  assert (∀ v, respone_result (set_respone_result (u8 (byteZ b2)) v) = byteZ b2) as Hres.
  { intros v. fields_simpl. apply u8_byteZ. }
  destruct (decide (byteZ b2 = 0)) as [Hz|Hnz];
    eexists (handler TerminalRegisterResponse_body), _;
    (split; [exact Hreg|]);
    unfold handler, TerminalRegisterResponse_body, MSGBODY_NOPACKET_POS;
    cbn [app].
  all: rewrite rd16_at by done.
  all: rewrite (rd_at hdr _ (13 + 2) 2) by lia.
  all: change (rd (b0 :: b1 :: b2 :: code ++ rest) 2) with (Some (byteZ b2)).
  all:  cbn [mbind option_bind]; rewrite Hres.
  - rewrite decide_True by done.
    replace (hdr ++ b0 :: b1 :: b2 :: code ++ rest)
      with ((hdr ++ [b0; b1; b2]) ++ code ++ rest) by (by rewrite <- app_assoc).
    rewrite (slice_mid _ code rest).
    + fields_simpl. split; [reflexivity|]. fields_simpl.
      rewrite u16_be16, u8_byteZ.       split; [reflexivity|]. split; [reflexivity|]. split; [intros _; reflexivity|].
      intros Hnz. exfalso. exact (Hnz Hz).
    + rewrite in_size_app, Hhdr. reflexivity.
    + unfold msg_len in *. fields_simpl. rewrite Hlen, !in_size_cons. lia.
  - rewrite decide_False by done.
    fields_simpl. split; [reflexivity|]. fields_simpl.
    rewrite u16_be16, u8_byteZ.
    split; [reflexivity|]. split; [reflexivity|]. split; [|intros _; reflexivity].
    intros Hz. exfalso. exact (Hnz Hz).
Qed.

(** *** 0x8103, Set terminal parameters *)

Lemma byteZ_byte_of_Z (z : Z) : byteZ (byte_of_Z z) = z mod 256.
Proof.
  unfold byteZ, byte_of_Z.
  pose proof (Z.mod_pos_bound z 256 ltac:(lia)) as Hz.
  destruct (Byte.of_N (Z.to_N (z mod 256))) as [b|] eqn:Hb.
  - apply Byte.to_of_N in Hb. unfold default. cbn [from_option id]. rewrite Hb. lia.
  - apply Byte.of_N_None_iff in Hb. lia.
Qed.

Lemma byteZ_byte_of_Z_small (z : Z) : 0 ≤ z < 256 → byteZ (byte_of_Z z) = z.
Proof. intros Hz. rewrite byteZ_byte_of_Z. by apply Z.mod_small. Qed.

Lemma swap32_at (pre l : list byte) (b0 b1 b2 b3 : byte) (pos : Z) :
  in_size pre = pos →
  swap32 (pre ++ b0 :: b1 :: b2 :: b3 :: l) pos
  = Some (byteZ b0 * 16777216 + byteZ b1 * 65536 + byteZ b2 * 256 + byteZ b3).
Proof.
  intros Hpos. unfold swap32.
  change (b0 :: b1 :: b2 :: b3 :: l) with ([b0; b1; b2; b3] ++ l).
  rewrite (slice_mid pre [b0; b1; b2; b3] l) by (done || by rewrite Hpos).
  cbn [mbind option_bind]. by rewrite EndianSwap32_be.
Qed.

Lemma swap32_be32_bytes (pre l : list byte) (z pos : Z) :
  in_size pre = pos → 0 ≤ z < 4294967296 →
  swap32 (pre ++ be32_bytes z ++ l) pos = Some z.
Proof.
  intros Hpos Hz. unfold be32_bytes. cbn [app].
  rewrite swap32_at by done. rewrite !byteZ_byte_of_Z. f_equal.
  Z.div_mod_to_equations. lia.
Qed.

Lemma in_size_be32_bytes (z : Z) : in_size (be32_bytes z) = 4.
Proof. reflexivity. Qed.

Lemma in_size_wire_parameter (item : Z * list byte) :
  in_size (wire_parameter item) = 5 + in_size item.2.
Proof.
  unfold wire_parameter. rewrite !in_size_app, in_size_be32_bytes.
  change (in_size [byte_of_Z (in_size item.2)]) with 1. lia.
Qed.

(** The loop over the items of a well-formed body inserts them one after
    the other. *)
Lemma TerminalParameters_items_wire (items : list (Z * list byte)) :
  ∀ (pre post : list byte) (pos : Z) (paras : gmap Z (list byte)),
  Forall parameter_ok items →
  in_size pre = pos →
  pos + in_size (concat (wire_parameter <$> items)) < 65536 →
  TerminalParameters_items (pre ++ concat (wire_parameter <$> items) ++ post)
    (length items) pos paras
  = Some (foldl (λ m kv, (std_map_insert kv.1 kv.2 m).2) paras items).
Proof.
  induction items as [|[id value] items IH]; intros pre post pos paras Hok Hpre Hfit.
  - reflexivity.
  - apply Forall_cons in Hok as [[Hid Hval] Hok]. cbn [fst snd] in Hid, Hval.
    pose proof (in_size_nonneg pre) as Hpre0.
    pose proof (in_size_nonneg value) as Hval0.
    pose proof (in_size_nonneg (concat (wire_parameter <$> items))) as Hrest0.
    rewrite fmap_cons, concat_cons, in_size_app, in_size_wire_parameter in Hfit.
    cbn [fst snd] in Hfit.
    rewrite fmap_cons, concat_cons. unfold wire_parameter at 1. cbn [fst snd].
    rewrite <- !app_assoc.
    cbn [length TerminalParameters_items].
    rewrite swap32_be32_bytes by done.
    cbn [mbind option_bind].
    rewrite (u16_small (pos + 4)) by lia.
    rewrite (app_assoc pre (be32_bytes id)).
    rewrite (rd_at (pre ++ be32_bytes id) _ (pos + 4) 0)
      by (rewrite ?in_size_app, ?in_size_be32_bytes; lia).
    cbn [app]. rewrite rd_0. cbn [mbind option_bind].
    rewrite byteZ_byte_of_Z_small by lia.
    change (byte_of_Z (in_size value) :: value ++ concat (wire_parameter <$> items) ++ post)
      with ([byte_of_Z (in_size value)] ++ value ++ concat (wire_parameter <$> items) ++ post).
    rewrite (app_assoc (pre ++ be32_bytes id)).
    rewrite (slice_mid _ value)
      by (rewrite ?in_size_app, ?in_size_be32_bytes;
          change (in_size [byte_of_Z (in_size value)]) with 1; lia).
    cbn [mbind option_bind].
    rewrite (u16_small (pos + 4 + (1 + in_size value))) by lia.
    rewrite (app_assoc _ value).
    rewrite IH; [reflexivity | done | |].
    + rewrite !in_size_app, in_size_be32_bytes.
      change (in_size [byte_of_Z (in_size value)]) with 1. lia.
    + lia.
Qed.

(** C9.  On a frame that carries, at the body position given by the
    packet bit of the parsed header, a Set Terminal Parameters body made
    of a count and that many well-formed items, with the header announcing
    the body length, the registered 0x8103 handler succeeds and leaves in
    [parse.terminal_parameters] exactly the mapping of the items, whatever
    the map held before.  In particular the body
    01 00 00 F0 20 0D 31 39 32 2E 31 36 38 2E 33 2E 31 31 31 gives the single
    entry from 0xF020 to the 13 bytes of "192.168.3.111". *)
Theorem SetTerminalParameters_mapping `{Util} :
  (∀ (hdr rest : list byte) (items : list (Z * list byte)) (p : ProtocolParameter),
     Forall parameter_ok items →
     (length items ≤ 255)%nat →
     in_size hdr = body_pos (parse p) →
     msg_len (parse p) = in_size (wire_parameters items) →
     ∃ h p',
       builtin_parser !! kSetTerminalParameters = Some h
       ∧ h (hdr ++ wire_parameters items ++ rest) (Some p) = Some (0, Some p')
       ∧ terminal_parameters (parse p') = list_to_map items)
  ∧ (∀ (hdr rest : list byte) (p : ProtocolParameter),
       in_size hdr = body_pos (parse p) →
       msg_len (parse p) = 19 →
       ∃ h p',
         builtin_parser !! kSetTerminalParameters = Some h
         ∧ h (hdr ++ body_set_parameters ++ rest) (Some p) = Some (0, Some p')
         ∧ terminal_parameters (parse p')
           = {[ 0xF020 := value_ip ]}).
Proof.
  assert (∀ (hdr rest : list byte) (items : list (Z * list byte)) (p : ProtocolParameter),
     Forall parameter_ok items →
     (length items ≤ 255)%nat →
     in_size hdr = body_pos (parse p) →
     msg_len (parse p) = in_size (wire_parameters items) →
     ∃ h p',
       builtin_parser !! kSetTerminalParameters = Some h
       ∧ h (hdr ++ wire_parameters items ++ rest) (Some p) = Some (0, Some p')
       ∧ terminal_parameters (parse p') = list_to_map items) as Hgen.
  { intros hdr rest items p Hok Hcnt Hhdr Hlen.
    eexists (handler SetTerminalParameters_body), _.
    split. { apply builtin_parser_lookup. unfold builtin_handlers. set_solver. }
    unfold handler, SetTerminalParameters_body.
    pose proof (bit_msglen_range (msgbody_attr (msg_head (parse p)))) as Hml.
    fold (msg_len (parse p)) in Hml.
    assert (13 ≤ body_pos (parse p) ≤ 17) as Hpos.
    { unfold body_pos, MSGBODY_PACKET_POS, MSGBODY_NOPACKET_POS. case_decide; lia. }
    unfold wire_parameters in *. rewrite in_size_cons in Hlen.
    pose proof (in_size_nonneg (concat (wire_parameter <$> items))) as Hrest0.
    rewrite decide_False by lia.
    cbn [app].
    rewrite (rd_at hdr _ (body_pos (parse p)) 0) by lia.
    rewrite rd_0. cbn [mbind option_bind].
    rewrite byteZ_byte_of_Z_small by lia. rewrite Nat2Z.id.
    fields_simpl.
    change (hdr ++ byte_of_Z (Z.of_nat (length items))
                :: concat (wire_parameter <$> items) ++ rest)
      with (hdr ++ [byte_of_Z (Z.of_nat (length items))]
                ++ concat (wire_parameter <$> items) ++ rest).
    rewrite app_assoc.
    rewrite (u16_small (body_pos (parse p) + 1)) by lia.
    rewrite TerminalParameters_items_wire; [| done | | lia].
    - fields_simpl. split; [reflexivity|]. fields_simpl.
      apply map_eq. intros k.
      by rewrite foldl_std_map_insert_lookup, lookup_empty.
    - rewrite in_size_app. change (in_size [byte_of_Z (Z.of_nat (length items))]) with 1. lia. }
  split; [exact Hgen|].
  intros hdr rest p Hhdr Hlen.
  destruct (Hgen hdr rest
              [(0xF020, value_ip)] p)
    as (h & p' & Hh & Hrun & Hmap).
  - apply Forall_singleton. unfold parameter_ok. cbn [fst snd].
    change (in_size _) with 13. lia.
  - cbn [length]. lia.
  - done.
  - rewrite Hlen. reflexivity.
  - exists h, p'. split; [done|]. split; [exact Hrun|].
    rewrite Hmap. rewrite list_to_map_cons, list_to_map_nil. reflexivity.
Qed.

(** *** Return codes of the built-in handlers *)

Ltac rc_step :=
  match goal with
  | H : Some _ = Some _ |- _ => injection H as <- <-
  | H : Some _ = Some _ |- _ => injection H as <-
  | H : None = Some _ |- _ => discriminate H
  | H : (_ ≫= _) = Some _ |- _ =>
      let x := fresh "x" in let Hx := fresh "Hx" in
      apply bind_Some in H as (x & Hx & H)
  | H : (if ?c then _ else _) = Some _ |- _ => destruct c
  | H : (let '(_, _) := ?x in _) = Some _ |- _ => destruct x
  | H : (match ?x with (_, _) => _ end) = Some _ |- _ => destruct x
  end.

Lemma location_extension_items_rc (fuel : nat) (inb : InputBuffer) (end_ : Z) :
  ∀ pos ext rc ext',
  location_extension_items fuel inb end_ pos ext = Some (rc, ext') → rc = 0 ∨ rc = -1.
Proof.
  induction fuel as [|fuel IH]; intros pos ext rc ext' Hrun; cbn [location_extension_items] in Hrun.
  - case_decide; [discriminate|]. injection Hrun as <- <-. by left.
  - case_decide; [|injection Hrun as <- <-; by left].
    repeat rc_step; [by right|]. eauto.
Qed.

Lemma builtin_bodies_rc `{Util} :
  Forall body_returns_0_or_minus1
    [GeneralResponse_body; EmptyBody_body; FillPacketRequest_body; TerminalRegister_body;
     TerminalRegisterResponse_body; TerminalAuthentication_body; SetTerminalParameters_body;
     GetTerminalParameters_body; GetSpecificTerminalParameters_body;
     GetTerminalParametersResponse_body; TerminalUpgrade_body;
     TerminalUpgradeResultReport_body; LocationReport_body;
     GetLocationInformationResponse_body; LocationTrackingControl_body;
     SetPolygonArea_body; DeletePolygonArea_body; MultimediaDataUpload_body;
     MultimediaDataUploadResponse_body].
Proof.
  repeat apply Forall_cons_2; [..|apply Forall_nil_2];
    intros inb v rc v' Hrun.
  all: try (unfold GeneralResponse_body, EmptyBody_body, FillPacketRequest_body,
       TerminalRegister_body, TerminalRegisterResponse_body, TerminalAuthentication_body,
       SetTerminalParameters_body, GetTerminalParameters_body,
       GetSpecificTerminalParameters_body, GetTerminalParametersResponse_body,
       TerminalUpgrade_body, TerminalUpgradeResultReport_body,
       LocationTrackingControl_body, DeletePolygonArea_body, MultimediaDataUpload_body,
       MultimediaDataUploadResponse_body in Hrun;
       repeat rc_step; (by left) || (by right)).
  - unfold LocationReport_body, location_report_content in Hrun.
    repeat rc_step; try ((by left) || (by right)).
    eapply location_extension_items_rc; eassumption.
  - unfold GetLocationInformationResponse_body, location_report_content in Hrun.
    repeat rc_step; try ((by left) || (by right)).
    eapply location_extension_items_rc; eassumption.
  - unfold SetPolygonArea_body in Hrun.
    repeat rc_step; (by left) || (by right).
Qed.

Lemma builtin_handlers_bodies `{Util} (id : Z) (h : ParseHandler) :
  (id, h) ∈ builtin_handlers →
  ∃ body, h = handler body ∧ body_returns_0_or_minus1 body.
Proof.
  intros Hin. pose proof builtin_bodies_rc as Hrc.
  repeat (apply Forall_cons in Hrc as [? Hrc]).
  unfold builtin_handlers in Hin.
  repeat (apply elem_of_cons in Hin as [Hin|Hin];
          [injection Hin as -> ->; eexists; split; [reflexivity|assumption]|]).
  by apply elem_of_nil in Hin.
Qed.

Lemma builtin_parser_lookup_inv `{Util} (id : Z) (h : ParseHandler) :
  builtin_parser !! id = Some h → (id, h) ∈ builtin_handlers.
Proof.
  unfold builtin_parser, JT808FrameParserInit. cbn [snd].
  rewrite foldl_std_map_insert_lookup, lookup_empty.
  apply elem_of_list_to_map_2.
Qed.

Lemma handler_rc (body : InputBuffer → Fields → option (Z * Fields)) :
  body_returns_0_or_minus1 body → handler_returns_0_or_minus1 (handler body).
Proof.
  intros Hbody inb para rc para' Hrun. unfold handler in Hrun.
  destruct para as [p|]; [|injection Hrun as <- <-; by right].
  apply bind_Some in Hrun as ([rc0 v] & Hb & Hrun).
  injection Hrun as <- <-. by eapply Hbody.
Qed.

Lemma handler_send (body : InputBuffer → Fields → option (Z * Fields)) :
  handler_keeps_send (handler body).
Proof.
  intros inb p rc para' Hrun. unfold handler in Hrun.
  apply bind_Some in Hrun as ([rc0 v] & Hb & Hrun).
  injection Hrun as <- <-. eexists. split; reflexivity.
Qed.

(** Every handler registered by [JT808FrameParserInit] honours the
    contract of parser.h and writes only to [para->parse]. *)
Lemma builtin_parser_returns_0_or_minus1 `{Util} : parser_returns_0_or_minus1 builtin_parser.
Proof.
  intros id h Hh. apply builtin_parser_lookup_inv, builtin_handlers_bodies in Hh
    as (body & -> & Hbody).
  by apply handler_rc.
Qed.

Lemma builtin_parser_keeps_send `{Util} : parser_keeps_send builtin_parser.
Proof.
  intros id h Hh. apply builtin_parser_lookup_inv, builtin_handlers_bodies in Hh
    as (body & -> & Hbody).
  apply handler_send.
Qed.

(** *** The frame parser *)

(** The header decoder always returns, with the header it was given. *)
Lemma JT808FrameHeadParse_total `{Util} (inb : InputBuffer) (h : MsgHead) :
  ∃ rc head, JT808FrameHeadParse inb (Some h) = Some (rc, Some head).
Proof.
  unfold JT808FrameHeadParse.
  case_decide as Hsz; [by eexists _, _|].
  rewrite (rd16_be16_at inb 1), (rd16_be16_at inb 3), (rd16_be16_at inb 11) by lia.
  rewrite (slice_take_drop inb 5 11) by lia.
  head_simpl.
  destruct (BcdToString _ _) as [rc str].
  case_decide; [by eexists _, _|].
  case_decide as Hc; [|by eexists _, _].
  destruct Hc as [_ Hc]. head_simpl.
  pose proof (bit_msglen_range (u16 (be16_at inb 3))) as Hlen.
  assert (19 ≤ in_size inb) as Hsz'.
  { revert Hc Hlen. generalize (bit_msglen (u16 (be16_at inb 3))).
    intros len Hc Hlen. unfold size_t in Hc.
    destruct (decide (0 ≤ in_size inb - 15 - len)) as [Hp|Hn]; [|exfalso].
    - destruct (decide (in_size inb - 15 - len < 4)) as [Hlt|]; [|lia].
      rewrite Z.mod_small in Hc by lia. lia.
    - rewrite <- (Z.mod_add _ 1) in Hc by lia.
      rewrite Z.mod_small in Hc by lia. lia. }
  rewrite (rd16_be16_at inb 13), (rd16_be16_at inb 15) by lia.
  by eexists _, _.
Qed.

(** The steps of [JT808FrameParse] once the buffer is unescaped. *)
Lemma JT808FrameParse_steps `{Util} (parser : Parser) (inb out : InputBuffer)
    (p : ProtocolParameter) (rc : Z) (head : MsgHead) :
  ReverseEscape inb = Some out →
  3 ≤ in_size out →
  JT808FrameHeadParse out (Some (msg_head (parse p))) = Some (rc, Some head) →
  JT808FrameParse parser inb (Some p)
  = if decide (checksum_ok out) then
      if decide (rc ≠ 0)
      then Some (ParserError.HeaderParseError, Some (set_parse (set_msg_head head (parse p)) p))
      else match parser !! msg_id head with
           | None => Some (ParserError.UnregisteredMessageParser, Some (with_decoded_head head p))
           | Some it => it out (Some (with_decoded_head head p))
           end
    else Some (ParserError.ChecksumError, Some p).
Proof.
  intros Hout Hsz Hhead. unfold JT808FrameParse. rewrite Hout.
  assert (0 ≤ size_t (in_size out - 3) ≤ in_size out - 3) as Hwrap.
  { unfold size_t.
    pose proof (Z.mod_pos_bound (in_size out - 3) 18446744073709551616 ltac:(lia)).
    pose proof (Z.mod_le (in_size out - 3) 18446744073709551616 ltac:(lia) ltac:(lia)).
    lia. }
  rewrite slice_take_drop by lia.
  rewrite rd_byte_at by lia.
  cbn [mbind option_bind].
  replace (Z.to_nat (1 + size_t (in_size out - 3) - 1))
    with (Z.to_nat (size_t (in_size out - 3))) by lia.
  change (Z.to_nat 1) with 1%nat.
  destruct (decide (checksum_ok out)) as [Hsum|Hsum]; unfold checksum_ok in Hsum.
  - rewrite decide_False by (intros Hne; by apply Hne).
    rewrite Hhead. cbn [mbind option_bind]. fields_simpl.
    case_decide; [reflexivity|]. reflexivity.
  - by rewrite decide_True by done.
Qed.

(** A run of [JT808FrameParse] that gets past the unescaping is defined
    only on a frame of at least three bytes. *)
Lemma JT808FrameParse_defined_size `{Util} (parser : Parser) (inb out : InputBuffer)
    (p : ProtocolParameter) (res : Z * option ProtocolParameter) :
  ReverseEscape inb = Some out →
  JT808FrameParse parser inb (Some p) = Some res →
  3 ≤ in_size out.
Proof.
  intros Hout Hrun. unfold JT808FrameParse in Hrun. rewrite Hout in Hrun.
  apply bind_Some in Hrun as (src & Hsrc & _).
  unfold slice in Hsrc. case_decide as Hd; [|discriminate].
  unfold size_t in Hd.
  pose proof (in_size_nonneg out).
  destruct (decide (3 ≤ in_size out)); [done|exfalso].
  rewrite <- (Z.mod_add _ 1) in Hd by lia.
  rewrite Z.mod_small in Hd by lia. lia.
Qed.

Ltac codes :=
  unfold ParserError.Ok, ParserError.MiscError, ParserError.ParametersNull,
    ParserError.UnesapingError, ParserError.ChecksumError, ParserError.HeaderParseError,
    ParserError.UnregisteredMessageParser in *.

(** For a parser whose handlers return 0 or -1, the code of a call that
    returns tells which step ended it. *)
Lemma JT808FrameParse_codes_of_run `{Util} (parser : Parser) (inb : InputBuffer)
    (para para' : option ProtocolParameter) (r : Z) :
  parser_returns_0_or_minus1 parser →
  JT808FrameParse parser inb para = Some (r, para') →
  (r = ParserError.ParametersNull ↔ para = None)
  ∧ (∀ p, para = Some p →
     (r = ParserError.UnesapingError ↔ ReverseEscape inb = None)
     ∧ (∀ out, ReverseEscape inb = Some out →
        (r = ParserError.ChecksumError ↔ ¬ checksum_ok out)
        ∧ (checksum_ok out →
           ∃ rc head,
             JT808FrameHeadParse out (Some (msg_head (parse p))) = Some (rc, Some head)
             ∧ (r = ParserError.HeaderParseError ↔ rc ≠ 0)
             ∧ (rc = 0 →
                (r = ParserError.UnregisteredMessageParser ↔ parser !! msg_id head = None)
                ∧ (r = ParserError.Ok ↔
                   ∃ (it : ParseHandler) q, parser !! msg_id head = Some it
                           ∧ it out (Some (with_decoded_head head p)) = Some (0, q))))))
  ∧ (r = ParserError.Ok →
     ∃ p out head,
       para = Some p ∧ ReverseEscape inb = Some out ∧ checksum_ok out
       ∧ JT808FrameHeadParse out (Some (msg_head (parse p))) = Some (0, Some head)).
Proof.
  intros Hconf Hrun. codes.
  destruct para as [p|]; cycle 1.
  { injection Hrun as <- <-.
    split; [done|]. split; [intros p Hp; discriminate Hp|]. intros Hr; discriminate Hr. }
  destruct (ReverseEscape inb) as [out|] eqn:Hout; cycle 1.
  { unfold JT808FrameParse in Hrun. rewrite Hout in Hrun. injection Hrun as <- <-.
    codes.
    split; [split; intros Hr; discriminate Hr|].
    split; [|intros Hr; discriminate Hr].
    intros p0 _. split; [done|]. intros out Hr; discriminate Hr. }
  pose proof (JT808FrameParse_defined_size _ _ _ _ _ Hout Hrun) as Hsz.
  destruct (JT808FrameHeadParse_total out (msg_head (parse p))) as (rc & head & Hhead).
  rewrite (JT808FrameParse_steps parser inb out p rc head Hout Hsz Hhead) in Hrun.
  codes.
  assert (r = -4 ∧ ¬ checksum_ok out
          ∨ checksum_ok out ∧
            (r = -5 ∧ rc ≠ 0
             ∨ rc = 0 ∧
               (r = -6 ∧ parser !! msg_id head = None
                ∨ ∃ it : ParseHandler, parser !! msg_id head = Some it
                        ∧ it out (Some (with_decoded_head head p)) = Some (r, para')
                        ∧ (r = 0 ∨ r = -1)))) as Hcases.
  { destruct (decide (checksum_ok out)) as [Hsum|Hsum]; cycle 1.
    { injection Hrun as <- <-. by left. }
    right. split; [done|].
    destruct (decide (rc ≠ 0)) as [Hrc|Hrc].
    { injection Hrun as <- <-. by left. }
    right. split; [lia|].
    destruct (parser !! msg_id head) as [it|] eqn:Hit.
    - right. exists it. split; [done|]. split; [done|]. by eapply Hconf.
    - injection Hrun as <- <-. by left. }
  clear Hrun.
  split.
  { split; [|intros Hp; discriminate Hp].
    intros ->. exfalso.
    destruct Hcases as [[? _]|[_ [[? _]|[_ [[? _]|(it & _ & _ & [?|?])]]]]]; lia. }
  split.
  { intros p0 Hp0. injection Hp0 as <-.
    split.
    { split; [|intros Hr; discriminate Hr].
      intros ->. exfalso.
      destruct Hcases as [[? _]|[_ [[? _]|[_ [[? _]|(it & _ & _ & [?|?])]]]]]; lia. }
    intros out0 Hout0. injection Hout0 as <-.
    split.
    { split.
      - intros ->.
        destruct Hcases as [[_ ?]|[_ [[? _]|[_ [[? _]|(it & _ & _ & [?|?])]]]]];
          [done|exfalso; lia..].
      - intros Hsum.
        destruct Hcases as [[? _]|[? _]]; [done|]. exfalso. by apply Hsum. }
    intros Hsum. exists rc, head. split; [done|].
    destruct Hcases as [[_ ?]|[_ Hcases]]; [done|].
    split.
    { split.
      - intros ->.
        destruct Hcases as [[_ ?]|[_ [[? _]|(it & _ & _ & [?|?])]]];
          [done|exfalso; lia..].
      - intros Hrc. destruct Hcases as [[? _]|[? _]]; [done|]. exfalso. by apply Hrc. }
    intros Hrc. destruct Hcases as [[_ ?]|[_ Hcases]]; [done|].
    split.
    { split.
      - intros ->. destruct Hcases as [[_ ?]|(it & _ & _ & [?|?])]; [done|exfalso; lia..].
      - intros Hnone. destruct Hcases as [[? _]|(it & Hit & _)]; [done|].
        exfalso. rewrite Hit in Hnone. discriminate Hnone. }
    split.
    - intros ->. destruct Hcases as [[? _]|(it & Hit & Hcall & _)]; [exfalso; lia|].
      by exists it, para'.
    - intros (it & q & Hit & Hcall).
      destruct Hcases as [[_ Hnone]|(it' & Hit' & Hcall' & _)].
      + rewrite Hit in Hnone. discriminate Hnone.
      + rewrite Hit in Hit'. injection Hit' as <-.
        rewrite Hcall in Hcall'. by injection Hcall' as <- _. }
  intros ->. exists p, out, head. split; [done|]. split; [done|].
  destruct Hcases as [[? _]|[Hsum [[? _]|[-> _]]]]; [exfalso; lia|exfalso; lia|].
  split; [exact Hsum|exact Hhead].
Qed.

(** C5 (amended).  [JT808FrameParse] returns ParametersNull (-2) on a
    null pointer; otherwise UnesapingError (-3) when the reverse escaping
    fails; otherwise, on an unescaped buffer of at least three bytes,
    ChecksumError (-4) when the checksum computed over it differs from
    its checksum byte; otherwise HeaderParseError (-5) when the header
    decoder returns non-zero; otherwise UnregisteredMessageParser (-6)
    when no handler is registered for the decoded message ID; otherwise
    the value the dispatched handler returns, whatever it is.  For a
    parser whose handlers return 0 or -1, as parser.h prescribes and as
    all built-in handlers do, each of the five codes is returned exactly
    in its case, and Ok (0) exactly when all these steps pass and the
    dispatched handler returns 0. *)
Theorem JT808FrameParse_return_codes `{Util} (parser : Parser) (inb : InputBuffer) :
  JT808FrameParse parser inb None = Some (ParserError.ParametersNull, None)
  ∧ (∀ p : ProtocolParameter,
       (ReverseEscape inb = None →
        JT808FrameParse parser inb (Some p) = Some (ParserError.UnesapingError, Some p))
       ∧ (∀ out, ReverseEscape inb = Some out → 3 ≤ in_size out →
          (¬ checksum_ok out →
           JT808FrameParse parser inb (Some p) = Some (ParserError.ChecksumError, Some p))
          ∧ (checksum_ok out →
             ∃ rc head,
               JT808FrameHeadParse out (Some (msg_head (parse p))) = Some (rc, Some head)
               ∧ (rc ≠ 0 →
                  JT808FrameParse parser inb (Some p)
                  = Some (ParserError.HeaderParseError,
                          Some (set_parse (set_msg_head head (parse p)) p)))
               ∧ (rc = 0 → parser !! msg_id head = None →
                  JT808FrameParse parser inb (Some p)
                  = Some (ParserError.UnregisteredMessageParser,
                          Some (with_decoded_head head p)))
               ∧ (rc = 0 → ∀ it : ParseHandler, parser !! msg_id head = Some it →
                  JT808FrameParse parser inb (Some p)
                  = it out (Some (with_decoded_head head p))))))
  ∧ (parser_returns_0_or_minus1 parser →
     ∀ (para para' : option ProtocolParameter) (r : Z),
     JT808FrameParse parser inb para = Some (r, para') →
     (r = ParserError.ParametersNull ↔ para = None)
     ∧ (∀ p, para = Some p →
        (r = ParserError.UnesapingError ↔ ReverseEscape inb = None)
        ∧ (∀ out, ReverseEscape inb = Some out →
           (r = ParserError.ChecksumError ↔ ¬ checksum_ok out)
           ∧ (checksum_ok out →
              ∃ rc head,
                JT808FrameHeadParse out (Some (msg_head (parse p))) = Some (rc, Some head)
                ∧ (r = ParserError.HeaderParseError ↔ rc ≠ 0)
                ∧ (rc = 0 →
                   (r = ParserError.UnregisteredMessageParser ↔ parser !! msg_id head = None)
                   ∧ (r = ParserError.Ok ↔
                      ∃ (it : ParseHandler) q, parser !! msg_id head = Some it
                              ∧ it out (Some (with_decoded_head head p)) = Some (0, q))))))
     ∧ (r = ParserError.Ok →
        ∃ p out head,
          para = Some p ∧ ReverseEscape inb = Some out ∧ checksum_ok out
          ∧ JT808FrameHeadParse out (Some (msg_head (parse p))) = Some (0, Some head))).
Proof.
  split; [reflexivity|]. split.
  - intros p. split.
    { intros Hout. unfold JT808FrameParse. by rewrite Hout. }
    intros out Hout Hsz.
    destruct (JT808FrameHeadParse_total out (msg_head (parse p))) as (rc & head & Hhead).
    rewrite (JT808FrameParse_steps parser inb out p rc head Hout Hsz Hhead).
    split.
    { intros Hsum. by rewrite decide_False by done. }
    intros Hsum. exists rc, head. split; [exact Hhead|].
    rewrite decide_True by done.
    split; [|split].
    + intros Hrc. by rewrite decide_True by done.
    + intros -> Hnone. rewrite decide_False by (intros Hne; by apply Hne).
      by rewrite Hnone.
    + intros -> it Hit. rewrite decide_False by (intros Hne; by apply Hne).
      by rewrite Hit.
  - intros Hconf para para' r Hrun.
    exact (JT808FrameParse_codes_of_run parser inb para para' r Hconf Hrun).
Qed.

(** C10.  When the buffer unescapes, the checksum agrees and the header
    decodes, [JT808FrameParse] continues from parameters in which
    [msg_head.phone_num] is the phone number decoded from the frame: it
    returns UnregisteredMessageParser with these parameters when no
    handler is registered, and otherwise hands them to the handler.  With
    handlers that write only [para->parse], as all built-in handlers do,
    [msg_head.phone_num] is the decoded phone number when the call
    returns, whatever the code. *)
Theorem JT808FrameParse_overwrites_phone_num `{Util} (parser : Parser)
    (inb out : InputBuffer) (p : ProtocolParameter) (head : MsgHead) :
  ReverseEscape inb = Some out →
  3 ≤ in_size out →
  checksum_ok out →
  JT808FrameHeadParse out (Some (msg_head (parse p))) = Some (0, Some head) →
  phone_num (msg_head (send (with_decoded_head head p))) = phone_num head
  ∧ JT808FrameParse parser inb (Some p)
    = match parser !! msg_id head with
      | None => Some (ParserError.UnregisteredMessageParser, Some (with_decoded_head head p))
      | Some it => it out (Some (with_decoded_head head p))
      end
  ∧ (parser_keeps_send parser →
     ∀ r para', JT808FrameParse parser inb (Some p) = Some (r, para') →
     ∃ p', para' = Some p' ∧ phone_num (msg_head (send p')) = phone_num head).
Proof.
  intros Hout Hsz Hsum Hhead.
  assert (JT808FrameParse parser inb (Some p)
    = match parser !! msg_id head with
      | None => Some (ParserError.UnregisteredMessageParser, Some (with_decoded_head head p))
      | Some it => it out (Some (with_decoded_head head p))
      end) as Hrun.
  { rewrite (JT808FrameParse_steps parser inb out p 0 head Hout Hsz Hhead).
    rewrite decide_True by done. rewrite decide_False by (intros Hne; by apply Hne).
    reflexivity. }
  split; [reflexivity|]. split; [exact Hrun|].
  intros Hkeep r para' Hres. rewrite Hrun in Hres.
  destruct (parser !! msg_id head) as [it|] eqn:Hit.
  - destruct (Hkeep _ _ Hit _ _ _ _ Hres) as (p' & -> & Hsend).
    exists p'. split; [reflexivity|]. rewrite Hsend. reflexivity.
  - injection Hres as <- <-. eexists. split; reflexivity.
Qed.

(** C1 (amended).  With handlers that write only [para->parse], as all
    built-in handlers do, a call of [JT808FrameParse] that returns a
    failure leaves every field outside [para->parse] as it was, except
    [msg_head.phone_num]: this field too is as it was when the failure is
    that of the unescaping, of the checksum or of the header decoder, and
    it holds the phone number decoded from the frame when the failure comes
    after the header is decoded (no registered handler, or the handler's
    own failure). *)
Theorem JT808FrameParse_failure_keeps_send `{Util} (parser : Parser) (inb : InputBuffer)
    (p : ProtocolParameter) (r : Z) (para' : option ProtocolParameter) :
  parser_keeps_send parser →
  JT808FrameParse parser inb (Some p) = Some (r, para') →
  r ≠ ParserError.Ok →
  ∃ p', para' = Some p'
    ∧ ((ReverseEscape inb = None
        ∨ ∃ out, ReverseEscape inb = Some out
                 ∧ (¬ checksum_ok out
                    ∨ ∃ rc head,
                        JT808FrameHeadParse out (Some (msg_head (parse p)))
                        = Some (rc, Some head) ∧ rc ≠ 0))
       ∧ send p' = send p
       ∨ ∃ out head,
           ReverseEscape inb = Some out ∧ checksum_ok out
           ∧ JT808FrameHeadParse out (Some (msg_head (parse p))) = Some (0, Some head)
           ∧ send p'
             = set_msg_head (set_phone_num (phone_num head) (msg_head (send p))) (send p)).
Proof.
  intros Hkeep Hrun _.
  destruct (ReverseEscape inb) as [out|] eqn:Hout; cycle 1.
  { unfold JT808FrameParse in Hrun. rewrite Hout in Hrun. injection Hrun as <- <-.
    exists p. split; [reflexivity|]. left. split; [by left|reflexivity]. }
  pose proof (JT808FrameParse_defined_size _ _ _ _ _ Hout Hrun) as Hsz.
  destruct (JT808FrameHeadParse_total out (msg_head (parse p))) as (rc & head & Hhead).
  rewrite (JT808FrameParse_steps parser inb out p rc head Hout Hsz Hhead) in Hrun.
  destruct (decide (checksum_ok out)) as [Hsum|Hsum]; cycle 1.
  { injection Hrun as <- <-. exists p. split; [reflexivity|].
    left. split; [|reflexivity]. right. exists out. split; [reflexivity|]. by left. }
  destruct (decide (rc ≠ 0)) as [Hrc|Hrc].
  { injection Hrun as <- <-. eexists. split; [reflexivity|].
    left. split; [|reflexivity]. right. exists out. split; [reflexivity|].
    right. by exists rc, head. }
  assert (rc = 0) as -> by lia.
  destruct (parser !! msg_id head) as [it|] eqn:Hit.
  - destruct (Hkeep _ _ Hit _ _ _ _ Hrun) as (p' & -> & Hsend).
    exists p'. split; [reflexivity|]. right. exists out, head.
    split; [reflexivity|]. split; [done|]. split; [done|]. rewrite Hsend. reflexivity.
  - injection Hrun as <- <-. eexists. split; [reflexivity|]. right. exists out, head.
    split; [reflexivity|]. split; [done|]. split; [done|]. reflexivity.
Qed.

(** C6 (amended).  [JT808FrameParse] does not look at the flag bytes: a
    buffer whose first or last byte is not 0x7E goes through the same
    steps as any other, and when it unescapes, its checksum agrees, its
    header decodes and a handler is registered for its message ID, the
    handler is dispatched on it. *)
Theorem JT808FrameParse_no_flag_check `{Util} (parser : Parser) (inb out : InputBuffer)
    (p : ProtocolParameter) (head : MsgHead) (it : ParseHandler) :
  byte_at inb 0 ≠ PROTOCOL_SIGN ∨ byte_at inb (in_size inb - 1) ≠ PROTOCOL_SIGN →
  ReverseEscape inb = Some out →
  3 ≤ in_size out →
  checksum_ok out →
  JT808FrameHeadParse out (Some (msg_head (parse p))) = Some (0, Some head) →
  parser !! msg_id head = Some it →
  JT808FrameParse parser inb (Some p) = it out (Some (with_decoded_head head p)).
Proof.
  intros _ Hout Hsz Hsum Hhead Hit.
  rewrite (JT808FrameParse_steps parser inb out p 0 head Hout Hsz Hhead).
  rewrite decide_True by done. rewrite decide_False by (intros Hne; by apply Hne).
  rewrite Hit. reflexivity.
Qed.

(** *** The two [while] loops do not depend on their fuel *)

Lemma rd_range (inb : InputBuffer) (i z : Z) : rd inb i = Some z → 0 ≤ z < 256.
Proof.
  unfold rd. case_decide; [|discriminate].
  destruct (inb !! Z.to_nat i) as [b|]; [|discriminate].
  intros Heq. injection Heq as <-. apply byteZ_range.
Qed.

Lemma location_extension_items_fuel (inb : InputBuffer) (end_ : Z) (fuel : nat) :
  ∀ (fuel' : nat) (pos : Z) (ext : gmap Z (list byte)),
  end_ ≤ 255 → 0 ≤ pos →
  end_ - pos ≤ Z.of_nat fuel → end_ - pos ≤ Z.of_nat fuel' →
  location_extension_items fuel inb end_ pos ext
  = location_extension_items fuel' inb end_ pos ext.
Proof.
  induction fuel as [|fuel IH]; intros fuel' pos ext Hend Hpos Hf Hf'.
  - destruct fuel'; cbn [location_extension_items]; by rewrite !decide_False by lia.
  - destruct fuel' as [|fuel'].
    { cbn [location_extension_items]. by rewrite !decide_False by lia. }
    cbn [location_extension_items].
    case_decide as Hloop; [|reflexivity].
    destruct (rd inb (pos + 1)) as [len|] eqn:Hlen; [|reflexivity].
    cbn [mbind option_bind]. apply rd_range in Hlen.
    case_decide as Hfit; [reflexivity|].
    destruct (slice inb (pos + 2) (pos + 2 + len)); [|reflexivity].
    cbn [mbind option_bind].
    destruct (rd inb pos); [|reflexivity].
    cbn [mbind option_bind].
    rewrite (u16_small (pos + (2 + len))) by lia.
    apply IH; lia.
Qed.

Lemma PolygonArea_vertices_fuel (inb : InputBuffer) (end_ : Z) (fuel : nat) :
  ∀ (fuel' : nat) (pos : Z) (vertices : list LocationPoint.t),
  end_ < 65536 → 0 ≤ pos → (end_ - pos) mod 8 = 0 →
  end_ - pos ≤ Z.of_nat fuel → end_ - pos ≤ Z.of_nat fuel' →
  PolygonArea_vertices fuel inb end_ pos vertices
  = PolygonArea_vertices fuel' inb end_ pos vertices.
Proof.
  induction fuel as [|fuel IH]; intros fuel' pos vertices Hend Hpos Hmod Hf Hf'.
  - destruct fuel'; cbn [PolygonArea_vertices]; by rewrite !decide_False by lia.
  - destruct fuel' as [|fuel'].
    { cbn [PolygonArea_vertices]. by rewrite !decide_False by lia. }
    cbn [PolygonArea_vertices].
    case_decide as Hloop; [|reflexivity].
    assert (pos + 8 ≤ end_) as Hstep.
    { clear IH Hf Hf'. Z.div_mod_to_equations. lia. }
    destruct (swap32 inb pos); [|reflexivity].
    cbn [mbind option_bind].
    rewrite (u16_small (pos + 4)) by lia.
    destruct (swap32 inb (pos + 4)); [|reflexivity].
    cbn [mbind option_bind].
    rewrite (u16_small (pos + 4 + 4)) by lia.
    apply IH; try lia.
    replace (end_ - (pos + 4 + 4)) with (end_ - pos + (-1) * 8) by lia.
    by rewrite Z.mod_add by lia.
Qed.

(** *** 0x8003, 0x0201 and 0x8604 on every frame *)

Lemma in_size_wire_packet_ids (ids : list (byte * byte)) :
  in_size (wire_packet_ids ids) = 2 * Z.of_nat (length ids).
Proof.
  unfold wire_packet_ids. induction ids as [|id ids IH]; [reflexivity|].
  rewrite fmap_cons, concat_cons, in_size_app, IH. cbn [length].
  change (in_size [id.1; id.2]) with 2. lia.
Qed.

Lemma wire_packet_ids_snoc (ids : list (byte * byte)) (id : byte * byte) :
  wire_packet_ids (ids ++ [id]) = wire_packet_ids ids ++ [id.1; id.2].
Proof.
  unfold wire_packet_ids. rewrite fmap_app, concat_app. reflexivity.
Qed.

(** The loop of the 0x8003 handler stores, for each two-byte field, the
    sum of its bytes. *)
Lemma FillPacketRequest_ids_wire (ids : list (byte * byte)) :
  ∀ (pre post : list byte) (done : list (byte * byte)) (acc : list Z) (pos : Z),
  in_size pre = pos →
  (length done + length ids ≤ 255)%nat →
  FillPacketRequest_ids (pre ++ wire_packet_ids done ++ wire_packet_ids ids ++ post)
    pos (length ids) (Z.of_nat (length done)) acc
  = Some (acc ++ ((λ id, byteZ id.1 + byteZ id.2) <$> ids)).
Proof.
  induction ids as [|[a b] ids IH]; intros pre post done acc pos Hpre Hcnt.
  - cbn. by rewrite app_nil_r.
  - cbn [length] in Hcnt.
    pose proof (byteZ_range a). pose proof (byteZ_range b).
    change (wire_packet_ids ((a, b) :: ids)) with ([a; b] ++ wire_packet_ids ids).
    cbn [length FillPacketRequest_ids].
    rewrite (app_assoc pre), <- (app_assoc [a; b]). cbn [app].
    rewrite (rd_at (pre ++ wire_packet_ids done) _ (pos + Z.of_nat (length done) * 2) 0)
      by (rewrite ?in_size_app, ?in_size_wire_packet_ids; lia).
    rewrite rd_0. cbn [mbind option_bind].
    rewrite (rd_at (pre ++ wire_packet_ids done) _ (pos + 1 + Z.of_nat (length done) * 2) 1)
      by (rewrite ?in_size_app, ?in_size_wire_packet_ids; lia).
    change (rd (a :: b :: wire_packet_ids ids ++ post) 1) with (Some (byteZ b)).
    cbn [mbind option_bind].
    rewrite (u16_small (byteZ a + byteZ b)) by lia.
    rewrite (u8_small (Z.of_nat (length done) + 1)) by lia.
    specialize (IH pre post (done ++ [(a, b)]) (acc ++ [byteZ a + byteZ b]) pos Hpre).
    rewrite wire_packet_ids_snoc, length_app in IH. cbn [length fst snd] in IH.
    rewrite <- !app_assoc in IH. cbn [app] in IH.
    replace (Z.of_nat (length done + 1)) with (Z.of_nat (length done) + 1) in IH by lia.
    rewrite <- app_assoc.
    rewrite IH by lia. rewrite fmap_cons. reflexivity.
Qed.

(** On every well-formed Fill-Packet Request the 0x8003 handler succeeds
    and stores as many entries as the body has fields, each the sum of the
    two bytes of its field. *)
Lemma FillPacketRequest_every_body `{Util} (hdr rest : list byte)
    (first : byte * byte) (ids : list (byte * byte)) (p : ProtocolParameter) :
  (length ids ≤ 255)%nat →
  in_size hdr = body_pos (parse p) →
  msg_len (parse p) = in_size (wire_fill_packet first ids) →
  ∃ p',
    handler FillPacketRequest_body (hdr ++ wire_fill_packet first ids ++ rest) (Some p)
    = Some (0, Some p')
    ∧ packet_id (fill_packet (parse p')) = (λ id, byteZ id.1 + byteZ id.2) <$> ids.
Proof.
  intros Hcnt Hhdr Hlen. destruct first as [f0 f1].
  unfold wire_fill_packet in *. cbn [fst snd app] in *.
  rewrite !in_size_cons, in_size_wire_packet_ids in Hlen.
  assert (13 ≤ body_pos (parse p) ≤ 17) as Hpos.
  { unfold body_pos, MSGBODY_PACKET_POS, MSGBODY_NOPACKET_POS. case_decide; lia. }
  unfold handler, FillPacketRequest_body.
  rewrite rd16_at by done. cbn [mbind option_bind].
  rewrite (u16_small (body_pos (parse p) + 2)) by lia.
  rewrite (rd_at hdr _ (body_pos (parse p) + 2) 2) by lia.
  change (rd (f0 :: f1 :: byte_of_Z (Z.of_nat (length ids)) :: wire_packet_ids ids ++ rest) 2)
    with (Some (byteZ (byte_of_Z (Z.of_nat (length ids))))).
  cbn [mbind option_bind].
  rewrite byteZ_byte_of_Z_small by lia. rewrite Nat2Z.id.
  rewrite (u16_small (body_pos (parse p) + 2 + 1)) by lia.
  unfold msg_len in *. fields_simpl.
  rewrite decide_False by lia.
  change (hdr ++ f0 :: f1 :: byte_of_Z (Z.of_nat (length ids)) :: wire_packet_ids ids ++ rest)
    with (hdr ++ [f0; f1; byte_of_Z (Z.of_nat (length ids))]
              ++ wire_packet_ids ids ++ rest).
  rewrite app_assoc.
  pose proof (FillPacketRequest_ids_wire ids
                (hdr ++ [f0; f1; byte_of_Z (Z.of_nat (length ids))]) rest [] []
                (body_pos (parse p) + 2 + 1)) as Hloop.
  cbn [wire_packet_ids fmap list_fmap concat app length] in Hloop.
  change (Z.of_nat 0) with 0 in Hloop.
  rewrite Hloop; [| |cbn [length]; lia].
  - fields_simpl. eexists. split; [reflexivity|]. fields_simpl. reflexivity.
  - rewrite in_size_app. change (in_size [f0; f1; byte_of_Z (Z.of_nat (length ids))]) with 3.
    lia.
Qed.

Lemma rd_Some_byte_at (inb : InputBuffer) (i z : Z) : rd inb i = Some z → z = byte_at inb i.
Proof.
  unfold rd, byte_at. case_decide; [|discriminate].
  destruct (inb !! Z.to_nat i) as [b|] eqn:Hb; [|discriminate].
  intros Heq. injection Heq as <-. f_equal. symmetry. by apply nth_lookup_Some with (d := x00).
Qed.

Lemma location_report_content_flow_num `{Util} (inb : InputBuffer) (pos rc : Z)
    (v v' : Fields) :
  location_report_content inb pos v = Some (rc, v') →
  respone_flow_num v' = respone_flow_num v.
Proof.
  unfold location_report_content. intros Hrun.
  repeat rc_step; reflexivity.
Qed.

(** Whenever the 0x0201 handler gets past its length check and returns,
    [parse.respone_flow_num] is the first body byte taken twice. *)
Lemma LocationResponse_flow_num_every_frame `{Util} (inb : InputBuffer) (rc : Z)
    (v v' : Fields) :
  GetLocationInformationResponse_body inb v = Some (rc, v') →
  30 ≤ msg_len v →
  respone_flow_num v'
  = byte_at inb (body_pos v) * 256 + byte_at inb (body_pos v).
Proof.
  unfold GetLocationInformationResponse_body. intros Hrun Hlen.
  rewrite decide_False in Hrun by lia.
  apply bind_Some in Hrun as (hi & Hhi & Hrun).
  apply bind_Some in Hrun as (lo & Hlo & Hrun).
  apply location_report_content_flow_num in Hrun. rewrite Hrun. fields_simpl.
  apply rd_Some_byte_at in Hhi as ->. apply rd_Some_byte_at in Hlo as ->.
  apply u16_small. pose proof (byte_at_range inb (body_pos v)). lia.
Qed.

Lemma slice_same (inb l : list byte) (a : Z) : slice inb a a = Some l → l = [].
Proof.
  unfold slice. case_decide; [|discriminate]. rewrite Z.sub_diag.
  intros Heq. by injection Heq as <-.
Qed.

(** Whenever the 0x8604 handler succeeds on a body whose attribute has the
    by-time bit, [start_time] and [stop_time] are what
    [BcdToStringFillZero] makes of an empty byte sequence, whatever the
    bytes of the body. *)
Lemma PolygonArea_times_every_frame `{Util} (inb : InputBuffer) (v v' : Fields) :
  SetPolygonArea_body inb v = Some (0, v') →
  bit_by_time (area_attribute (polygon_area v')) = true →
  start_time (polygon_area v') = (BcdToStringFillZero [] (start_time (polygon_area v))).2
  ∧ stop_time (polygon_area v') = (BcdToStringFillZero [] (stop_time (polygon_area v))).2.
Proof.
  unfold SetPolygonArea_body. intros Hrun Hbit.
  case_decide; [discriminate|].
  apply bind_Some in Hrun as (area & _ & Hrun).
  apply bind_Some in Hrun as (attribute & _ & Hrun).
  apply bind_Some in Hrun as ([pos1 poly1] & Htime & Hrun).
  apply bind_Some in Hrun as ([pos2 poly2] & Hspeed & Hrun).
  apply bind_Some in Hrun as (cnt & _ & Hrun).
  case_decide; [discriminate|].
  apply bind_Some in Hrun as (vertices & _ & Hrun).
  injection Hrun as <-. fields_simpl.
  assert (area_attribute poly2 = area_attribute poly1
          ∧ start_time poly2 = start_time poly1
          ∧ stop_time poly2 = stop_time poly1) as (Ha & Hs & He).
  { destruct (bit_speed_limit (area_attribute poly1)).
    - apply bind_Some in Hspeed as (speed & _ & Hspeed).
      apply bind_Some in Hspeed as (time & _ & Hspeed).
      injection Hspeed as _ <-. by fields_simpl.
    - by injection Hspeed as _ <-. }
  rewrite Ha in Hbit. rewrite Hs, He. clear Ha Hs He Hspeed.
  fields_simpl.
  destruct (bit_by_time attribute) eqn:Hby.
  - apply bind_Some in Htime as (bcd & Hbcd & Htime).
    apply bind_Some in Htime as (bcd' & Hbcd' & Htime).
    apply slice_same in Hbcd as ->. apply slice_same in Hbcd' as ->.
    injection Htime as _ <-. by fields_simpl.
  - injection Htime as _ <-. fields_simpl. congruence.
Qed.

(** ** The theorems at concrete frames *)

Lemma TerminalRegisterResponse_fields_witness :
  ∃ h p',
    builtin_parser !! kTerminalRegisterResponse = Some h
    ∧ h (header_register_response ++ (x00 :: x07 :: x00 :: [x41; x42; x43]) ++ [x57; x7e])
        (Some (with_parsed_attr 6 ProtocolParameter_zero)) = Some (0, Some p')
    ∧ respone_flow_num (parse p') = byteZ x00 * 256 + byteZ x07
    ∧ respone_result (parse p') = byteZ x00
    ∧ (byteZ x00 = 0 → authentication_code (parse p') = [x41; x42; x43])
    ∧ (byteZ x00 ≠ 0
       → authentication_code (parse p')
         = authentication_code (parse (with_parsed_attr 6 ProtocolParameter_zero))).
Proof.
  apply (TerminalRegisterResponse_fields header_register_response [x41; x42; x43]
           [x57; x7e] x00 x07 x00 (with_parsed_attr 6 ProtocolParameter_zero)).
  - reflexivity.
  - reflexivity.
Defined.

Lemma SetTerminalParameters_mapping_witness :
  ∃ h p',
    builtin_parser !! kSetTerminalParameters = Some h
    ∧ h (header_set_parameters ++ wire_parameters [(0xF020, value_ip)] ++ [xf3; x7e])
        (Some (with_parsed_attr 19 ProtocolParameter_zero)) = Some (0, Some p')
    ∧ terminal_parameters (parse p') = list_to_map [(0xF020, value_ip)].
Proof.
  apply (proj1 SetTerminalParameters_mapping header_set_parameters [xf3; x7e]
           [(0xF020, value_ip)] (with_parsed_attr 19 ProtocolParameter_zero)).
  - apply Forall_singleton. unfold parameter_ok. cbn [fst snd].
    change (in_size value_ip) with 13. lia.
  - vm_compute. lia.
  - reflexivity.
  - reflexivity.
Defined.

Lemma JT808FrameParse_return_codes_witness :
  (ParserError.Ok = ParserError.ParametersNull ↔ Some ProtocolParameter_zero = None)
  ∧ (∀ p, Some ProtocolParameter_zero = Some p →
     (ParserError.Ok = ParserError.UnesapingError ↔ ReverseEscape frame_heartbeat = None)
     ∧ (∀ out, ReverseEscape frame_heartbeat = Some out →
        (ParserError.Ok = ParserError.ChecksumError ↔ ¬ checksum_ok out)
        ∧ (checksum_ok out →
           ∃ rc head,
             JT808FrameHeadParse out (Some (msg_head (parse p))) = Some (rc, Some head)
             ∧ (ParserError.Ok = ParserError.HeaderParseError ↔ rc ≠ 0)
             ∧ (rc = 0 →
                (ParserError.Ok = ParserError.UnregisteredMessageParser
                 ↔ builtin_parser !! msg_id head = None)
                ∧ (ParserError.Ok = ParserError.Ok ↔
                   ∃ (it : ParseHandler) q,
                     builtin_parser !! msg_id head = Some it
                     ∧ it out (Some (with_decoded_head head p)) = Some (0, q))))))
  ∧ (ParserError.Ok = ParserError.Ok →
     ∃ p out head,
       Some ProtocolParameter_zero = Some p ∧ ReverseEscape frame_heartbeat = Some out
       ∧ checksum_ok out
       ∧ JT808FrameHeadParse out (Some (msg_head (parse p))) = Some (0, Some head)).
Proof.
  apply (proj2 (proj2 (JT808FrameParse_return_codes builtin_parser frame_heartbeat))
           builtin_parser_returns_0_or_minus1
           (Some ProtocolParameter_zero)
           (Some (with_decoded_head head_heartbeat ProtocolParameter_zero)) ParserError.Ok).
  vm_compute. reflexivity.
Defined.

(** C5 (as stated) fails: a handler may return any value, and the code
    of the call is that value.  With a handler that returns -6 registered
    for the heartbeat, the heartbeat frame passes the unescaping, the
    checksum and the header decoder, its message ID has a handler, and
    the call returns UnregisteredMessageParser (-6). *)
Lemma JT808FrameParse_return_codes_counterexample :
  ∃ (it : ParseHandler) para',
    ReverseEscape frame_heartbeat = Some frame_heartbeat
    ∧ checksum_ok frame_heartbeat
    ∧ JT808FrameHeadParse frame_heartbeat (Some (msg_head (parse ProtocolParameter_zero)))
      = Some (0, Some head_heartbeat)
    ∧ parser_minus6 !! msg_id head_heartbeat = Some it
    ∧ JT808FrameParse parser_minus6 frame_heartbeat (Some ProtocolParameter_zero)
      = Some (ParserError.UnregisteredMessageParser, para').
Proof.
  exists handler_returning_minus6. eexists.
  split; [reflexivity|]. split; [reflexivity|]. split; [reflexivity|].
  split; [reflexivity|]. vm_compute. reflexivity.
Qed.

Lemma JT808FrameParse_overwrites_phone_num_witness :
  phone_num (msg_head (send (with_decoded_head head_unregistered ProtocolParameter_zero)))
  = phone_num head_unregistered
  ∧ JT808FrameParse builtin_parser frame_unregistered (Some ProtocolParameter_zero)
    = match builtin_parser !! msg_id head_unregistered with
      | None => Some (ParserError.UnregisteredMessageParser,
                      Some (with_decoded_head head_unregistered ProtocolParameter_zero))
      | Some it => it frame_unregistered
                     (Some (with_decoded_head head_unregistered ProtocolParameter_zero))
      end
  ∧ (parser_keeps_send builtin_parser →
     ∀ r para',
       JT808FrameParse builtin_parser frame_unregistered (Some ProtocolParameter_zero)
       = Some (r, para') →
       ∃ p', para' = Some p' ∧ phone_num (msg_head (send p')) = phone_num head_unregistered).
Proof.
  apply (JT808FrameParse_overwrites_phone_num builtin_parser frame_unregistered
           frame_unregistered ProtocolParameter_zero head_unregistered).
  - reflexivity.
  - vm_compute. intros Hc. discriminate Hc.
  - vm_compute. reflexivity.
  - vm_compute. reflexivity.
Defined.

Lemma JT808FrameParse_failure_keeps_send_witness :
  ∃ p', Some (with_decoded_head head_unregistered ProtocolParameter_zero) = Some p'
    ∧ ((ReverseEscape frame_unregistered = None
        ∨ ∃ out, ReverseEscape frame_unregistered = Some out
                 ∧ (¬ checksum_ok out
                    ∨ ∃ rc head,
                        JT808FrameHeadParse out (Some (msg_head (parse ProtocolParameter_zero)))
                        = Some (rc, Some head) ∧ rc ≠ 0))
       ∧ send p' = send ProtocolParameter_zero
       ∨ ∃ out head,
           ReverseEscape frame_unregistered = Some out ∧ checksum_ok out
           ∧ JT808FrameHeadParse out (Some (msg_head (parse ProtocolParameter_zero)))
             = Some (0, Some head)
           ∧ send p'
             = set_msg_head (set_phone_num (phone_num head)
                               (msg_head (send ProtocolParameter_zero)))
                 (send ProtocolParameter_zero)).
Proof.
  apply (JT808FrameParse_failure_keeps_send builtin_parser frame_unregistered
           ProtocolParameter_zero ParserError.UnregisteredMessageParser).
  - apply builtin_parser_keeps_send.
  - vm_compute. reflexivity.
  - vm_compute. intros Hc. discriminate Hc.
Defined.

(** C1 (as stated) fails: the frame with the unregistered message ID
    0x0F0F is rejected with UnregisteredMessageParser, and the call has
    changed [msg_head.phone_num], a field outside [para->parse], from the
    empty string to the phone number of the frame. *)
Lemma JT808FrameParse_failure_counterexample :
  ∃ p',
    JT808FrameParse builtin_parser frame_unregistered (Some ProtocolParameter_zero)
    = Some (ParserError.UnregisteredMessageParser, Some p')
    ∧ phone_num (msg_head (send ProtocolParameter_zero)) = ""
    ∧ phone_num (msg_head (send p')) = "013523339527"
    ∧ send p' ≠ send ProtocolParameter_zero.
Proof.
  eexists. split; [vm_compute; reflexivity|].
  split; [reflexivity|]. split; [reflexivity|].
  intros Heq. apply (f_equal (λ v, phone_num (msg_head v))) in Heq. discriminate Heq.
Qed.

Lemma JT808FrameParse_no_flag_check_witness :
  JT808FrameParse builtin_parser frame_no_flags (Some ProtocolParameter_zero)
  = handler EmptyBody_body frame_no_flags
      (Some (with_decoded_head head_heartbeat ProtocolParameter_zero)).
Proof.
  apply (JT808FrameParse_no_flag_check builtin_parser frame_no_flags frame_no_flags
           ProtocolParameter_zero head_heartbeat (handler EmptyBody_body)).
  - left. vm_compute. intros Hc. discriminate Hc.
  - reflexivity.
  - vm_compute. intros Hc. discriminate Hc.
  - vm_compute. reflexivity.
  - vm_compute. reflexivity.
  - apply builtin_parser_lookup. unfold builtin_handlers. set_solver.
Defined.

(** C6 (as stated) fails: the heartbeat frame with both flag bytes
    replaced by 0x00 is not rejected; the heartbeat handler is dispatched
    and the call returns Ok. *)
Lemma JT808FrameParse_flags_counterexample :
  byte_at frame_no_flags 0 = 0x00
  ∧ byte_at frame_no_flags (in_size frame_no_flags - 1) = 0x00
  ∧ ∃ p',
      JT808FrameParse builtin_parser frame_no_flags (Some ProtocolParameter_zero)
      = Some (ParserError.Ok, Some p')
      ∧ msg_id (msg_head (parse p')) = kTerminalHeartBeat.
Proof.
  split; [reflexivity|]. split; [reflexivity|].
  eexists. split; [vm_compute; reflexivity|]. reflexivity.
Qed.

(** *** The three handlers that decode a field wrongly *)

(** C2 (code): on the Fill-Packet Request with one retransmission ID
    whose two bytes are 01 02, the parser succeeds and stores one entry,
    which is 3, the sum of the two bytes, not their big-endian value
    258. *)
Theorem FillPacketRequest_stores_byte_sum :
  ∃ p',
    JT808FrameParse builtin_parser frame_fill_packet (Some ProtocolParameter_zero)
    = Some (ParserError.Ok, Some p')
    ∧ be16_at frame_fill_packet 16 = 258
    ∧ packet_id (fill_packet (parse p')) = [3].
Proof.
  eexists. split; [vm_compute; reflexivity|]. split; reflexivity.
Qed.

(** C3 (code): on the Location Query Response whose first two body bytes
    are 01 02, the parser sets [parse.respone_flow_num] to 257, the first
    byte taken twice, not to the big-endian value 258.  (The call then
    returns -1: the handler goes on to read the two trailer bytes as an
    additional information item.) *)
Theorem GetLocationInformationResponse_flow_num_repeats_byte :
  ∃ p',
    JT808FrameParse builtin_parser frame_location_response (Some ProtocolParameter_zero)
    = Some (ParserError.MiscError, Some p')
    ∧ be16_at frame_location_response 13 = 258
    ∧ respone_flow_num (parse p') = 257.
Proof.
  eexists. split; [vm_compute; reflexivity|]. split; reflexivity.
Qed.

(** C4 (code): on the Set Polygon Area with the by-time bit set and the
    BCD fields 20 07 18 12 00 00 and 20 07 19 12 00 00, the parser succeeds
    and leaves [start_time] and [stop_time] empty: both are decoded from an
    empty byte range, not from the six bytes of the field. *)
Theorem SetPolygonArea_times_from_empty_range :
  ∃ p',
    JT808FrameParse builtin_parser frame_polygon (Some ProtocolParameter_zero)
    = Some (ParserError.Ok, Some p')
    ∧ bit_by_time (area_attribute (polygon_area (parse p'))) = true
    ∧ bcd_digits (take 6 (drop 19 frame_polygon)) = Some "200718120000"
    ∧ bcd_digits (take 6 (drop 25 frame_polygon)) = Some "200719120000"
    ∧ start_time (polygon_area (parse p')) = ""
    ∧ stop_time (polygon_area (parse p')) = "".
Proof.
  eexists. split; [vm_compute; reflexivity|]. repeat split; reflexivity.
Qed.

(** *** 0x8100 on a segmented frame *)

(** C8 (code): on the segmented Terminal Register Response whose body,
    at offset 17, is 00 07 | 00 | 41 42 43, the parser succeeds with
    the packet bit and the packet fields 2 and 1 decoded into the header,
    and the 0x8100 handler reads from offset 13 all the same: it sets
    [parse.respone_flow_num] to 2, the total packet count, not to 7, and
    [parse.authentication_code] to 01 00 07, not to 41 42 43.  Fourteen
    of the built-in handlers (0x8003, 0x0102, 0x8103, ...) move to
    offset 17 when the packet bit is set. *)
Theorem TerminalRegisterResponse_ignores_packet_bit :
  ∃ p',
    JT808FrameParse builtin_parser frame_register_response_segmented
      (Some ProtocolParameter_zero)
    = Some (ParserError.Ok, Some p')
    ∧ bit_packet (msgbody_attr (msg_head (parse p'))) = 1
    ∧ msg_len (parse p') = 6
    ∧ total_packet (msg_head (parse p')) = 2
    ∧ packet_seq (msg_head (parse p')) = 1
    ∧ bytes_at frame_register_response_segmented 17 23 = [x00; x07; x00; x41; x42; x43]
    ∧ respone_flow_num (parse p') = 2
    ∧ respone_result (parse p') = 0
    ∧ authentication_code (parse p') = [x01; x00; x07].
Proof.
  eexists. split; [vm_compute; reflexivity|]. repeat split; reflexivity.
Qed.
(** * Further properties of parser.cc *)

(** *** The message header on every frame *)

(** X1.  [JT808FrameHeadParse] returns on every frame, with 0 or -1.  It
    returns 0 exactly when the frame has at least 15 bytes and
    [BcdToString] accepts bytes 5-10.  A frame shorter than 15 bytes
    leaves the header as it was.  On a longer frame [msg_id] and
    [msgbody_attr] are the big-endian values of bytes 1-2 and 3-4 and
    [phone_num] is what [BcdToString] left in it, also when the call
    fails; [msg_flow_num] is the big-endian value of bytes 11-12 on
    success, and a failing call leaves it and the two packet fields as
    they were. *)
Theorem JT808FrameHeadParse_result `{Util} (inb : InputBuffer) (h : MsgHead) :
  ∃ rc head,
    JT808FrameHeadParse inb (Some h) = Some (rc, Some head)
    ∧ (rc = 0 ∨ rc = -1)
    ∧ (rc = 0 ↔ 15 ≤ in_size inb ∧ (BcdToString (bytes_at inb 5 11) (phone_num h)).1 = 0)
    ∧ (in_size inb < 15 → head = h)
    ∧ (15 ≤ in_size inb →
       msg_id head = be16_at inb 1 ∧ msgbody_attr head = be16_at inb 3
       ∧ phone_num head = (BcdToString (bytes_at inb 5 11) (phone_num h)).2)
    ∧ (rc = 0 → msg_flow_num head = be16_at inb 11)
    ∧ (rc = -1 →
       msg_flow_num head = msg_flow_num h ∧ total_packet head = total_packet h
       ∧ packet_seq head = packet_seq h).
Proof.
  unfold JT808FrameHeadParse, bytes_at.
  case_decide as Hsz.
  { exists (-1), h. split; [reflexivity|]. split; [by right|].
    split; [split; [discriminate|lia]|]. split; [done|]. split; [lia|].
    split; [discriminate|]. done. }
  rewrite (rd16_be16_at inb 1), (rd16_be16_at inb 3), (rd16_be16_at inb 11) by lia.
  rewrite (slice_take_drop inb 5 11) by lia.
  head_simpl.
  rewrite !(u16_small (be16_at inb _)) by apply be16_at_range.
  destruct (BcdToString _ _) as [rc str]. head_simpl.
  case_decide as Hrc.
  { exists (-1). eexists. split; [reflexivity|]. head_simpl.
    split; [by right|]. split; [split; [discriminate|intros [_ ?]; done]|].
    split; [lia|]. split; [done|]. split; [discriminate|]. done. }
  assert (rc = 0) as -> by lia.
  case_decide as Hc.
  - destruct Hc as [_ Hc].
    pose proof (bit_msglen_range (be16_at inb 3)) as Hlen.
    assert (19 ≤ in_size inb) as Hsz'.
    { revert Hc Hlen. generalize (bit_msglen (be16_at inb 3)).
      intros len Hc Hlen. unfold size_t in Hc.
      destruct (decide (0 ≤ in_size inb - 15 - len)) as [Hp|Hn]; [|exfalso].
      - destruct (decide (in_size inb - 15 - len < 4)) as [Hlt|]; [|lia].
        rewrite Z.mod_small in Hc by lia. lia.
      - rewrite <- (Z.mod_add _ 1) in Hc by lia.
        rewrite Z.mod_small in Hc by lia. lia. }
    rewrite (rd16_be16_at inb 13), (rd16_be16_at inb 15) by lia.
    head_simpl.
    exists 0. eexists. split; [reflexivity|]. head_simpl.
    split; [by left|]. split; [split; [intros _; split; [lia|reflexivity]|done]|].
    split; [lia|]. split; [done|]. split; [done|]. discriminate.
  - exists 0. eexists. split; [reflexivity|]. head_simpl.
    split; [by left|]. split; [split; [intros _; split; [lia|reflexivity]|done]|].
    split; [lia|]. split; [done|]. split; [done|]. discriminate.
Qed.

(** *** The frame parser at its edges *)

(** X2.  When the unescaped buffer has fewer than three bytes, the
    checksum step of [JT808FrameParse] reads outside of it
    ([out.size() - 3] wraps around, [&out[1]] is past the end): the call
    has no defined result, and it does not return any error code. *)
Theorem JT808FrameParse_short_frame_undefined `{Util} (parser : Parser)
    (inb out : InputBuffer) (p : ProtocolParameter) :
  ReverseEscape inb = Some out →
  in_size out < 3 →
  JT808FrameParse parser inb (Some p) = None.
Proof.
  intros Hout Hsz.
  destruct (JT808FrameParse parser inb (Some p)) as [res|] eqn:Hrun; [exfalso|reflexivity].
  pose proof (JT808FrameParse_defined_size _ _ _ _ _ Hout Hrun). lia.
Qed.

Lemma set_msg_head_same (v : Fields) : set_msg_head (msg_head v) v = v.
Proof. by destruct v. Qed.

Lemma set_parse_same (p : ProtocolParameter) : set_parse (parse p) p = p.
Proof. by destruct p. Qed.

(** X3.  On an unescaped buffer of 3 to 14 bytes whose checksum agrees,
    [JT808FrameParse] returns HeaderParseError and leaves [*para] as it
    was, whatever the registered handlers. *)
Theorem JT808FrameParse_short_header `{Util} (parser : Parser)
    (inb out : InputBuffer) (p : ProtocolParameter) :
  ReverseEscape inb = Some out →
  3 ≤ in_size out < 15 →
  checksum_ok out →
  JT808FrameParse parser inb (Some p) = Some (ParserError.HeaderParseError, Some p).
Proof.
  intros Hout Hsz Hsum.
  assert (JT808FrameHeadParse out (Some (msg_head (parse p)))
          = Some (-1, Some (msg_head (parse p)))) as Hhead.
  { unfold JT808FrameHeadParse. by rewrite decide_True by lia. }
  rewrite (JT808FrameParse_steps parser inb out p _ _ Hout ltac:(lia) Hhead).
  rewrite decide_True by done. rewrite decide_True by lia.
  by rewrite set_msg_head_same, set_parse_same.
Qed.

(** *** The registry *)

Lemma JT808FrameParserInit_lookup_list `{Util} (parser : Parser) (id : Z) :
  (JT808FrameParserInit parser).2 !! id
  = match parser !! id with
    | Some h => Some h
    | None => (list_to_map builtin_handlers : Parser) !! id
    end.
Proof. unfold JT808FrameParserInit. cbn [snd]. apply foldl_std_map_insert_lookup. Qed.

Lemma builtin_parser_lookup_list `{Util} (id : Z) :
  builtin_parser !! id = (list_to_map builtin_handlers : Parser) !! id.
Proof.
  unfold builtin_parser. rewrite JT808FrameParserInit_lookup_list. by rewrite lookup_empty.
Qed.

(** X4.  [JT808FrameParserInit] returns 0 and never replaces a handler:
    an ID registered before the call keeps its handler, and every other
    ID gets the handler the call registers in an empty parser, if any. *)
Theorem JT808FrameParserInit_keeps_registered `{Util} (parser : Parser) :
  (JT808FrameParserInit parser).1 = 0
  ∧ ∀ id, (JT808FrameParserInit parser).2 !! id
          = match parser !! id with
            | Some h => Some h
            | None => builtin_parser !! id
            end.
Proof.
  split; [reflexivity|]. intros id.
  rewrite JT808FrameParserInit_lookup_list, builtin_parser_lookup_list. reflexivity.
Qed.

(** X5.  Initialising a parser a second time changes nothing. *)
Theorem JT808FrameParserInit_idempotent `{Util} (parser : Parser) :
  (JT808FrameParserInit (JT808FrameParserInit parser).2).2 = (JT808FrameParserInit parser).2.
Proof.
  apply map_eq. intros id.
  rewrite (JT808FrameParserInit_lookup_list (JT808FrameParserInit parser).2).
  destruct ((JT808FrameParserInit parser).2 !! id) as [h|] eqn:Hid; [reflexivity|].
  rewrite JT808FrameParserInit_lookup_list in Hid.
  destruct (parser !! id); [discriminate|]. exact Hid.
Qed.

(** X6.  After [JT808FrameParserInit] on an empty parser,
    [JT808FrameParserAppend] refuses exactly the 22 message IDs the
    initialisation registered, leaving the parser as it was; for every
    other ID it returns true and the new handler is the one found under
    that ID. *)
Theorem JT808FrameParserAppend_after_Init `{Util} (id : Z) (h : ParseHandler) :
  ∃ inserted parser',
    JT808FrameParserAppend (Some builtin_parser) (id, h) = (inserted, Some parser')
    ∧ (inserted = false
       ↔ id ∈ [0x0001; 0x8001; 0x0002; 0x8003; 0x0100; 0x8100; 0x0003; 0x0102; 0x8103;
               0x8104; 0x8106; 0x0104; 0x8108; 0x0108; 0x0200; 0x8201; 0x0201; 0x8202;
               0x8604; 0x8605; 0x0801; 0x8800])
    ∧ (inserted = false → parser' = builtin_parser)
    ∧ (inserted = true → parser' !! id = Some h).
Proof.
  unfold JT808FrameParserAppend, std_map_insert. cbn [fst snd].
  rewrite <- builtin_handlers_keys.
  destruct (builtin_parser !! id) as [h0|] eqn:Hid.
  - exists false, builtin_parser. split; [reflexivity|].
    split; [|split; [done|discriminate]].
    split; [intros _|done].
    rewrite builtin_parser_lookup_list in Hid.
    apply elem_of_list_to_map_2 in Hid.
    apply list_elem_of_fmap. by exists (id, h0).
  - exists true. eexists. split; [reflexivity|].
    split; [|split; [discriminate|intros _; apply lookup_insert_eq]].
    split; [discriminate|]. intros Hin. exfalso.
    rewrite builtin_parser_lookup_list in Hid.
    by apply not_elem_of_list_to_map_2 in Hid.
Qed.

(** X7.  On a parser that is not null, [JT808FrameParserOverride] always
    returns true, and the parser it leaves maps the ID to the new handler
    and every other ID to what it was mapped to; on a null parser it
    returns false. *)
Theorem JT808FrameParserOverride_replaces `{Util} (pair : Z * ParseHandler) :
  JT808FrameParserOverride None pair = (false, None)
  ∧ ∀ parser : Parser,
      JT808FrameParserOverride (Some parser) pair
      = (true, Some (<[pair.1 := pair.2]> parser)).
Proof.
  split; [reflexivity|]. intros parser.
  unfold JT808FrameParserOverride, std_map_insert.
  destruct (parser !! pair.1) as [h0|] eqn:Hid.
  - rewrite lookup_delete_eq. by rewrite insert_delete_eq.
  - by rewrite Hid.
Qed.

(** X8.  A frame parsed after [JT808FrameParserOverride] goes to the new
    handler when its message ID is the overridden one, and is parsed as
    before the override otherwise. *)
Theorem JT808FrameParse_after_Override `{Util} (parser : Parser) (id : Z)
    (h : ParseHandler) (inb out : InputBuffer) (p : ProtocolParameter) (head : MsgHead) :
  ReverseEscape inb = Some out →
  3 ≤ in_size out →
  checksum_ok out →
  JT808FrameHeadParse out (Some (msg_head (parse p))) = Some (0, Some head) →
  ∃ parser',
    JT808FrameParserOverride (Some parser) (id, h) = (true, Some parser')
    ∧ JT808FrameParse parser' inb (Some p)
      = if decide (msg_id head = id) then h out (Some (with_decoded_head head p))
        else JT808FrameParse parser inb (Some p).
Proof.
  intros Hout Hsz Hsum Hhead.
  exists (<[id := h]> parser). split.
  { unfold JT808FrameParserOverride, std_map_insert. cbn [fst snd].
    destruct (parser !! id) as [h0|] eqn:Hid.
    - rewrite lookup_delete_eq. by rewrite insert_delete_eq.
    - by rewrite Hid. }
  rewrite (JT808FrameParse_steps (<[id := h]> parser) inb out p 0 head Hout Hsz Hhead).
  rewrite (JT808FrameParse_steps parser inb out p 0 head Hout Hsz Hhead).
  destruct (decide (msg_id head = id)) as [Hid|Hid].
  - rewrite decide_True by done. rewrite decide_False by (intros Hne; by apply Hne).
    by rewrite Hid, lookup_insert_eq.
  - rewrite lookup_insert_ne by congruence. reflexivity.
Qed.
(** * Properties of protocol_parameter.h and client.h *)

(** *** Registration information *)

Ltac register_simpl :=
  cbn [RegisterInfo.province_id RegisterInfo.city_id RegisterInfo.manufacturer_id
       RegisterInfo.terminal_model RegisterInfo.terminal_id RegisterInfo.car_plate_color
       RegisterInfo.car_plate_num
       RegisterInfo.set_province_id RegisterInfo.set_city_id
       RegisterInfo.set_manufacturer_id RegisterInfo.set_terminal_model
       RegisterInfo.set_terminal_id RegisterInfo.set_car_plate_color
       RegisterInfo.set_car_plate_num] in *.

Ltac client_simpl :=
  cbn [location_report_immediately_flag_ polygon_areas_ parameter_
       set_location_report_immediately_flag_ set_polygon_areas_ set_parameter_] in *.


(** X10.  The two overloads of [SetTerminalRegisterInfo] store the same
    registration information when the plate colour is not [kVin].  With
    the colour [kVin] they agree on every field but the plate number:
    the overload taking a [RegisterInfo] empties it, the overload taking
    the seven fields leaves the plate number the client had before. *)
Theorem SetTerminalRegisterInfo_overloads (info : RegisterInfo.t) (c : JT808Client) :
  let old := register_info (send (parameter_ c)) in
  let by_info := register_info (send (parameter_ (SetTerminalRegisterInfo info c))) in
  let by_fields :=
    register_info (send (parameter_ (SetTerminalRegisterInfo7
      (RegisterInfo.province_id info) (RegisterInfo.city_id info)
      (RegisterInfo.manufacturer_id info) (RegisterInfo.terminal_model info)
      (RegisterInfo.terminal_id info) (RegisterInfo.car_plate_color info)
      (RegisterInfo.car_plate_num info) c))) in
  by_fields
  = RegisterInfo.set_car_plate_num
      (if decide (RegisterInfo.car_plate_color info = kVin)
       then RegisterInfo.car_plate_num old else RegisterInfo.car_plate_num info) by_info
  ∧ RegisterInfo.car_plate_num by_info
    = (if decide (RegisterInfo.car_plate_color info = kVin) then ""
       else RegisterInfo.car_plate_num info).
Proof.
  cbv zeta. unfold SetTerminalRegisterInfo, SetTerminalRegisterInfo7,
    RegisterInfo_operator_assign, deref.
  destruct info as [p ci m tm ti col num]. client_simpl. fields_simpl. register_simpl.
  destruct (decide (col = kVin)) as [Hvin|Hvin].
  - rewrite !decide_False by (intros Hne; by apply Hne). register_simpl.
    split; reflexivity.
  - rewrite !decide_True by done. register_simpl. split; reflexivity.
Qed.

(** *** The alarm word *)

(** X11.  [SetInOutAreaAlarmBit] gives bit 20 of the alarm word the low
    bit of its argument and leaves every other bit of the word as it
    was; it sets the alarm-occurred bit (bit 0) of the report flag. *)
Theorem SetInOutAreaAlarmBit_bits (in_ : Z) (c : JT808Client) (n : Z) :
  Z.testbit (LocationBasicInformation.alarm
               (location_info (send (parameter_ (SetInOutAreaAlarmBit in_ c))))) n
  = (if decide (n = 20) then Z.testbit in_ 0
     else Z.testbit (LocationBasicInformation.alarm
                       (location_info (send (parameter_ c)))) n)
  ∧ Z.testbit (location_report_immediately_flag_ (SetInOutAreaAlarmBit in_ c)) 0 = true.
Proof.
  unfold SetInOutAreaAlarmBit. client_simpl. fields_simpl.
  cbn [LocationBasicInformation.alarm LocationBasicInformation.set_alarm].
  split.
  - generalize (LocationBasicInformation.alarm (location_info (send (parameter_ c)))).
    intros value.
    destruct (decide (n < 0)) as [Hneg|Hpos].
    { rewrite decide_False by lia. by rewrite !Z.testbit_neg_r by lia. }
    rewrite Z.lor_spec, Z.ldiff_spec.
    change (Z.shiftl 1 20) with (2 ^ 20).
    rewrite Z.pow2_bits_eqb by lia.
    rewrite Z.shiftl_spec by lia.
    case_decide as Hn.
    + subst n. change (20 - 20) with 0. rewrite Z.land_spec.
      change (Z.testbit 1 0) with true. change (20 =? 20) with true.
      cbn [negb]. rewrite !andb_true_r, andb_false_r. reflexivity.
    + replace (20 =? n) with false by (symmetry; apply Z.eqb_neq; lia).
      cbn [negb]. rewrite andb_true_r.
      destruct (decide (n < 20)) as [Hlt|Hge].
      * rewrite (Z.testbit_neg_r _ (n - 20)) by lia. by rewrite orb_false_r.
      * rewrite Z.land_spec.
        replace (Z.testbit 1 (n - 20)) with false.
        { by rewrite andb_false_r, orb_false_r. }
        symmetry. change 1 with (2 ^ 0). rewrite Z.pow2_bits_eqb by lia.
        apply Z.eqb_neq. lia.
  - unfold u16. change 65536 with (2 ^ 16). rewrite Z.mod_pow2_bits_low by lia.
    rewrite Z.lor_spec. unfold kAlarmOccurred. change (Z.testbit 1 0) with true.
    apply orb_true_r.
Qed.

(** *** The polygon area set *)

Lemma set_polygon_areas_same (c : JT808Client) : set_polygon_areas_ (polygon_areas_ c) c = c.
Proof. by destruct c. Qed.

(** X12.  [AddPolygonArea] returns 0 or -1; it returns -1 exactly when
    the area ID is already in the set, and then leaves the client as it
    was; when it returns 0 the area is found under its ID, and deleting
    that ID gives back the client from before the call. *)
Theorem AddPolygonArea_result (area : PolygonArea) (c : JT808Client) :
  let rc := (AddPolygonArea area c).1 in
  let c' := (AddPolygonArea area c).2 in
  (rc = 0 ∨ rc = -1)
  ∧ (rc = -1 ↔ is_Some (polygon_areas_ c !! area_id area))
  ∧ (rc = -1 → c' = c)
  ∧ (rc = 0 →
     polygon_areas_ c' !! area_id area = Some area
     ∧ DeletePolygonAreaByID (area_id area) c' = c).
Proof.
  cbv zeta. unfold AddPolygonArea, std_map_insert.
  destruct (polygon_areas_ c !! area_id area) as [old|] eqn:Hid; cbn [fst snd].
  - split; [by right|]. split; [split; [by eexists|reflexivity]|].
    split; [intros _; apply set_polygon_areas_same|discriminate].
  - split; [by left|]. split; [split; [discriminate|intros [? ?]; discriminate]|].
    split; [discriminate|]. intros _. client_simpl.
    split; [apply lookup_insert_eq|].
    unfold DeletePolygonAreaByID. client_simpl. rewrite lookup_insert_eq.
    rewrite delete_insert_id by done. destruct c; reflexivity.
Qed.

(** X13.  [GetPolygonAreaByID] never returns 0 and never writes the area
    it is given: it returns -1 when the pointer is null, when the set is
    empty and also when the ID is in the set; when the ID is not in a
    non-empty set it reads through the end iterator and has no defined
    result. *)
Theorem GetPolygonAreaByID_never_succeeds (c : JT808Client) (id : Z)
    (area : option PolygonArea) :
  GetPolygonAreaByID c id area
  = if decide (is_Some area ∧ polygon_areas_ c ≠ ∅ ∧ polygon_areas_ c !! id = None)
    then None else Some (-1, area).
Proof.
  unfold GetPolygonAreaByID. destruct area as [old|].
  - destruct (decide (polygon_areas_ c = ∅)) as [Hempty|Hne].
    { rewrite decide_False; [reflexivity|]. intros (_ & Hn & _). done. }
    destruct (polygon_areas_ c !! id) as [a|] eqn:Hid.
    + rewrite decide_False; [reflexivity|]. intros (_ & _ & Hn). discriminate.
    + rewrite decide_True; [reflexivity|]. split; [by eexists|]. split; done.
  - rewrite decide_False; [reflexivity|]. intros ([? ?] & _). discriminate.
Qed.

Lemma map_fold_std_map_insert {V : Type} (m : gmap Z V) :
  map_fold (λ id x r, (std_map_insert id x r).2) ∅ m = m.
Proof.
  apply (map_fold_weak_ind (λ r m, r = m)); [reflexivity|].
  intros i x m' r Hi ->. unfold std_map_insert. by rewrite Hi.
Qed.

(** X14.  [GetAllPolygonArea] returns -1 and leaves [*areas] alone when
    the pointer is null or the client has no area; otherwise it returns
    0 and [*areas] is exactly the client's set, whatever it held
    before. *)
Theorem GetAllPolygonArea_copies (c : JT808Client) (areas : option PolygonAreaSet) :
  GetAllPolygonArea c areas
  = match areas with
    | None => (-1, None)
    | Some old =>
      if decide (polygon_areas_ c = ∅) then (-1, Some old) else (0, Some (polygon_areas_ c))
    end.
Proof.
  unfold GetAllPolygonArea. destruct areas as [old|]; [|reflexivity].
  case_decide; [reflexivity|]. by rewrite map_fold_std_map_insert.
Qed.

Lemma map_fold_insert_union {V : Type} (areas old : gmap Z V) :
  map_fold (λ id x r, <[id := x]> r) old areas = areas ∪ old.
Proof.
  apply (map_fold_weak_ind (λ r m, r = m ∪ old)).
  - by rewrite (left_id_L ∅ (∪)).
  - intros i x m r Hi ->. by rewrite insert_union_l.
Qed.

(** X15.  After [UpdatePolygonAreaByAreas] every ID of the given set
    maps to the area given for it, and every other ID to what it mapped
    to before: the client's set is the given set laid over the old
    one. *)
Theorem UpdatePolygonAreaByAreas_union (areas : PolygonAreaSet) (c : JT808Client)
    (id : Z) :
  polygon_areas_ (UpdatePolygonAreaByAreas areas c) !! id
  = match areas !! id with
    | Some area => Some area
    | None => polygon_areas_ c !! id
    end.
Proof.
  unfold UpdatePolygonAreaByAreas. client_simpl.
  rewrite map_fold_insert_union.
  destruct (areas !! id) as [a|] eqn:Hid.
  - by apply lookup_union_Some_l.
  - by rewrite lookup_union_r.
Qed.

Lemma DeletePolygonAreaByID_lookup (id : Z) (c : JT808Client) (k : Z) :
  polygon_areas_ (DeletePolygonAreaByID id c) !! k
  = if decide (k = id) then None else polygon_areas_ c !! k.
Proof.
  unfold DeletePolygonAreaByID.
  destruct (polygon_areas_ c !! id) as [a|] eqn:Hid; client_simpl.
  - case_decide as Hk.
    + subst k. apply lookup_delete_eq.
    + by rewrite lookup_delete_ne by done.
  - case_decide as Hk; [by subst k|reflexivity].
Qed.

Lemma foldl_DeletePolygonAreaByID_lookup (ids : list Z) (c : JT808Client) (k : Z) :
  polygon_areas_ (foldl (λ c id, DeletePolygonAreaByID id c) c ids) !! k
  = if decide (k ∈ ids) then None else polygon_areas_ c !! k.
Proof.
  revert c. induction ids as [|id ids IH]; intros c.
  - cbn [foldl]. rewrite decide_False; [reflexivity|]. apply not_elem_of_nil.
  - cbn [foldl]. rewrite IH, DeletePolygonAreaByID_lookup.
    destruct (decide (k ∈ ids)) as [Hin|Hnin].
    + rewrite decide_True; [reflexivity|]. by apply list_elem_of_further.
    + destruct (decide (k = id)) as [->|Hne].
      * rewrite decide_True; [reflexivity|]. apply list_elem_of_here.
      * rewrite decide_False; [reflexivity|].
        rewrite elem_of_cons. intros [?|?]; done.
Qed.

(** X16.  After [DeletePolygonAreaByIDs] an area is left in the set
    exactly when the list of IDs is not empty and does not name it: a
    list of IDs removes its members and nothing else, IDs that are not in
    the set being skipped, and the empty list removes every area. *)
Theorem DeletePolygonAreaByIDs_lookup (ids : list Z) (c : JT808Client) (k : Z) :
  polygon_areas_ (DeletePolygonAreaByIDs ids c) !! k
  = if decide (ids = [] ∨ k ∈ ids) then None else polygon_areas_ c !! k.
Proof.
  destruct ids as [|id ids].
  - cbn. rewrite decide_True by (by left). apply lookup_empty.
  - unfold DeletePolygonAreaByIDs.
    rewrite foldl_DeletePolygonAreaByID_lookup.
    destruct (decide (k ∈ id :: ids)) as [Hin|Hnin].
    + rewrite decide_True by (by right). reflexivity.
    + rewrite decide_False; [reflexivity|]. intros [?|?]; done.
Qed.
(** * Further properties of the built-in handlers *)

(** *** Reads inside the frame *)

Lemma drop_nth (inb : list byte) (n : nat) :
  (n < length inb)%nat → drop n inb = nth n inb x00 :: drop (S n) inb.
Proof.
  intros Hn. destruct (lookup_lt_is_Some_2 inb n Hn) as [b Hb].
  rewrite (nth_lookup_Some _ _ x00 _ Hb). by apply drop_S.
Qed.

Lemma be32_at_range (inb : InputBuffer) (i : Z) : 0 ≤ be32_at inb i < 4294967296.
Proof.
  unfold be32_at. pose proof (byte_at_range inb i). pose proof (byte_at_range inb (i + 1)).
  pose proof (byte_at_range inb (i + 2)). pose proof (byte_at_range inb (i + 3)). lia.
Qed.

Lemma slice_bytes_at (inb : InputBuffer) (a b : Z) :
  0 ≤ a → a ≤ b → b ≤ in_size inb → slice inb a b = Some (bytes_at inb a b).
Proof. apply slice_take_drop. Qed.

Lemma swap16_be16_at (inb : InputBuffer) (pos : Z) :
  0 ≤ pos → pos + 2 ≤ in_size inb → swap16 inb pos = Some (be16_at inb pos).
Proof.
  intros Hpos Hfit. unfold swap16. rewrite slice_take_drop by lia.
  cbn [mbind option_bind]. f_equal.
  replace (Z.to_nat (pos + 2 - pos)) with 2%nat by lia.
  unfold in_size in Hfit.
  rewrite drop_nth by lia. rewrite (drop_nth _ (S _)) by lia.
  cbn [take]. rewrite EndianSwap16_be. unfold be16_at, byte_at.
  by replace (Z.to_nat (pos + 1)) with (S (Z.to_nat pos)) by lia.
Qed.

Lemma swap32_be32_at (inb : InputBuffer) (pos : Z) :
  0 ≤ pos → pos + 4 ≤ in_size inb → swap32 inb pos = Some (be32_at inb pos).
Proof.
  intros Hpos Hfit. unfold swap32. rewrite slice_take_drop by lia.
  cbn [mbind option_bind]. f_equal.
  replace (Z.to_nat (pos + 4 - pos)) with 4%nat by lia.
  unfold in_size in Hfit.
  rewrite drop_nth by lia. rewrite (drop_nth _ (S _)) by lia.
  rewrite (drop_nth _ (S (S _))) by lia. rewrite (drop_nth _ (S (S (S _)))) by lia.
  cbn [take]. rewrite EndianSwap32_be. unfold be32_at, byte_at.
  replace (Z.to_nat (pos + 1)) with (S (Z.to_nat pos)) by lia.
  replace (Z.to_nat (pos + 2)) with (S (S (Z.to_nat pos))) by lia.
  by replace (Z.to_nat (pos + 3)) with (S (S (S (Z.to_nat pos)))) by lia.
Qed.

Lemma body_pos_range (v : Fields) : body_pos v = 13 ∨ body_pos v = 17.
Proof.
  unfold body_pos, MSGBODY_PACKET_POS, MSGBODY_NOPACKET_POS. case_decide; [by right|by left].
Qed.

Lemma msg_len_range (v : Fields) : 0 ≤ msg_len v ≤ 1023.
Proof. apply bit_msglen_range. Qed.

(** *** 0x0001 and 0x8001, general responses *)

(** X17.  The handlers registered under 0x0001 and 0x8001 succeed on
    every frame of at least 18 bytes; they read the response flow number,
    the response message ID and the result from bytes 13-14, 15-16 and 17
    of the frame, the body position of an unsegmented frame, whatever the
    packet bit of the parsed header, and write nothing else. *)
Theorem GeneralResponse_fields `{Util} (id : Z) (inb : InputBuffer) (p : ProtocolParameter) :
  id = 0x0001 ∨ id = 0x8001 →
  18 ≤ in_size inb →
  ∃ it : ParseHandler,
    builtin_parser !! id = Some it
    ∧ it inb (Some p)
      = Some (0, Some (set_parse
                         (set_respone_result (byte_at inb 17)
                            (set_respone_msg_id (be16_at inb 15)
                               (set_respone_flow_num (be16_at inb 13) (parse p)))) p)).
Proof.
  intros Hid Hsz. exists (handler GeneralResponse_body). split.
  { apply builtin_parser_lookup. unfold builtin_handlers.
    destruct Hid as [-> | ->].
    - apply list_elem_of_here.
    - apply list_elem_of_further, list_elem_of_here. }
  unfold handler, GeneralResponse_body, MSGBODY_NOPACKET_POS.
  rewrite (rd16_be16_at inb 13), (rd16_be16_at inb (13 + 2)) by lia.
  rewrite (rd_byte_at inb (13 + 4)) by lia.
  cbn [mbind option_bind].
  rewrite !(u16_small (be16_at inb _)) by apply be16_at_range.
  rewrite (u8_small (byte_at inb _)) by apply byte_at_range.
  reflexivity.
Qed.

(** *** 0x8202, temporary location tracking control *)

(** X18.  The 0x8202 handler returns -1 and writes nothing when the body
    length of the header is not 6.  When it is 6 and the frame holds the
    six bytes at the body position, the handler returns 0 with the
    interval read big-endian from the first two and the tracking time
    from the last four. *)
Theorem LocationTrackingControl_fields `{Util} (inb : InputBuffer) (v : Fields) :
  (msg_len v ≠ 6 → LocationTrackingControl_body inb v = Some (-1, v))
  ∧ (msg_len v = 6 → body_pos v + 6 ≤ in_size inb →
     LocationTrackingControl_body inb v
     = Some (0, set_location_tracking_control
                  (set_tracking_time (be32_at inb (body_pos v + 2))
                     (set_interval (be16_at inb (body_pos v))
                        (location_tracking_control v))) v)).
Proof.
  unfold LocationTrackingControl_body. split.
  - intros Hlen. by rewrite decide_True by done.
  - intros Hlen Hfit. rewrite decide_False by lia.
    pose proof (body_pos_range v) as Hpos.
    rewrite rd16_be16_at by lia. cbn [mbind option_bind].
    rewrite (u16_small (body_pos v + 2)) by lia.
    rewrite swap32_be32_at by lia. cbn [mbind option_bind].
    rewrite (u16_small (be16_at inb _)) by apply be16_at_range.
    reflexivity.
Qed.
(** *** 0x0200 and 0x0201, location reports *)

Ltac location_simpl :=
  cbn [LocationBasicInformation.alarm LocationBasicInformation.status
       LocationBasicInformation.latitude LocationBasicInformation.longitude
       LocationBasicInformation.altitude LocationBasicInformation.speed
       LocationBasicInformation.bearing LocationBasicInformation.time
       LocationBasicInformation.set_alarm LocationBasicInformation.set_status
       LocationBasicInformation.set_latitude LocationBasicInformation.set_longitude
       LocationBasicInformation.set_altitude LocationBasicInformation.set_speed
       LocationBasicInformation.set_bearing LocationBasicInformation.set_time] in *.

(** The location report content on a frame that holds the 28-byte block. *)
Lemma location_report_content_basic `{Util} (inb : InputBuffer) (pos : Z) (v : Fields) :
  0 ≤ pos → pos + 28 ≤ in_size inb →
  location_report_content inb pos v
  = let v1 := set_location_info (location_basic_at inb pos (location_info v)) v in
    if decide (msg_len v > 28) then
      '(rc, extension_info) ←
        location_extension_items (Z.to_nat (u8 (msg_len v + pos))) inb (u8 (msg_len v + pos))
          (u16 (pos + 28)) (location_extension v);
      Some (rc, set_location_extension extension_info v1)
    else Some (0, v1).
Proof.
  intros Hpos Hfit. unfold location_report_content.
  rewrite (swap32_be32_at inb pos), (swap32_be32_at inb (pos + 4)),
    (swap32_be32_at inb (pos + 8)), (swap32_be32_at inb (pos + 12)) by lia.
  rewrite (swap16_be16_at inb (pos + 16)), (swap16_be16_at inb (pos + 18)),
    (swap16_be16_at inb (pos + 20)) by lia.
  rewrite (slice_bytes_at inb (pos + 22) (pos + 28)) by lia.
  cbn [mbind option_bind]. location_simpl. unfold msg_len. fields_simpl.
  reflexivity.
Qed.

(** X19.  The 0x0200 handler returns -1 and writes nothing when the body
    length of the header is below 28.  When it is exactly 28 and the
    frame holds the 28 bytes at the body position, the handler returns 0
    with the basic information decoded big-endian from them, and it
    leaves [parse.location_extension] as it was: the additional
    information items of an earlier report stay in the map. *)
Theorem LocationReport_basic `{Util} (inb : InputBuffer) (v : Fields) :
  (msg_len v < 28 → LocationReport_body inb v = Some (-1, v))
  ∧ (msg_len v = 28 → body_pos v + 28 ≤ in_size inb →
     LocationReport_body inb v
     = Some (0, set_location_info
                  (location_basic_at inb (body_pos v) (location_info v)) v)).
Proof.
  unfold LocationReport_body. split.
  - intros Hlen. by rewrite decide_True by done.
  - intros Hlen Hfit. rewrite decide_False by lia.
    pose proof (body_pos_range v) as Hpos.
    rewrite location_report_content_basic by lia. cbv zeta.
    by rewrite decide_False by lia.
Qed.

(** X20.  The end of the additional information items is kept in a
    [uint8_t].  When the body of a 0x0200 frame is longer than 28 bytes
    and ends at frame offset 256 or later, but less than 30 bytes past
    that wrap-around, the handler returns 0 after the basic information
    and reads none of the additional information items. *)
Theorem LocationReport_end_wraps `{Util} (inb : InputBuffer) (v : Fields) :
  28 < msg_len v →
  256 ≤ body_pos v + msg_len v < body_pos v + 286 →
  body_pos v + 28 ≤ in_size inb →
  LocationReport_body inb v
  = Some (0, set_location_info (location_basic_at inb (body_pos v) (location_info v)) v).
Proof.
  intros Hlen Hwrap Hfit. unfold LocationReport_body.
  rewrite decide_False by lia.
  pose proof (body_pos_range v) as Hpos.
  rewrite location_report_content_basic by lia. cbv zeta.
  rewrite decide_True by lia.
  assert (u8 (msg_len v + body_pos v) = msg_len v + body_pos v - 256) as ->.
  { unfold u8. rewrite <- (Z.mod_add _ (-1)) by lia. apply Z.mod_small. lia. }
  rewrite (u16_small (body_pos v + 28)) by lia.
  destruct (Z.to_nat (msg_len v + body_pos v - 256)) as [|fuel];
    cbn [location_extension_items]; rewrite decide_False by lia;
    cbn [mbind option_bind]; fields_simpl.
  - by destruct v.
  - by destruct v.
Qed.

Lemma rd_1 (b c : byte) (l : list byte) : rd (b :: c :: l) 1 = Some (byteZ c).
Proof. reflexivity. Qed.

Lemma in_size_wire_extension (item : Z * list byte) :
  in_size (wire_extension item) = 2 + in_size item.2.
Proof.
  unfold wire_extension. rewrite in_size_app.
  change (in_size [byte_of_Z item.1; byte_of_Z (in_size item.2)]) with 2. lia.
Qed.

(** The loop over well-formed items stores them one after the other and
    goes on from the byte behind the last. *)
Lemma location_extension_items_wire (items : list (Z * list byte)) :
  ∀ (fuel : nat) (pre post : list byte) (end_ pos : Z) (ext : gmap Z (list byte)),
  Forall extension_ok items →
  in_size pre = pos →
  pos + in_size (concat (wire_extension <$> items)) ≤ end_ →
  end_ < 65536 →
  location_extension_items (length items + fuel)
    (pre ++ concat (wire_extension <$> items) ++ post) end_ pos ext
  = location_extension_items fuel
      (pre ++ concat (wire_extension <$> items) ++ post) end_
      (pos + in_size (concat (wire_extension <$> items))) (store_extensions items ext).
Proof.
  induction items as [|[id value] items IH];
    intros fuel pre post end_ pos ext Hok Hpre Hend Hmax.
  - cbn [fmap list_fmap concat length Nat.add store_extensions foldl].
    change (in_size []) with 0. by rewrite Z.add_0_r.
  - apply Forall_cons in Hok as [[Hid Hval] Hok]. cbn [fst snd] in Hid, Hval.
    pose proof (in_size_nonneg pre) as Hpre0.
    pose proof (in_size_nonneg value) as Hval0.
    pose proof (in_size_nonneg (concat (wire_extension <$> items))) as Hrest0.
    rewrite fmap_cons, concat_cons, in_size_app, in_size_wire_extension in Hend |- *.
    cbn [fst snd] in Hend |- *.
    assert (∀ R, wire_extension (id, value) ++ R
                 = byte_of_Z id :: byte_of_Z (in_size value) :: value ++ R) as Hw
      by reflexivity.
    rewrite <- !(app_assoc (wire_extension (id, value))).
    rewrite !Hw. clear Hw.
    set (rest := concat (wire_extension <$> items)) in *.
    set (inb := pre ++ byte_of_Z id :: byte_of_Z (in_size value) :: value ++ rest ++ post).
    assert (rd inb (pos + 1) = Some (in_size value)) as Hlen.
    { unfold inb. rewrite (rd_at pre _ (pos + 1) 1) by lia. rewrite rd_1.
      by rewrite byteZ_byte_of_Z_small by lia. }
    assert (rd inb pos = Some id) as Hrd.
    { unfold inb. rewrite (rd_at pre _ pos 0) by lia. rewrite rd_0.
      by rewrite byteZ_byte_of_Z_small by lia. }
    assert (inb = (pre ++ [byte_of_Z id; byte_of_Z (in_size value)]) ++ value ++ rest ++ post)
      as Hmid by (unfold inb; by rewrite <- app_assoc).
    assert (slice inb (pos + 2) (pos + 2 + in_size value) = Some value) as Hslice.
    { rewrite Hmid. apply slice_mid; [|reflexivity].
      rewrite in_size_app.
      change (in_size [byte_of_Z id; byte_of_Z (in_size value)]) with 2. lia. }
    assert (inb = (pre ++ [byte_of_Z id; byte_of_Z (in_size value)] ++ value) ++ rest ++ post)
      as Hnext by (unfold inb; rewrite <- !app_assoc; reflexivity).
    clearbody inb.
    cbn [length Nat.add location_extension_items].
    rewrite decide_True by lia.
    rewrite Hlen. cbn [mbind option_bind].
    rewrite decide_False by lia.
    rewrite Hslice. cbn [mbind option_bind].
    rewrite Hrd. cbn [mbind option_bind].
    rewrite (u16_small (pos + (2 + in_size value))) by lia.
    rewrite Hnext. unfold rest.
    rewrite IH; [|done| | |done].
    + subst rest. cbn [store_extensions foldl fst snd]. f_equal. lia.
    + rewrite !in_size_app.
      change (in_size [byte_of_Z id; byte_of_Z (in_size value)]) with 2. lia.
    + fold rest. lia.
Qed.
Lemma length_wire_extensions (items : list (Z * list byte)) :
  2 * Z.of_nat (length items) ≤ in_size (concat (wire_extension <$> items)).
Proof.
  induction items as [|item items IH]; [done|].
  rewrite fmap_cons, concat_cons, in_size_app, in_size_wire_extension.
  pose proof (in_size_nonneg item.2). cbn [length]. lia.
Qed.

Lemma location_extension_items_done (fuel : nat) (inb : InputBuffer) (end_ pos : Z)
    (ext : gmap Z (list byte)) :
  end_ - 2 < pos → location_extension_items fuel inb end_ pos ext = Some (0, ext).
Proof. intros Hend. destruct fuel; cbn [location_extension_items]; by rewrite decide_False by lia. Qed.

Lemma set_location_extension_same (v : Fields) :
  set_location_extension (location_extension v) v = v.
Proof. by destruct v. Qed.

(** X21.  On a 0x0200 frame whose body is the 28-byte basic block
    followed by well-formed additional information items, with the
    header announcing the body length and the body ending before frame
    offset 256, the handler returns 0 and stores every item under its ID,
    in the order of the frame, on top of what [parse.location_extension]
    held before: an ID of the frame replaces the old item of that ID, and
    the old items of all other IDs stay. *)
Theorem LocationReport_extensions `{Util} (hdr basic rest : list byte)
    (items : list (Z * list byte)) (v : Fields) :
  Forall extension_ok items →
  in_size hdr = body_pos v →
  in_size basic = 28 →
  msg_len v = 28 + in_size (concat (wire_extension <$> items)) →
  body_pos v + msg_len v ≤ 255 →
  LocationReport_body (hdr ++ basic ++ concat (wire_extension <$> items) ++ rest) v
  = Some (0, set_location_extension
               (store_extensions items (location_extension v))
               (set_location_info
                  (location_basic_at
                     (hdr ++ basic ++ concat (wire_extension <$> items) ++ rest)
                     (body_pos v) (location_info v)) v)).
Proof.
  intros Hok Hhdr Hbasic Hlen Hend.
  pose proof (body_pos_range v) as Hpos.
  pose proof (length_wire_extensions items) as Hcnt.
  pose proof (in_size_nonneg rest) as Hrest.
  unfold LocationReport_body. rewrite decide_False by lia.
  rewrite location_report_content_basic
    by (rewrite ?in_size_app; lia).
  cbv zeta.
  destruct items as [|item items].
  { change (concat (wire_extension <$> [])) with (@nil byte) in *.
    change (in_size []) with 0 in Hlen. rewrite decide_False by lia.
    cbn [store_extensions foldl]. fields_simpl. reflexivity. }
  set (exts := concat (wire_extension <$> item :: items)) in *.
  assert (2 ≤ in_size exts) as Hexts by (cbn [length] in Hcnt; lia).
  rewrite decide_True by lia.
  rewrite (u8_small (msg_len v + body_pos v)) by lia.
  rewrite (u16_small (body_pos v + 28)) by lia.
  replace (Z.to_nat (msg_len v + body_pos v))
    with (length (item :: items) + (Z.to_nat (msg_len v + body_pos v)
                                    - length (item :: items)))%nat by lia.
  rewrite (app_assoc hdr basic).
  unfold exts.
  rewrite (location_extension_items_wire (item :: items) _ (hdr ++ basic) rest
             (msg_len v + body_pos v) (body_pos v + 28));
    [|done|rewrite in_size_app; lia|fold exts; lia|lia].
  rewrite location_extension_items_done by (fold exts; lia).
  cbn [mbind option_bind]. reflexivity.
Qed.

(** X22.  The 0x0201 handler takes the end of the additional information
    items two bytes too far (it adds the body length to the position
    behind the response flow number).  On every frame whose body is a
    response flow number, the 28-byte basic block and well-formed
    additional information items, followed by the checksum byte and the
    flag 0x7E, with the header announcing the body length and the frame
    ending before offset 256, the handler therefore takes the checksum
    and the flag for one more item and returns -1, after it has stored
    the flow number, the basic information and the items. *)
Theorem GetLocationInformationResponse_rejects `{Util} (hdr flow basic rest : list byte)
    (checksum : byte) (items : list (Z * list byte)) (v : Fields) :
  Forall extension_ok items →
  in_size hdr = body_pos v →
  in_size flow = 2 →
  in_size basic = 28 →
  msg_len v = 30 + in_size (concat (wire_extension <$> items)) →
  body_pos v + msg_len v + 2 ≤ 255 →
  ∃ v',
    GetLocationInformationResponse_body
      (hdr ++ flow ++ basic ++ concat (wire_extension <$> items) ++ checksum :: x7e :: rest) v
    = Some (-1, v')
    ∧ location_extension v' = store_extensions items (location_extension v).
Proof.
  intros Hok Hhdr Hflow Hbasic Hlen Hend.
  pose proof (body_pos_range v) as Hpos.
  pose proof (length_wire_extensions items) as Hcnt.
  pose proof (in_size_nonneg rest) as Hrest.
  set (exts := concat (wire_extension <$> items)) in *.
  pose proof (in_size_nonneg exts) as Hexts.
  set (post := checksum :: x7e :: rest).
  assert (in_size post = 2 + in_size rest) as Hpost
    by (unfold post; rewrite !in_size_cons; lia).
  set (inb := hdr ++ flow ++ basic ++ exts ++ post).
  assert (in_size inb = body_pos v + msg_len v + in_size post) as Hsize
    by (unfold inb; rewrite !in_size_app; lia).
  assert (inb = (hdr ++ flow ++ basic) ++ exts ++ post) as Hsplit
    by (unfold inb; by rewrite <- !app_assoc).
  assert (rd inb (body_pos v + msg_len v + 1) = Some 0x7E) as Hflag.
  { assert (inb = (hdr ++ flow ++ basic ++ exts) ++ post) as ->
      by (unfold inb; by rewrite <- !app_assoc).
    rewrite (rd_at _ _ _ 1) by (rewrite ?in_size_app; lia). reflexivity. }
  unfold GetLocationInformationResponse_body. rewrite decide_False by lia.
  rewrite (rd_byte_at inb (body_pos v)) by lia. cbn [mbind option_bind].
  rewrite (u16_small (body_pos v + 2)) by lia.
  rewrite location_report_content_basic by lia. cbv zeta.
  unfold msg_len in *. fields_simpl.
  rewrite decide_True by lia.
  set (len := bit_msglen (msgbody_attr (msg_head v))) in *.
  rewrite (u8_small (len + (body_pos v + 2))) by lia.
  rewrite (u16_small (body_pos v + 2 + 28)) by lia.
  replace (Z.to_nat (len + (body_pos v + 2)))
    with (length items + S (Z.to_nat (len + (body_pos v + 2)) - length items - 1))%nat by lia.
  clearbody inb. subst inb. subst exts.
  rewrite (location_extension_items_wire items _ (hdr ++ flow ++ basic) post
             (len + (body_pos v + 2)) (body_pos v + 2 + 28));
    [|done|rewrite !in_size_app; lia|lia|lia].
  cbn [location_extension_items].
  rewrite decide_True by lia.
  replace (body_pos v + 2 + 28 + in_size (concat (wire_extension <$> items)) + 1)
    with (body_pos v + len + 1) by lia.
  rewrite Hflag. cbn [mbind option_bind].
  rewrite decide_True by lia.
  eexists. split; [reflexivity|]. fields_simpl. reflexivity.
Qed.
(** *** 0x8106, 0x8605 and 0x8800: lists of IDs *)

Lemma in_size_wire_ids32 (ids : list Z) : in_size (wire_ids32 ids) = 4 * Z.of_nat (length ids).
Proof.
  unfold wire_ids32. induction ids as [|id ids IH]; [reflexivity|].
  rewrite fmap_cons, concat_cons, in_size_app, IH, in_size_be32_bytes. cbn [length]. lia.
Qed.

Lemma wire_ids32_snoc (ids : list Z) (id : Z) :
  wire_ids32 (ids ++ [id]) = wire_ids32 ids ++ be32_bytes id.
Proof.
  unfold wire_ids32. rewrite fmap_app, concat_app. cbn [fmap list_fmap concat].
  by rewrite app_nil_r.
Qed.

(** The loop of 0x8106 on a list of big-endian IDs. *)
Lemma TerminalParameterIds_items_wire (ids : list Z) :
  ∀ (pre post : list byte) (pos : Z) (acc : list Z),
  Forall id32_ok ids →
  in_size pre = pos →
  pos + in_size (wire_ids32 ids) < 65536 →
  TerminalParameterIds_items (pre ++ wire_ids32 ids ++ post) (length ids) pos acc
  = Some (acc ++ ids).
Proof.
  induction ids as [|id ids IH]; intros pre post pos acc Hok Hpre Hfit.
  - cbn. by rewrite app_nil_r.
  - apply Forall_cons in Hok as [Hid Hok].
    pose proof (in_size_nonneg pre).
    rewrite in_size_wire_ids32 in Hfit. cbn [length] in Hfit.
    change (wire_ids32 (id :: ids)) with (be32_bytes id ++ wire_ids32 ids).
    rewrite <- app_assoc.
    cbn [length TerminalParameterIds_items].
    rewrite swap32_be32_bytes by done. cbn [mbind option_bind].
    rewrite (u16_small (pos + 4)) by lia.
    rewrite (app_assoc pre).
    rewrite IH; [|done| |].
    + by rewrite <- app_assoc.
    + rewrite in_size_app, in_size_be32_bytes. lia.
    + rewrite in_size_wire_ids32. lia.
Qed.

(** X23.  The 0x8106 handler returns -1 and writes nothing when the body
    length of the header is below 1 or differs from four times the count
    byte plus one.  On a body made of a count byte and that many
    big-endian 32-bit IDs, with the header announcing the body length,
    it returns 0 and [parse.terminal_parameter_ids] is exactly the list
    of the IDs, in the order of the frame, whatever it held before. *)
Theorem GetSpecificTerminalParameters_ids `{Util} :
  (∀ (inb : InputBuffer) (v : Fields),
     msg_len v < 1 ∨ msg_len v ≠ byte_at inb (body_pos v) * 4 + 1 →
     body_pos v < in_size inb →
     GetSpecificTerminalParameters_body inb v = Some (-1, v))
  ∧ (∀ (hdr rest : list byte) (ids : list Z) (v : Fields),
       Forall id32_ok ids →
       (length ids ≤ 255)%nat →
       in_size hdr = body_pos v →
       msg_len v = 1 + in_size (wire_ids32 ids) →
       GetSpecificTerminalParameters_body
         (hdr ++ byte_of_Z (Z.of_nat (length ids)) :: wire_ids32 ids ++ rest) v
       = Some (0, set_terminal_parameter_ids ids v)).
Proof.
  split.
  - intros inb v Hbad Hfit. unfold GetSpecificTerminalParameters_body.
    pose proof (body_pos_range v) as Hpos.
    case_decide as Hlen; [reflexivity|].
    rewrite rd_byte_at by lia. cbn [mbind option_bind].
    rewrite decide_True by (destruct Hbad; [lia|done]). reflexivity.
  - intros hdr rest ids v Hok Hcnt Hhdr Hlen.
    pose proof (body_pos_range v) as Hpos.
    rewrite in_size_wire_ids32 in Hlen.
    unfold GetSpecificTerminalParameters_body.
    rewrite decide_False by lia.
    rewrite (rd_at hdr _ (body_pos v) 0) by lia. rewrite rd_0.
    cbn [mbind option_bind].
    rewrite byteZ_byte_of_Z_small by lia. rewrite Nat2Z.id.
    rewrite decide_False by lia.
    rewrite (u16_small (body_pos v + 1)) by lia.
    change (hdr ++ byte_of_Z (Z.of_nat (length ids)) :: wire_ids32 ids ++ rest)
      with (hdr ++ [byte_of_Z (Z.of_nat (length ids))] ++ wire_ids32 ids ++ rest).
    rewrite app_assoc.
    rewrite TerminalParameterIds_items_wire; [reflexivity|done| |].
    + rewrite in_size_app. change (in_size [byte_of_Z (Z.of_nat (length ids))]) with 1. lia.
    + rewrite in_size_wire_ids32. lia.
Qed.

(** The loop of 0x8605 on a list of big-endian IDs behind the count byte. *)
Lemma DeletePolygonArea_ids_wire (ids : list Z) :
  ∀ (pre post : list byte) (cnt : byte) (done : list Z) (acc : list Z) (pos : Z),
  Forall id32_ok ids →
  in_size pre = pos →
  (length done + length ids ≤ 255)%nat →
  DeletePolygonArea_ids (pre ++ cnt :: wire_ids32 done ++ wire_ids32 ids ++ post)
    pos (length ids) (Z.of_nat (length done)) acc
  = Some (acc ++ ids).
Proof.
  induction ids as [|id ids IH]; intros pre post cnt done acc pos Hok Hpre Hcnt.
  - cbn. by rewrite app_nil_r.
  - apply Forall_cons in Hok as [Hid Hok]. cbn [length] in Hcnt.
    pose proof (in_size_nonneg pre).
    change (wire_ids32 (id :: ids)) with (be32_bytes id ++ wire_ids32 ids).
    cbn [length DeletePolygonArea_ids].
    change (pre ++ cnt :: wire_ids32 done ++ (be32_bytes id ++ wire_ids32 ids) ++ post)
      with (pre ++ [cnt] ++ wire_ids32 done ++ (be32_bytes id ++ wire_ids32 ids) ++ post).
    rewrite <- (app_assoc (be32_bytes id)).
    rewrite (app_assoc [cnt]), (app_assoc pre).
    rewrite swap32_be32_bytes;
      [|rewrite !in_size_app, in_size_wire_ids32; change (in_size [cnt]) with 1; lia|done].
    cbn [mbind option_bind].
    rewrite (u8_small (Z.of_nat (length done) + 1)) by lia.
    specialize (IH pre post cnt (done ++ [id]) (acc ++ [id]) pos Hok Hpre).
    rewrite wire_ids32_snoc, length_app in IH. cbn [length] in IH.
    replace (Z.of_nat (length done + 1)) with (Z.of_nat (length done) + 1) in IH by lia.
    rewrite <- !app_assoc in IH.
    rewrite <- !app_assoc. cbn [app] in IH |- *.
    rewrite IH by lia. reflexivity.
Qed.

(** X24.  The 0x8605 handler returns -1 and writes nothing when the body
    length of the header is not four times the count byte plus one.  On a
    body made of a count byte and that many big-endian 32-bit area IDs,
    with the header announcing the body length, it returns 0 and
    [parse.polygon_area_id] is exactly the list of the IDs, in the order
    of the frame. *)
Theorem DeletePolygonArea_ids_of_frame `{Util} :
  (∀ (inb : InputBuffer) (v : Fields),
     byte_at inb (body_pos v) * 4 + 1 ≠ msg_len v →
     body_pos v < in_size inb →
     DeletePolygonArea_body inb v = Some (-1, v))
  ∧ (∀ (hdr rest : list byte) (ids : list Z) (v : Fields),
       Forall id32_ok ids →
       (length ids ≤ 255)%nat →
       in_size hdr = body_pos v →
       msg_len v = 1 + in_size (wire_ids32 ids) →
       DeletePolygonArea_body
         (hdr ++ byte_of_Z (Z.of_nat (length ids)) :: wire_ids32 ids ++ rest) v
       = Some (0, set_polygon_area_id ids v)).
Proof.
  split.
  - intros inb v Hbad Hfit. unfold DeletePolygonArea_body.
    pose proof (body_pos_range v) as Hpos.
    rewrite rd_byte_at by lia. cbn [mbind option_bind].
    by rewrite decide_True by done.
  - intros hdr rest ids v Hok Hcnt Hhdr Hlen.
    pose proof (body_pos_range v) as Hpos.
    rewrite in_size_wire_ids32 in Hlen.
    unfold DeletePolygonArea_body.
    rewrite (rd_at hdr _ (body_pos v) 0) by lia. rewrite rd_0.
    cbn [mbind option_bind].
    rewrite byteZ_byte_of_Z_small by lia. rewrite Nat2Z.id.
    rewrite decide_False by lia.
    pose proof (DeletePolygonArea_ids_wire ids hdr rest
                  (byte_of_Z (Z.of_nat (length ids))) [] [] (body_pos v) Hok Hhdr) as Hloop.
    cbn [wire_ids32 fmap list_fmap concat app length] in Hloop.
    change (Z.of_nat 0) with 0 in Hloop.
    rewrite Hloop by (cbn [Nat.add]; lia). reflexivity.
Qed.
(** *** 0x8800, multimedia data upload response *)

Lemma swap16_at (pre l : list byte) (b0 b1 : byte) (pos : Z) :
  in_size pre = pos →
  swap16 (pre ++ b0 :: b1 :: l) pos = Some (byteZ b0 * 256 + byteZ b1).
Proof.
  intros Hpos. unfold swap16.
  change (b0 :: b1 :: l) with ([b0; b1] ++ l).
  rewrite (slice_mid pre [b0; b1] l) by (done || by rewrite Hpos).
  cbn [mbind option_bind]. by rewrite EndianSwap16_be.
Qed.

Lemma swap16_be16_bytes (pre l : list byte) (z pos : Z) :
  in_size pre = pos → id16_ok z →
  swap16 (pre ++ be16_bytes z ++ l) pos = Some z.
Proof.
  intros Hpos Hz. unfold id16_ok in Hz. unfold be16_bytes. cbn [app].
  rewrite swap16_at by done. rewrite !byteZ_byte_of_Z. f_equal.
  Z.div_mod_to_equations. lia.
Qed.

Lemma in_size_wire_ids16 (ids : list Z) : in_size (wire_ids16 ids) = 2 * Z.of_nat (length ids).
Proof.
  unfold wire_ids16. induction ids as [|id ids IH]; [reflexivity|].
  rewrite fmap_cons, concat_cons, in_size_app, IH. cbn [length].
  change (in_size (be16_bytes id)) with 2. lia.
Qed.

Lemma wire_ids16_snoc (ids : list Z) (id : Z) :
  wire_ids16 (ids ++ [id]) = wire_ids16 ids ++ be16_bytes id.
Proof.
  unfold wire_ids16. rewrite fmap_app, concat_app. cbn [fmap list_fmap concat].
  by rewrite app_nil_r.
Qed.

(** The loop of 0x8800 on a list of big-endian IDs, five bytes behind
    the body position. *)
Lemma reload_packet_ids_items_wire (ids : list Z) :
  ∀ (pre post : list byte) (done : list Z) (acc : list Z) (pos : Z),
  Forall id16_ok ids →
  in_size pre = pos + 5 →
  reload_packet_ids_items (pre ++ wire_ids16 done ++ wire_ids16 ids ++ post)
    pos (length ids) (Z.of_nat (length done)) acc
  = Some (acc ++ ids).
Proof.
  induction ids as [|id ids IH]; intros pre post done acc pos Hok Hpre.
  - cbn. by rewrite app_nil_r.
  - apply Forall_cons in Hok as [Hid Hok].
    change (wire_ids16 (id :: ids)) with (be16_bytes id ++ wire_ids16 ids).
    cbn [length reload_packet_ids_items].
    rewrite <- (app_assoc (be16_bytes id)).
    rewrite (app_assoc pre).
    rewrite swap16_be16_bytes; [|rewrite in_size_app, in_size_wire_ids16; lia|done].
    cbn [mbind option_bind].
    specialize (IH pre post (done ++ [id]) (acc ++ [id]) pos Hok Hpre).
    rewrite wire_ids16_snoc, length_app in IH. cbn [length] in IH.
    replace (Z.of_nat (length done + 1)) with (Z.of_nat (length done) + 1) in IH by lia.
    rewrite <- !app_assoc in IH.
    rewrite <- !app_assoc.
    rewrite IH. reflexivity.
Qed.

Ltac upload_simpl :=
  cbn [MultiMediaDataUploadResponse.media_id MultiMediaDataUploadResponse.reload_packet_ids
       MultiMediaDataUploadResponse.set_media_id
       MultiMediaDataUploadResponse.set_reload_packet_ids
       MultiMediaDataUpload.media_id MultiMediaDataUpload.media_type
       MultiMediaDataUpload.media_format MultiMediaDataUpload.media_event
       MultiMediaDataUpload.channel_id MultiMediaDataUpload.loaction_report_body
       MultiMediaDataUpload.media_data
       MultiMediaDataUpload.set_media_id MultiMediaDataUpload.set_media_type
       MultiMediaDataUpload.set_media_format MultiMediaDataUpload.set_media_event
       MultiMediaDataUpload.set_channel_id MultiMediaDataUpload.set_loaction_report_body
       MultiMediaDataUpload.set_media_data] in *.

(** X25.  The 0x8800 handler always returns 0 on a frame that holds what
    it reads.  With a body length of at most 4 it stores the multimedia
    ID and leaves [reload_packet_ids] as it was, so the IDs of an earlier
    response stay.  With a longer body made of the multimedia ID, a count
    byte and that many big-endian 16-bit IDs, it replaces
    [reload_packet_ids] by the list of these IDs; the count byte alone
    decides how many are read, the body length is not compared with it. *)
Theorem MultimediaDataUploadResponse_ids `{Util} :
  (∀ (inb : InputBuffer) (v : Fields),
     msg_len v ≤ 4 →
     body_pos v + 4 ≤ in_size inb →
     MultimediaDataUploadResponse_body inb v
     = Some (0, set_multimedia_upload_response
                  (MultiMediaDataUploadResponse.set_media_id (be32_at inb (body_pos v))
                     (multimedia_upload_response v)) v))
  ∧ (∀ (hdr rest : list byte) (media : Z) (ids : list Z) (v : Fields),
       id32_ok media →
       Forall id16_ok ids →
       (length ids ≤ 255)%nat →
       in_size hdr = body_pos v →
       4 < msg_len v →
       MultimediaDataUploadResponse_body
         (hdr ++ be32_bytes media ++ byte_of_Z (Z.of_nat (length ids))
              :: wire_ids16 ids ++ rest) v
       = Some (0, set_multimedia_upload_response
                    {| MultiMediaDataUploadResponse.media_id := media;
                       MultiMediaDataUploadResponse.reload_packet_ids := ids |} v)).
Proof.
  split.
  - intros inb v Hlen Hfit. unfold MultimediaDataUploadResponse_body.
    pose proof (body_pos_range v) as Hpos.
    rewrite swap32_be32_at by lia. cbn [mbind option_bind].
    by rewrite decide_False by lia.
  - intros hdr rest media ids v Hmedia Hok Hcnt Hhdr Hlen.
    pose proof (body_pos_range v) as Hpos.
    unfold MultimediaDataUploadResponse_body.
    rewrite swap32_be32_bytes by done. cbn [mbind option_bind].
    rewrite decide_True by lia.
    rewrite (app_assoc hdr).
    rewrite (rd_at (hdr ++ be32_bytes media) _ (body_pos v + 4) 0)
      by (rewrite ?in_size_app, ?in_size_be32_bytes; lia).
    rewrite rd_0. cbn [mbind option_bind].
    rewrite byteZ_byte_of_Z_small by lia. rewrite Nat2Z.id.
    pose proof (reload_packet_ids_items_wire ids
                  ((hdr ++ be32_bytes media) ++ [byte_of_Z (Z.of_nat (length ids))])
                  rest [] [] (body_pos v) Hok) as Hloop.
    cbn [wire_ids16 fmap list_fmap concat app length] in Hloop.
    change (Z.of_nat 0) with 0 in Hloop.
    rewrite <- (app_assoc (hdr ++ be32_bytes media)) in Hloop. cbn [app] in Hloop.
    rewrite Hloop.
    + cbn [mbind option_bind]. upload_simpl. reflexivity.
    + rewrite !in_size_app, in_size_be32_bytes.
      change (in_size [byte_of_Z (Z.of_nat (length ids))]) with 1. lia.
Qed.

(** *** 0x0801, multimedia data upload *)

(** X26.  The 0x0801 handler has no length check.  With a body length
    below 36 the range it assigns [media_data] from ends before it
    begins, and the call has no defined result.  With a body length of at
    least 36 on a frame that holds the body, it returns 0 with the
    multimedia ID read big-endian from the first four body bytes, type,
    format, event and channel from the next four, the location block from
    the 28 bytes behind them and the data from the rest of the body. *)
Theorem MultimediaDataUpload_fields `{Util} (inb : InputBuffer) (v : Fields) :
  (msg_len v < 36 → MultimediaDataUpload_body inb v = None)
  ∧ (36 ≤ msg_len v → body_pos v + msg_len v ≤ in_size inb →
     MultimediaDataUpload_body inb v
     = Some (0, set_multimedia_upload
                  {| MultiMediaDataUpload.media_id := be32_at inb (body_pos v);
                     MultiMediaDataUpload.media_type := byte_at inb (body_pos v + 4);
                     MultiMediaDataUpload.media_format := byte_at inb (body_pos v + 5);
                     MultiMediaDataUpload.media_event := byte_at inb (body_pos v + 6);
                     MultiMediaDataUpload.channel_id := byte_at inb (body_pos v + 7);
                     MultiMediaDataUpload.loaction_report_body :=
                       bytes_at inb (body_pos v + 8) (body_pos v + 36);
                     MultiMediaDataUpload.media_data :=
                       bytes_at inb (body_pos v + 36) (body_pos v + msg_len v) |} v)).
Proof.
  unfold MultimediaDataUpload_body. split.
  - intros Hlen.
    destruct (swap32 inb (body_pos v)); [|reflexivity]. cbn [mbind option_bind].
    destruct (rd inb (body_pos v + 4)); [|reflexivity]. cbn [mbind option_bind].
    destruct (rd inb (body_pos v + 5)); [|reflexivity]. cbn [mbind option_bind].
    destruct (rd inb (body_pos v + 6)); [|reflexivity]. cbn [mbind option_bind].
    destruct (rd inb (body_pos v + 7)); [|reflexivity]. cbn [mbind option_bind].
    destruct (slice inb (body_pos v + 8) (body_pos v + 36)); [|reflexivity].
    cbn [mbind option_bind].
    unfold slice. by rewrite decide_False by lia.
  - intros Hlen Hfit. pose proof (body_pos_range v) as Hpos.
    rewrite swap32_be32_at by lia.
    rewrite !rd_byte_at by lia.
    rewrite !slice_bytes_at by lia.
    cbn [mbind option_bind]. upload_simpl.
    rewrite !(u8_small (byte_at inb _)) by apply byte_at_range.
    reflexivity.
Qed.
(** *** 0x8108, terminal upgrade package *)

Lemma in_size_bytes_at (inb : InputBuffer) (a b : Z) :
  0 ≤ a → a ≤ b → b ≤ in_size inb → in_size (bytes_at inb a b) = b - a.
Proof.
  intros Ha Hab Hb. unfold bytes_at, in_size in *.
  rewrite length_take, length_drop. lia.
Qed.

Ltac upgrade_simpl :=
  cbn [UpgradeInfo.upgrade_type UpgradeInfo.upgrade_result UpgradeInfo.manufacturer_id
       UpgradeInfo.version_id UpgradeInfo.upgrade_data_total_len UpgradeInfo.upgrade_data
       UpgradeInfo.set_upgrade_type UpgradeInfo.set_upgrade_result
       UpgradeInfo.set_manufacturer_id UpgradeInfo.set_version_id
       UpgradeInfo.set_upgrade_data_total_len UpgradeInfo.set_upgrade_data] in *.

(** X27.  On a frame that holds the upgrade type, the manufacturer ID,
    the version with its length byte and the total length at the body
    position, the 0x8108 handler returns -1 exactly when the body length
    of the header is below the 11 bytes of these fields plus the version
    length; the fields are written by then, the upgrade data is not.
    Otherwise, on a frame that holds the body, it returns 0 and the
    upgrade data is the rest of the body. *)
Theorem TerminalUpgrade_length_check `{Util} (inb : InputBuffer) (v : Fields) :
  let pos := body_pos v in
  let vlen := byte_at inb (pos + 6) in
  let info :=
    UpgradeInfo.set_upgrade_data_total_len (be32_at inb (pos + 7 + vlen))
      (UpgradeInfo.set_version_id
         (string_of_list_byte (bytes_at inb (pos + 7) (pos + 7 + vlen)))
         (UpgradeInfo.set_manufacturer_id (bytes_at inb (pos + 1) (pos + 6))
            (UpgradeInfo.set_upgrade_type (byte_at inb pos) (upgrade_info v)))) in
  pos + 11 + vlen ≤ in_size inb →
  (msg_len v < 11 + vlen →
   TerminalUpgrade_body inb v = Some (-1, set_upgrade_info info v))
  ∧ (11 + vlen ≤ msg_len v → pos + msg_len v ≤ in_size inb →
     TerminalUpgrade_body inb v
     = Some (0, set_upgrade_info
                  (UpgradeInfo.set_upgrade_data
                     (bytes_at inb (pos + 11 + vlen) (pos + msg_len v)) info) v)).
Proof.
  cbv zeta. intros Hfit.
  pose proof (body_pos_range v) as Hpos.
  pose proof (msg_len_range v) as Hlen.
  pose proof (byte_at_range inb (body_pos v + 6)) as Hvlen.
  set (pos := body_pos v) in *. set (vlen := byte_at inb (pos + 6)) in *.
  assert (TerminalUpgrade_body inb v
          = let info :=
              UpgradeInfo.set_upgrade_data_total_len (be32_at inb (pos + 7 + vlen))
                (UpgradeInfo.set_version_id
                   (string_of_list_byte (bytes_at inb (pos + 7) (pos + 7 + vlen)))
                   (UpgradeInfo.set_manufacturer_id (bytes_at inb (pos + 1) (pos + 6))
                      (UpgradeInfo.set_upgrade_type (byte_at inb pos) (upgrade_info v)))) in
            let content_len := u16 (msg_len v - (11 + vlen)) in
            if decide (content_len + 9 + vlen > msg_len v)
            then Some (-1, set_upgrade_info info v)
            else content ← slice inb (pos + 11 + vlen) (pos + 11 + vlen + content_len);
                 Some (0, set_upgrade_info (UpgradeInfo.set_upgrade_data content info) v))
    as ->.
  { unfold TerminalUpgrade_body. fold pos.
    rewrite (rd_byte_at inb pos) by lia. cbn [mbind option_bind].
    rewrite (u16_small (pos + 1)) by lia.
    rewrite (slice_bytes_at inb (pos + 1) (pos + 1 + 5)) by lia. cbn [mbind option_bind].
    rewrite (u16_small (pos + 1 + 5)) by lia.
    replace (pos + 1 + 5) with (pos + 6) by lia.
    rewrite (rd_byte_at inb (pos + 6)) by lia. cbn [mbind option_bind]. fold vlen.
    rewrite (slice_bytes_at inb (pos + 6 + 1) (pos + 6 + 1 + vlen)) by lia.
    cbn [mbind option_bind].
    rewrite (u16_small (pos + 6 + (vlen + 1))) by lia.
    replace (pos + 6 + (vlen + 1)) with (pos + 7 + vlen) by lia.
    replace (pos + 6 + 1) with (pos + 7) by lia.
    rewrite !rd_byte_at by lia. cbn [mbind option_bind].
    rewrite (u16_small (pos + 7 + vlen + 4)) by lia.
    replace (pos + 7 + vlen + 4 - pos) with (11 + vlen) by lia.
    rewrite (u8_small (byte_at inb pos)) by apply byte_at_range.
    replace (Z.of_nat (length (bytes_at inb (pos + 7) (pos + 7 + vlen)))) with vlen
      by (pose proof (in_size_bytes_at inb (pos + 7) (pos + 7 + vlen)
                        ltac:(lia) ltac:(lia) ltac:(lia)) as Hsz;
          unfold in_size in Hsz; lia).
    replace (u32 (byte_at inb (pos + 7 + vlen) * 65536 * 256
                  + byte_at inb (pos + 7 + vlen + 1) * 65536
                  + byte_at inb (pos + 7 + vlen + 2) * 256 + byte_at inb (pos + 7 + vlen + 3)))
      with (be32_at inb (pos + 7 + vlen)).
    2:{ unfold u32. pose proof (be32_at_range inb (pos + 7 + vlen)) as Hr.
        unfold be32_at in *. rewrite Z.mod_small by lia. lia. }
    cbv zeta. replace (pos + 7 + vlen + 4) with (pos + 11 + vlen) by lia.
    reflexivity. }
  cbv zeta. split.
  - intros Hshort.
    assert (u16 (msg_len v - (11 + vlen)) = msg_len v - (11 + vlen) + 65536) as ->.
    { unfold u16. rewrite <- (Z.mod_add _ 1) by lia. apply Z.mod_small. lia. }
    by rewrite decide_True by lia.
  - intros Hlong Hbody.
    rewrite (u16_small (msg_len v - (11 + vlen))) by lia.
    rewrite decide_False by lia.
    rewrite slice_bytes_at by lia. cbn [mbind option_bind].
    replace (pos + 11 + vlen + (msg_len v - (11 + vlen))) with (pos + msg_len v) by lia.
    reflexivity.
Qed.
(** *** 0x0100, terminal registration *)

(** The loops that copy a zero-padded field append the bytes before the
    first zero to what the vector holds. *)
Lemma push_until_zero_bytes (n : nat) :
  ∀ (inb : InputBuffer) (pos i : Z) (vec : list byte),
  0 ≤ pos + i → pos + i + Z.of_nat n ≤ in_size inb →
  push_until_zero inb pos n i vec
  = Some (vec ++ until_zero (take n (drop (Z.to_nat (pos + i)) inb))).
Proof.
  induction n as [|n IH]; intros inb pos i vec Hpos Hfit.
  - cbn. by rewrite app_nil_r.
  - cbn [push_until_zero]. unfold rdb. rewrite decide_True by lia.
    unfold in_size in Hfit.
    rewrite (drop_nth inb (Z.to_nat (pos + i))) by lia.
    destruct (lookup_lt_is_Some_2 inb (Z.to_nat (pos + i))) as [b Hb]; [lia|].
    rewrite Hb. cbn [mbind option_bind].
    rewrite <- (nth_lookup_Some _ _ x00 _ Hb).
    cbn [take until_zero].
    case_decide as Hz; [by rewrite app_nil_r|].
    rewrite IH by (unfold in_size; lia).
    rewrite <- app_assoc. cbn [app].
    by replace (Z.to_nat (pos + (i + 1))) with (S (Z.to_nat (pos + i))) by lia.
Qed.

(** X28.  On a frame that holds a registration body of at least 37
    bytes at offset 13 (the handler always uses the body position of an
    unsegmented frame), the 0x0100 handler returns 0.  Province and city
    are read big-endian, the manufacturer ID is replaced by its five
    bytes, and the colour is byte 49.  The terminal model and the
    terminal ID are not cleared: the bytes of their fields up to the
    first zero byte are appended to what they held before.  The plate
    number is replaced by the rest of the body when the colour is not
    [kVin] and is left as it was otherwise. *)
Theorem TerminalRegister_fields `{Util} (inb : InputBuffer) (v : Fields) :
  37 ≤ msg_len v →
  13 + msg_len v ≤ in_size inb →
  TerminalRegister_body inb v
  = Some (0, set_register_info
               {| RegisterInfo.province_id := be16_at inb 13;
                  RegisterInfo.city_id := be16_at inb 15;
                  RegisterInfo.manufacturer_id := bytes_at inb 17 22;
                  RegisterInfo.terminal_model :=
                    RegisterInfo.terminal_model (register_info v)
                    ++ until_zero (bytes_at inb 22 42);
                  RegisterInfo.terminal_id :=
                    RegisterInfo.terminal_id (register_info v)
                    ++ until_zero (bytes_at inb 42 49);
                  RegisterInfo.car_plate_color := byte_at inb 49;
                  RegisterInfo.car_plate_num :=
                    if decide (byte_at inb 49 ≠ kVin)
                    then string_of_list_byte (bytes_at inb 50 (13 + msg_len v))
                    else RegisterInfo.car_plate_num (register_info v) |} v).
Proof.
  intros Hlen Hfit. pose proof (msg_len_range v) as Hmax.
  unfold TerminalRegister_body, MSGBODY_NOPACKET_POS.
  rewrite (swap16_be16_at inb 13) by lia. cbn [mbind option_bind].
  change (u16 (13 + 2)) with 15.
  rewrite (swap16_be16_at inb 15) by lia. cbn [mbind option_bind].
  change (u16 (15 + 2)) with 17.
  rewrite (slice_bytes_at inb 17 (17 + 5)) by lia. cbn [mbind option_bind].
  change (u16 (17 + 5)) with 22. change (17 + 5) with 22.
  register_simpl.
  rewrite (push_until_zero_bytes 20 inb 22 0) by lia. cbn [mbind option_bind].
  change (u16 (22 + 20)) with 42.
  register_simpl.
  rewrite (push_until_zero_bytes 7 inb 42 0) by lia. cbn [mbind option_bind].
  change (u16 (42 + 7)) with 49.
  rewrite (rd_byte_at inb 49) by lia. cbn [mbind option_bind].
  change (u16 (49 + 1)) with 50.
  rewrite (u8_small (byte_at inb 49)) by apply byte_at_range.
  register_simpl.
  change (take 20 (drop (Z.to_nat (22 + 0)) inb)) with (bytes_at inb 22 42).
  change (take 7 (drop (Z.to_nat (42 + 0)) inb)) with (bytes_at inb 42 49).
  case_decide as Hcolor.
  - assert (size_t (msg_len v - 37) = msg_len v - 37) as ->
      by (unfold size_t; apply Z.mod_small; lia).
    rewrite slice_bytes_at by lia. cbn [mbind option_bind]. register_simpl.
    replace (50 + (msg_len v - 37)) with (13 + msg_len v) by lia.
    reflexivity.
  - reflexivity.
Qed.

(** *** 0x0104, query terminal parameters response *)

(** X29.  The 0x0104 handler returns -1 and writes nothing when the body
    length of the header is below 3.  On a body made of a response flow
    number, a count byte and that many well-formed parameter items, with
    the header announcing the body length, it returns 0, stores the flow
    number read big-endian, and leaves in [parse.terminal_parameters]
    exactly the mapping of the items, whatever the map held before; of
    two items with the same ID the first is kept. *)
Theorem GetTerminalParametersResponse_mapping `{Util} :
  (∀ (inb : InputBuffer) (v : Fields),
     msg_len v < 3 → GetTerminalParametersResponse_body inb v = Some (-1, v))
  ∧ (∀ (hdr rest : list byte) (f0 f1 : byte) (items : list (Z * list byte)) (v : Fields),
       Forall parameter_ok items →
       (length items ≤ 255)%nat →
       in_size hdr = body_pos v →
       msg_len v = 2 + in_size (wire_parameters items) →
       GetTerminalParametersResponse_body
         (hdr ++ f0 :: f1 :: wire_parameters items ++ rest) v
       = Some (0, set_terminal_parameters (list_to_map items)
                    (set_respone_flow_num (byteZ f0 * 256 + byteZ f1) v))).
Proof.
  split.
  - intros inb v Hlen. unfold GetTerminalParametersResponse_body.
    by rewrite decide_True by done.
  - intros hdr rest f0 f1 items v Hok Hcnt Hhdr Hlen.
    pose proof (body_pos_range v) as Hpos.
    pose proof (msg_len_range v) as Hmax.
    unfold wire_parameters in *. rewrite in_size_cons in Hlen.
    pose proof (in_size_nonneg (concat (wire_parameter <$> items))) as Hrest0.
    unfold GetTerminalParametersResponse_body.
    rewrite decide_False by lia.
    rewrite swap16_at by done. cbn [mbind option_bind].
    rewrite (u16_small (body_pos v + 2)) by lia.
    rewrite (rd_at hdr _ (body_pos v + 2) 2) by lia.
    change (rd (f0 :: f1 :: (byte_of_Z (Z.of_nat (length items))
                               :: concat (wire_parameter <$> items)) ++ rest) 2)
      with (Some (byteZ (byte_of_Z (Z.of_nat (length items))))).
    cbn [mbind option_bind].
    rewrite byteZ_byte_of_Z_small by lia. rewrite Nat2Z.id.
    rewrite (u16_small (body_pos v + 2 + 1)) by lia.
    fields_simpl.
    change (hdr ++ f0 :: f1 :: (byte_of_Z (Z.of_nat (length items))
                                  :: concat (wire_parameter <$> items)) ++ rest)
      with (hdr ++ [f0; f1; byte_of_Z (Z.of_nat (length items))]
                ++ concat (wire_parameter <$> items) ++ rest).
    rewrite app_assoc.
    rewrite TerminalParameters_items_wire; [|done| |lia].
    + cbn [mbind option_bind]. fields_simpl. do 2 f_equal.
      assert (foldl (λ m kv, (std_map_insert kv.1 kv.2 m).2) ∅ items
              = (list_to_map items : gmap Z (list byte))) as ->.
      { apply map_eq. intros k.
        by rewrite foldl_std_map_insert_lookup, lookup_empty. }
      reflexivity.
    + rewrite in_size_app.
      change (in_size [f0; f1; byte_of_Z (Z.of_nat (length items))]) with 3. lia.
Qed.
(** ** The further theorems at concrete inputs *)

Lemma JT808FrameParse_short_frame_undefined_witness :
  JT808FrameParse builtin_parser frame_empty (Some ProtocolParameter_zero) = None.
Proof.
  apply (JT808FrameParse_short_frame_undefined builtin_parser frame_empty frame_empty
           ProtocolParameter_zero).
  - reflexivity.
  - reflexivity.
Defined.

Lemma JT808FrameParse_short_header_witness :
  JT808FrameParse builtin_parser frame_short (Some ProtocolParameter_zero)
  = Some (ParserError.HeaderParseError, Some ProtocolParameter_zero).
Proof.
  apply (JT808FrameParse_short_header builtin_parser frame_short frame_short
           ProtocolParameter_zero).
  - reflexivity.
  - change (in_size frame_short) with 4. lia.
  - reflexivity.
Defined.

Lemma JT808FrameParse_after_Override_witness :
  ∃ parser',
    JT808FrameParserOverride (Some builtin_parser) (kTerminalHeartBeat, reject_handler)
    = (true, Some parser')
    ∧ JT808FrameParse parser' frame_heartbeat (Some ProtocolParameter_zero)
      = if decide (msg_id head_heartbeat = kTerminalHeartBeat)
        then reject_handler frame_heartbeat
               (Some (with_decoded_head head_heartbeat ProtocolParameter_zero))
        else JT808FrameParse builtin_parser frame_heartbeat (Some ProtocolParameter_zero).
Proof.
  apply (JT808FrameParse_after_Override builtin_parser kTerminalHeartBeat reject_handler
           frame_heartbeat frame_heartbeat ProtocolParameter_zero head_heartbeat).
  - reflexivity.
  - change (in_size frame_heartbeat) with 15. lia.
  - reflexivity.
  - reflexivity.
Defined.

Lemma GeneralResponse_fields_witness :
  ∃ it : ParseHandler,
    builtin_parser !! kPlatformGeneralResponse = Some it
    ∧ it frame_general_response (Some ProtocolParameter_zero)
      = Some (0, Some (set_parse
                         (set_respone_result (byte_at frame_general_response 17)
                            (set_respone_msg_id (be16_at frame_general_response 15)
                               (set_respone_flow_num (be16_at frame_general_response 13)
                                  (parse ProtocolParameter_zero)))) ProtocolParameter_zero)).
Proof.
  apply (GeneralResponse_fields kPlatformGeneralResponse frame_general_response
           ProtocolParameter_zero).
  - right. reflexivity.
  - change (in_size frame_general_response) with 20. lia.
Defined.

Lemma LocationTrackingControl_fields_witness :
  LocationTrackingControl_body frame_tracking_control
    (parse (with_parsed_attr 6 ProtocolParameter_zero))
  = Some (0, set_location_tracking_control
               (set_tracking_time (be32_at frame_tracking_control 15)
                  (set_interval (be16_at frame_tracking_control 13)
                     (location_tracking_control (parse ProtocolParameter_zero))))
               (parse (with_parsed_attr 6 ProtocolParameter_zero))).
Proof.
  apply (proj2 (LocationTrackingControl_fields frame_tracking_control
                  (parse (with_parsed_attr 6 ProtocolParameter_zero)))).
  - reflexivity.
  - change (in_size frame_tracking_control) with 21.
    change (body_pos (parse (with_parsed_attr 6 ProtocolParameter_zero))) with 13. lia.
Defined.

Lemma LocationReport_basic_witness :
  LocationReport_body frame_location_report
    (parse (with_parsed_attr 28 ProtocolParameter_zero))
  = Some (0, set_location_info
               (location_basic_at frame_location_report 13
                  (location_info (parse ProtocolParameter_zero)))
               (parse (with_parsed_attr 28 ProtocolParameter_zero))).
Proof.
  apply (proj2 (LocationReport_basic frame_location_report
                  (parse (with_parsed_attr 28 ProtocolParameter_zero)))).
  - reflexivity.
  - change (in_size frame_location_report) with 43.
    change (body_pos (parse (with_parsed_attr 28 ProtocolParameter_zero))) with 13. lia.
Defined.

Lemma LocationReport_end_wraps_witness :
  LocationReport_body frame_location_long
    (parse (with_parsed_attr 250 ProtocolParameter_zero))
  = Some (0, set_location_info
               (location_basic_at frame_location_long 13
                  (location_info (parse ProtocolParameter_zero)))
               (parse (with_parsed_attr 250 ProtocolParameter_zero))).
Proof.
  apply (LocationReport_end_wraps frame_location_long
           (parse (with_parsed_attr 250 ProtocolParameter_zero))).
  - change (msg_len (parse (with_parsed_attr 250 ProtocolParameter_zero))) with 250. lia.
  - change (msg_len (parse (with_parsed_attr 250 ProtocolParameter_zero))) with 250.
    change (body_pos (parse (with_parsed_attr 250 ProtocolParameter_zero))) with 13. lia.
  - change (in_size frame_location_long) with 265.
    change (body_pos (parse (with_parsed_attr 250 ProtocolParameter_zero))) with 13. lia.
Defined.

Lemma LocationReport_extensions_witness :
  LocationReport_body
    (frame_header x02 x00 x00 x26 ++ location_block
       ++ concat (wire_extension <$> extension_items) ++ [x88; x7e])
    (parse (with_parsed_attr 38 ProtocolParameter_zero))
  = Some (0, set_location_extension
               (store_extensions extension_items
                  (location_extension (parse (with_parsed_attr 38 ProtocolParameter_zero))))
               (set_location_info
                  (location_basic_at
                     (frame_header x02 x00 x00 x26 ++ location_block
                        ++ concat (wire_extension <$> extension_items) ++ [x88; x7e])
                     (body_pos (parse (with_parsed_attr 38 ProtocolParameter_zero)))
                     (location_info (parse (with_parsed_attr 38 ProtocolParameter_zero))))
                  (parse (with_parsed_attr 38 ProtocolParameter_zero)))).
Proof.
  apply (LocationReport_extensions (frame_header x02 x00 x00 x26) location_block [x88; x7e]
           extension_items (parse (with_parsed_attr 38 ProtocolParameter_zero))).
  - unfold extension_items.
    apply Forall_cons; split; [unfold extension_ok; cbn [fst snd];
      change (in_size [x00; x00; x27; x10]) with 4; lia|].
    apply Forall_cons; split; [unfold extension_ok; cbn [fst snd];
      change (in_size [x00; x64]) with 2; lia|].
    apply Forall_nil_2.
  - reflexivity.
  - reflexivity.
  - reflexivity.
  - change (msg_len (parse (with_parsed_attr 38 ProtocolParameter_zero))) with 38.
    change (body_pos (parse (with_parsed_attr 38 ProtocolParameter_zero))) with 13. lia.
Defined.

Lemma GetLocationInformationResponse_rejects_witness :
  ∃ v',
    GetLocationInformationResponse_body
      (frame_header x02 x01 x00 x1e ++ [x01; x02] ++ location_block
         ++ concat (wire_extension <$> []) ++ xe4 :: x7e :: [])
      (parse (with_parsed_attr 30 ProtocolParameter_zero))
    = Some (-1, v')
    ∧ location_extension v'
      = store_extensions []
          (location_extension (parse (with_parsed_attr 30 ProtocolParameter_zero))).
Proof.
  apply (GetLocationInformationResponse_rejects (frame_header x02 x01 x00 x1e) [x01; x02]
           location_block [] xe4 [] (parse (with_parsed_attr 30 ProtocolParameter_zero))).
  - apply Forall_nil_2.
  - reflexivity.
  - reflexivity.
  - reflexivity.
  - reflexivity.
  - change (msg_len (parse (with_parsed_attr 30 ProtocolParameter_zero))) with 30.
    change (body_pos (parse (with_parsed_attr 30 ProtocolParameter_zero))) with 13. lia.
Defined.

Lemma GetSpecificTerminalParameters_ids_witness :
  GetSpecificTerminalParameters_body
    (frame_header x81 x06 x00 x09
       ++ byte_of_Z (Z.of_nat (length [0x0001; 0xF020])) :: wire_ids32 [0x0001; 0xF020]
       ++ [xca; x7e])
    (parse (with_parsed_attr 9 ProtocolParameter_zero))
  = Some (0, set_terminal_parameter_ids [0x0001; 0xF020]
               (parse (with_parsed_attr 9 ProtocolParameter_zero))).
Proof.
  apply (proj2 GetSpecificTerminalParameters_ids (frame_header x81 x06 x00 x09) [xca; x7e]
           [0x0001; 0xF020] (parse (with_parsed_attr 9 ProtocolParameter_zero))).
  - apply Forall_cons; split; [unfold id32_ok; lia|].
    apply Forall_cons; split; [unfold id32_ok; lia|]. apply Forall_nil_2.
  - cbn [length]. lia.
  - reflexivity.
  - reflexivity.
Defined.

Lemma DeletePolygonArea_ids_of_frame_witness :
  DeletePolygonArea_body
    (frame_header x86 x05 x00 x09
       ++ byte_of_Z (Z.of_nat (length [1; 2])) :: wire_ids32 [1; 2] ++ [x1c; x7e])
    (parse (with_parsed_attr 9 ProtocolParameter_zero))
  = Some (0, set_polygon_area_id [1; 2] (parse (with_parsed_attr 9 ProtocolParameter_zero))).
Proof.
  apply (proj2 DeletePolygonArea_ids_of_frame (frame_header x86 x05 x00 x09) [x1c; x7e]
           [1; 2] (parse (with_parsed_attr 9 ProtocolParameter_zero))).
  - apply Forall_cons; split; [unfold id32_ok; lia|].
    apply Forall_cons; split; [unfold id32_ok; lia|]. apply Forall_nil_2.
  - cbn [length]. lia.
  - reflexivity.
  - reflexivity.
Defined.

Lemma MultimediaDataUploadResponse_ids_witness :
  MultimediaDataUploadResponse_body
    (frame_header x88 x00 x00 x09
       ++ be32_bytes 9 ++ byte_of_Z (Z.of_nat (length [1; 3])) :: wire_ids16 [1; 3]
       ++ [x1f; x7e])
    (parse (with_parsed_attr 9 ProtocolParameter_zero))
  = Some (0, set_multimedia_upload_response
               {| MultiMediaDataUploadResponse.media_id := 9;
                  MultiMediaDataUploadResponse.reload_packet_ids := [1; 3] |}
               (parse (with_parsed_attr 9 ProtocolParameter_zero))).
Proof.
  apply (proj2 MultimediaDataUploadResponse_ids (frame_header x88 x00 x00 x09) [x1f; x7e]
           9 [1; 3] (parse (with_parsed_attr 9 ProtocolParameter_zero))).
  - unfold id32_ok. lia.
  - apply Forall_cons; split; [unfold id16_ok; lia|].
    apply Forall_cons; split; [unfold id16_ok; lia|]. apply Forall_nil_2.
  - cbn [length]. lia.
  - reflexivity.
  - change (msg_len (parse (with_parsed_attr 9 ProtocolParameter_zero))) with 9. lia.
Defined.

Lemma MultimediaDataUpload_fields_witness :
  MultimediaDataUpload_body frame_multimedia_upload
    (parse (with_parsed_attr 38 ProtocolParameter_zero))
  = Some (0, set_multimedia_upload
               {| MultiMediaDataUpload.media_id := be32_at frame_multimedia_upload 13;
                  MultiMediaDataUpload.media_type := byte_at frame_multimedia_upload 17;
                  MultiMediaDataUpload.media_format := byte_at frame_multimedia_upload 18;
                  MultiMediaDataUpload.media_event := byte_at frame_multimedia_upload 19;
                  MultiMediaDataUpload.channel_id := byte_at frame_multimedia_upload 20;
                  MultiMediaDataUpload.loaction_report_body :=
                    bytes_at frame_multimedia_upload 21 49;
                  MultiMediaDataUpload.media_data :=
                    bytes_at frame_multimedia_upload 49 51 |}
               (parse (with_parsed_attr 38 ProtocolParameter_zero))).
Proof.
  apply (proj2 (MultimediaDataUpload_fields frame_multimedia_upload
                  (parse (with_parsed_attr 38 ProtocolParameter_zero)))).
  - change (msg_len (parse (with_parsed_attr 38 ProtocolParameter_zero))) with 38. lia.
  - change (msg_len (parse (with_parsed_attr 38 ProtocolParameter_zero))) with 38.
    change (body_pos (parse (with_parsed_attr 38 ProtocolParameter_zero))) with 13.
    change (in_size frame_multimedia_upload) with 53. lia.
Defined.

Lemma TerminalUpgrade_length_check_witness :
  TerminalUpgrade_body frame_upgrade (parse (with_parsed_attr 18 ProtocolParameter_zero))
  = Some (0, set_upgrade_info
               (UpgradeInfo.set_upgrade_data (bytes_at frame_upgrade 27 31)
                  (UpgradeInfo.set_upgrade_data_total_len (be32_at frame_upgrade 23)
                     (UpgradeInfo.set_version_id
                        (string_of_list_byte (bytes_at frame_upgrade 20 23))
                        (UpgradeInfo.set_manufacturer_id (bytes_at frame_upgrade 14 19)
                           (UpgradeInfo.set_upgrade_type (byte_at frame_upgrade 13)
                              (upgrade_info (parse ProtocolParameter_zero)))))))
               (parse (with_parsed_attr 18 ProtocolParameter_zero))).
Proof.
  apply (proj2 (TerminalUpgrade_length_check frame_upgrade
                  (parse (with_parsed_attr 18 ProtocolParameter_zero))
                  ltac:(change (in_size frame_upgrade) with 33;
                        change (body_pos (parse (with_parsed_attr 18 ProtocolParameter_zero)))
                          with 13;
                        change (byte_at frame_upgrade (13 + 6)) with 3; lia))).
  - change (msg_len (parse (with_parsed_attr 18 ProtocolParameter_zero))) with 18.
    change (body_pos (parse (with_parsed_attr 18 ProtocolParameter_zero))) with 13.
    change (byte_at frame_upgrade (13 + 6)) with 3. lia.
  - change (msg_len (parse (with_parsed_attr 18 ProtocolParameter_zero))) with 18.
    change (body_pos (parse (with_parsed_attr 18 ProtocolParameter_zero))) with 13.
    change (in_size frame_upgrade) with 33. lia.
Defined.

Lemma TerminalRegister_fields_witness :
  TerminalRegister_body frame_register (parse (with_parsed_attr 41 ProtocolParameter_zero))
  = Some (0, set_register_info
               {| RegisterInfo.province_id := be16_at frame_register 13;
                  RegisterInfo.city_id := be16_at frame_register 15;
                  RegisterInfo.manufacturer_id := bytes_at frame_register 17 22;
                  RegisterInfo.terminal_model :=
                    RegisterInfo.terminal_model
                      (register_info (parse (with_parsed_attr 41 ProtocolParameter_zero)))
                    ++ until_zero (bytes_at frame_register 22 42);
                  RegisterInfo.terminal_id :=
                    RegisterInfo.terminal_id
                      (register_info (parse (with_parsed_attr 41 ProtocolParameter_zero)))
                    ++ until_zero (bytes_at frame_register 42 49);
                  RegisterInfo.car_plate_color := byte_at frame_register 49;
                  RegisterInfo.car_plate_num :=
                    if decide (byte_at frame_register 49 ≠ kVin)
                    then string_of_list_byte
                           (bytes_at frame_register 50
                              (13 + msg_len (parse (with_parsed_attr 41
                                                      ProtocolParameter_zero))))
                    else RegisterInfo.car_plate_num
                           (register_info (parse (with_parsed_attr 41
                                                    ProtocolParameter_zero))) |}
               (parse (with_parsed_attr 41 ProtocolParameter_zero))).
Proof.
  apply (TerminalRegister_fields frame_register
           (parse (with_parsed_attr 41 ProtocolParameter_zero))).
  - change (msg_len (parse (with_parsed_attr 41 ProtocolParameter_zero))) with 41. lia.
  - change (msg_len (parse (with_parsed_attr 41 ProtocolParameter_zero))) with 41.
    change (in_size frame_register) with 56. lia.
Defined.

Lemma GetTerminalParametersResponse_mapping_witness :
  GetTerminalParametersResponse_body
    (frame_header x01 x04 x00 x15 ++ x00 :: x07 :: wire_parameters [(0xF020, value_ip)]
       ++ [x75; x7e])
    (parse (with_parsed_attr 21 ProtocolParameter_zero))
  = Some (0, set_terminal_parameters (list_to_map [(0xF020, value_ip)])
               (set_respone_flow_num (byteZ x00 * 256 + byteZ x07)
                  (parse (with_parsed_attr 21 ProtocolParameter_zero)))).
Proof.
  apply (proj2 GetTerminalParametersResponse_mapping (frame_header x01 x04 x00 x15)
           [x75; x7e] x00 x07 [(0xF020, value_ip)]
           (parse (with_parsed_attr 21 ProtocolParameter_zero))).
  - apply Forall_singleton. unfold parameter_ok. cbn [fst snd].
    change (in_size value_ip) with 13. lia.
  - cbn [length]. lia.
  - reflexivity.
  - reflexivity.
Defined.
